(** * Lume e-reader: display driver, input router, readers and navigation

    A shallow embedding of [Firmware/main.py] and [Production/main.py].
    Python integers are [Z], [str] values are [string], lists are [list],
    the debounce dictionary is a [gmap].  Exceptions are a [result] type;
    mutation of [self] is explicit state passing. *)

From Stdlib Require Import ZArith List Lia Bool Ascii String DecimalString.
From Stdlib Require Import Sorting.Sorted Sorting.Permutation.
From stdpp Require Import base gmap strings list.
Import ListNotations.
Open Scope Z_scope.

(** ** A small Python runtime *)

Module Py.

(** [range(0, stop, step)] for a positive [step]. *)
Definition range_step (stop step : nat) : list nat :=
  map (fun k => (k * step)%nat) (seq 0 ((stop + step - 1) / step)).

(** An exception, carried with its message [str(e)]. *)
Record exn : Type := Exception { exn_msg : string }.

Inductive result (A : Type) : Type :=
| Ok (a : A)
| Raise (e : exn).
Arguments Ok {A} a.
Arguments Raise {A} e.

(** What a method hands back: [None] when it has no [return]. *)
Inductive retval : Type :=
| RNone
| RBool (b : bool).

(** [l[i]] with Python's negative indices; out of range is an [IndexError]. *)
Definition index {A : Type} (l : list A) (i : Z) : result A :=
  let n := Z.of_nat (length l) in
  let j := if i <? 0 then i + n else i in
  match (if (0 <=? j) && (j <? n) then nth_error l (Z.to_nat j) else None) with
  | Some a => Ok a
  | None => Raise (Exception "list index out of range")
  end.

(** *** [str] *)

Definition newline : ascii := "010"%char.
Definition nl : string := String newline EmptyString.

(** [s[:n]] *)
Fixpoint take (n : nat) (s : string) : string :=
  match n, s with
  | S n', String c s' => String c (take n' s')
  | _, _ => EmptyString
  end.

(** [s[n:]] *)
Fixpoint drop (n : nat) (s : string) : string :=
  match n, s with
  | S n', String _ s' => drop n' s'
  | _, _ => s
  end.

(** [s[i:i+n]] *)
Definition slice (i n : nat) (s : string) : string := take n (drop i s).

(** [s.split('\n')]: never empty, the empty string splits to one empty line. *)
Fixpoint split_nl (s : string) : list string :=
  match s with
  | EmptyString => [EmptyString]
  | String c s' =>
      if Ascii.eqb c newline then EmptyString :: split_nl s'
      else match split_nl s' with
           | h :: t => String c h :: t
           | [] => [String c EmptyString]
           end
  end.

(** ['\n'.join(ls)] *)
Definition join_nl (ls : list string) : string := String.concat nl ls.

(** [s] holds no line break. *)
Fixpoint no_newline (s : string) : bool :=
  match s with
  | EmptyString => true
  | String c s' => negb (Ascii.eqb c newline) && no_newline s'
  end.

(** [''.join(ls)] *)
Definition glue (ls : list string) : string := fold_right String.append EmptyString ls.

(** [s.lower()] on ASCII letters. *)
Definition lower_ascii (c : ascii) : ascii :=
  let n := nat_of_ascii c in
  if (65 <=? n)%nat && (n <=? 90)%nat then ascii_of_nat (n + 32) else c.

Fixpoint lower (s : string) : string :=
  match s with
  | EmptyString => EmptyString
  | String c s' => String (lower_ascii c) (lower s')
  end.

(** [str(n)] for an [int]. *)
Definition str_of_int (n : Z) : string :=
  DecimalString.NilZero.string_of_int (Z.to_int n).

End Py.

(** Every string of a list is a single line. *)
Abbreviation lines_ok := (Forall (fun l => Py.no_newline l = true)).

(** ** The e-paper display: packed frame encoder ([EInkDisplay.display_image]) *)

Module EInkDisplay.

Definition WIDTH : nat := 800.
Definition HEIGHT : nat := 480.

Section Encoder.
(** Panel dimensions; the driver fixes them to [WIDTH] and [HEIGHT]. *)
Variables W H : nat.
(** [image.getpixel((x, y))] of the mode-'1' image after the resize:
    0 is black, anything else (255) is white. *)
Variable getpixel : nat -> nat -> Z.

(** One turn of [for bit in range(8)]. *)
Definition pack_bit (x y : nat) (byte : Z) (bit : nat) : Z :=
  if (x + bit <? W)%nat then
    if getpixel (x + bit)%nat y =? 0
    then Z.lor byte (Z.shiftr 0x80 (Z.of_nat bit))
    else byte
  else byte.

Definition pack_byte (x y : nat) : Z :=
  fold_left (pack_bit x y) (seq 0 8) 0.

(** One turn of [for y in range(self.HEIGHT)]. *)
Definition pack_row (y : nat) : list Z :=
  map (fun x => pack_byte x y) (Py.range_step W 8).

Definition encode : list Z := flat_map pack_row (seq 0 H).

(** Bytes per row of the wire format. *)
Definition stride : nat := ((W + 7) / 8)%nat.

(** The bit of the frame [fr] that carries pixel [(x, y)], read
    most-significant-bit first. *)
Definition frame_bit (fr : list Z) (x y : nat) : bool :=
  Z.testbit (nth (y * stride + x / 8)%nat fr 0) (Z.of_nat (7 - x mod 8)).

(** Pixel [(x, y)] is on the panel and black. *)
Definition inked (x y : nat) : bool :=
  (x <? W)%nat && (getpixel x y =? 0).
End Encoder.

Definition white : nat -> nat -> Z := fun _ _ => 255.

(** A EInkDisplay.checkerboard, black at the origin. *)
Definition checker (x y : nat) : Z := if Nat.even (x + y) then 0 else 255.

(** *** Bus protocol and busy-wait *)

Definition CS_PIN : Z := 8.
Definition DC_PIN : Z := 25.
Definition RST_PIN : Z := 18.
Definition BUSY_PIN : Z := 17.

(** Traffic on the GPIO lines and the SPI bus, oldest first. *)
Inductive io : Type :=
| GpioOut (pin : Z) (high : bool)
| SpiWrite (bytes : list Z)
| Sleep (ms : Z).

(** The driver's view of the hardware: what it has sent, and how many
    times it has read the busy line. *)
Record hw : Type := Hw { log : list io; polls : nat }.

Definition emit (l : list io) (h : hw) : hw :=
  {| log := log h ++ l; polls := polls h |}.

Definition spi_write (data : list Z) : hw -> hw :=
  emit [GpioOut CS_PIN false; SpiWrite data; GpioOut CS_PIN true].

Definition write_command (command : Z) (h : hw) : hw :=
  spi_write [command] (emit [GpioOut DC_PIN false] h).

Definition write_data (data : list Z) (h : hw) : hw :=
  spi_write data (emit [GpioOut DC_PIN true] h).

Definition reset : hw -> hw :=
  emit [GpioOut RST_PIN false; Sleep 200; GpioOut RST_PIN true; Sleep 200].

Section BusyLine.
(** [busy k] is the level [GPIO.input(BUSY_PIN)] returns at the
    [k]-th read: [true] for HIGH. *)
Variable busy : nat -> bool.

(** [while GPIO.input(self.BUSY_PIN) == GPIO.HIGH: time.sleep(0.01)],
    run for at most [fuel] reads; [None] when the loop is still
    spinning after them. *)
Fixpoint wait_until_idle (fuel : nat) (h : hw) : option hw :=
  match fuel with
  | O => None
  | S fuel' =>
      if busy (polls h)
      then wait_until_idle fuel'
             {| log := log h ++ [Sleep 10]; polls := S (polls h) |}
      else Some {| log := log h; polls := S (polls h) |}
  end.

Definition init_display (fuel : nat) (h : hw) : option hw :=
  match wait_until_idle fuel (reset h) with
  | None => None
  | Some h1 =>
      let h2 := write_data [0x37; 0x00] (write_command 0x01 h1) in
      let h3 := write_data [0xCF; 0x08] (write_command 0x00 h2) in
      let h4 := write_data [0xc7; 0xcc; 0x28] (write_command 0x06 h3) in
      wait_until_idle fuel (write_command 0x04 h4)
  end.

(** [display_image] on an image already at panel size. *)
Definition display_image (fuel : nat) (getpixel : nat -> nat -> Z) (h : hw)
  : option hw :=
  let buf := encode WIDTH HEIGHT getpixel in
  let h1 := write_data buf (write_command 0x13 h) in
  wait_until_idle fuel (write_command 0x12 h1).
End BusyLine.

(** A panel whose busy line is stuck high. *)
Definition stuck : nat -> bool := fun _ => true.

End EInkDisplay.

(** ** Debounced input ([InputHandler]) *)

Module InputHandler.

Definition JOYSTICK_UP : Z := 22.
Definition JOYSTICK_DOWN : Z := 23.
Definition JOYSTICK_LEFT : Z := 5.
Definition JOYSTICK_RIGHT : Z := 6.
Definition JOYSTICK_CENTER : Z := 12.
Definition BUTTON_1 : Z := 4.
Definition BUTTON_2 : Z := 14.
Definition BUTTON_3 : Z := 15.
Definition BUTTON_4 : Z := 27.

Definition pins : list Z :=
  [JOYSTICK_UP; JOYSTICK_DOWN; JOYSTICK_LEFT; JOYSTICK_RIGHT; JOYSTICK_CENTER;
   BUTTON_1; BUTTON_2; BUTTON_3; BUTTON_4].

(** Time is counted in milliseconds: [time.time()] is a [Z], and
    [debounce_delay = 0.2] seconds is 200. *)
Definition debounce_delay : Z := 200.

Section Handlers.
(** The callables stored in [event_handlers]. *)
Variable handler : Type.

Record t : Type := Make {
  last_press_time : gmap Z Z;
  event_handlers : gmap string handler
}.

Definition init : t := {| last_press_time := ∅; event_handlers := ∅ |}.

Definition event_map (pin : Z) : option string :=
  if decide (pin = JOYSTICK_UP) then Some "up"%string
  else if decide (pin = JOYSTICK_DOWN) then Some "down"%string
  else if decide (pin = JOYSTICK_LEFT) then Some "left"%string
  else if decide (pin = JOYSTICK_RIGHT) then Some "right"%string
  else if decide (pin = JOYSTICK_CENTER) then Some "select"%string
  else if decide (pin = BUTTON_1) then Some "menu"%string
  else if decide (pin = BUTTON_2) then Some "back"%string
  else if decide (pin = BUTTON_3) then Some "bookmark"%string
  else if decide (pin = BUTTON_4) then Some "settings"%string
  else None.

(** The handlers called by one delivery: none or one. *)
Definition dispatch (pin : Z) (s : t) : list handler :=
  match event_map pin with
  | Some event =>
      if negb (String.eqb event "") then
        match event_handlers s !! event with
        | Some h => [h]
        | None => []
        end
      else []
  | None => []
  end.

(** [handle_input(pin)] with [time.time()] returning [current_time]:
    the new state and the handlers it called. *)
Definition handle_input (current_time : Z) (pin : Z) (s : t)
  : t * list handler :=
  match last_press_time s !! pin with
  | Some last =>
      if current_time - last <? debounce_delay then (s, [])
      else ({| last_press_time := <[pin := current_time]> (last_press_time s);
               event_handlers := event_handlers s |},
            dispatch pin s)
  | None =>
      ({| last_press_time := <[pin := current_time]> (last_press_time s);
          event_handlers := event_handlers s |},
       dispatch pin s)
  end.

Definition set_handler (event : string) (h : handler) (s : t) : t :=
  {| last_press_time := last_press_time s;
     event_handlers := <[event := h]> (event_handlers s) |}.

(** Two deliveries in a row; the calls of both, in order. *)
Definition handle_two (t1 t2 : Z) (pin : Z) (s : t) : t * list handler :=
  let '(s1, c1) := handle_input t1 pin s in
  let '(s2, c2) := handle_input t2 pin s1 in
  (s2, c1 ++ c2).
End Handlers.

Arguments last_press_time {handler} _.
Arguments event_handlers {handler} _.
Arguments init {handler}.
Arguments dispatch {handler} _ _.
Arguments handle_input {handler} _ _ _.
Arguments handle_two {handler} _ _ _ _.
Arguments set_handler {handler} _ _ _.

End InputHandler.


(** ** The display as the application uses it

    Fonts and rasterisation belong to the imaging library: a canvas is
    kept as the list of draw calls made on a fresh white image, and the
    display remembers every image handed to [display_image]. *)

Module Screen.

Inductive op : Type :=
| Text (x y : Z) (text : string) (large : bool) (fill : Z)
| Line (x0 y0 x1 y1 : Z) (fill : Z)
| Rectangle (x0 y0 x1 y1 : Z) (fill : Z).

Inductive image : Type :=
| Canvas (ops : list op)
| Pixmap (page : Z).

Record t : Type := Make { buffer : list op; presented : list image }.

Definition WIDTH : Z := Z.of_nat EInkDisplay.WIDTH.
Definition HEIGHT : Z := Z.of_nat EInkDisplay.HEIGHT.

Definition init : t := {| buffer := []; presented := [] |}.

(** [self.buffer = Image.new('1', (WIDTH, HEIGHT), 1)] *)
Definition new_buffer (d : t) : t :=
  {| buffer := []; presented := presented d |}.

Definition draw (o : op) (d : t) : t :=
  {| buffer := buffer d ++ [o]; presented := presented d |}.

Definition draw_text (text : string) (x y : Z) (d : t) : t :=
  draw (Text x y text false 0) d.

(** [display_image(image)]; [None] presents the buffer. *)
Definition display_image (img : option image) (d : t) : t :=
  {| buffer := buffer d;
     presented := presented d ++
                  [match img with Some i => i | None => Canvas (buffer d) end] |}.

(** The [for i, item in enumerate(items)] loop of [draw_menu]. *)
Fixpoint draw_items (i : Z) (items : list string) (selected_index : Z) (d : t) : t :=
  match items with
  | [] => d
  | item :: rest =>
      let y := 60 + i * 30 in
      let d' :=
        if i =? selected_index
        then draw (Text 10 y item false 1)
               (draw (Rectangle 5 (y - 5) (WIDTH - 5) (y + 25) 0) d)
        else draw (Text 10 y item false 0) d in
      draw_items (i + 1) rest selected_index d'
  end.

Definition draw_menu (title : string) (items : list string) (selected_index : Z)
           (d : t) : t :=
  let d1 := draw (Text 10 10 title true 0) (new_buffer d) in
  let d2 := draw (Line 10 40 (WIDTH - 10) 40 0) d1 in
  display_image None (draw_items 0 items selected_index d2).

End Screen.

(** ** Files, settings and the outside world *)

Record Path : Type := MkPath {
  path_str : string;   (* str(p) *)
  path_name : string;  (* p.name *)
  path_suffix : string (* p.suffix *)
}.

Module Settings.

(** The settings dictionary, with the three keys the program uses;
    [None] is a key that is missing (or, for [last_book], null). *)
Record t : Type := Make {
  last_book : option string;
  last_page : option Z;
  font_size : option Z
}.

Definition default_settings : t :=
  {| last_book := None; last_page := Some 0; font_size := Some 16 |}.

End Settings.

(** The cursor [open_book] gives a freshly built reader: the stored page
    when the stored path is this file's, else 0. *)
Definition resumed (s : Settings.t) (p : Path) : Z :=
  if decide (Some (path_str p) = Settings.last_book s)
  then default 0 (Settings.last_page s) else 0.

(** A document opened by the PDF library. *)
Record PdfDoc : Type := MkPdfDoc {
  pdf_len : nat;                       (* len(doc) *)
  pdf_load_page : Z -> Py.result unit  (* doc.load_page(n) and its pixmap *)
}.

(** An item of an EPUB container, with the text the markup stripper
    extracts from its body. *)
Record EpubItem : Type := MkEpubItem { item_type : Z; item_text : string }.

Definition ITEM_DOCUMENT : Z := 9.

(** What the file system and the document libraries answer at the time
    of a call. *)
Record World : Type := MkWorld {
  iterdir : list (Path * bool);                     (* entries of books_dir, with is_file() *)
  read_text : string -> Py.result string;           (* open(p, 'r').read() *)
  fitz_open : string -> Py.result PdfDoc;           (* fitz.open(p) *)
  read_epub : string -> Py.result (list EpubItem);  (* epub.read_epub(p).get_items() *)
  settings_text : Py.result string;                 (* open(settings_file).read() *)
  json_load : string -> Py.result Settings.t;       (* json.load *)
  settings_write : Py.result unit                   (* open(settings_file, 'w') and the dump *)
}.

Module FileManager.

Definition supported_formats : list string := [".txt"; ".pdf"; ".epub"]%string.

Definition supported (p : Path) : bool :=
  existsb (String.eqb (Py.lower (path_suffix p))) supported_formats.

Definition sort_key (p : Path) : string := Py.lower (path_name p).

(** A stable sort by [sort_key]. *)
Fixpoint insert_sorted (p : Path) (l : list Path) : list Path :=
  match l with
  | [] => [p]
  | q :: l' =>
      if String.leb (sort_key p) (sort_key q) then p :: q :: l'
      else q :: insert_sorted p l'
  end.

Definition sort_files (l : list Path) : list Path := fold_right insert_sorted [] l.

(** [refresh_files]: the new [current_files]. *)
Definition refresh_files (w : World) : list Path :=
  sort_files
    (map fst (List.filter (fun e => snd e && supported (fst e)) (iterdir w))).

Definition get_file_list (current_files : list Path) : list string :=
  map path_name current_files.

Definition get_file_path (current_files : list Path) (index : Z) : option Path :=
  if (0 <=? index) && (index <? Z.of_nat (length current_files))
  then nth_error current_files (Z.to_nat index)
  else None.

End FileManager.

(** ** Pagination of plain text ([load_book], the same in both programs) *)

Module TextPages.

Definition chars_per_line : nat := 80.
Definition lines_per_page : nat := 20.

(** [while len(line) > chars_per_line: current.append(line[:80]);
    line = line[80:]], for at most [fuel] turns.  Returns the grown
    [current] and what is left of [line]. *)
Fixpoint wrap_while (fuel : nat) (line : string) (current : list string)
  : list string * string :=
  match fuel with
  | O => (current, line)
  | S fuel' =>
      if (chars_per_line <? String.length line)%nat
      then wrap_while fuel' (Py.drop chars_per_line line)
             (current ++ [Py.take chars_per_line line])
      else (current, line)
  end.

(** One turn of [for line in lines]; the state is [(pages, current)].
    Every turn of the inner loop removes 80 characters, so the length
    of the line is fuel enough. *)
Definition add_line (st : list string * list string) (line : string)
  : list string * list string :=
  let '(pages, current) := st in
  let '(current1, rest) := wrap_while (String.length line) line current in
  let current2 := current1 ++ [rest] in
  if (lines_per_page <=? length current2)%nat
  then (pages ++ [Py.join_nl current2], [])
  else (pages, current2).

Definition flush (st : list string * list string) : list string :=
  let '(pages, current) := st in
  match current with
  | [] => pages
  | _ :: _ => pages ++ [Py.join_nl current]
  end.

Definition paginate (content : string) : list string :=
  flush (fold_left add_line (Py.split_nl content) ([], [])).

(** [load_book]: the value of [self.pages] afterwards. *)
Definition load_book (read : Py.result string) : list string :=
  match read with
  | Py.Ok content => paginate content
  | Py.Raise e => [("Error loading book: " ++ Py.exn_msg e)%string]
  end.

(** The lines a reader shows for its pages, page after page. *)
Definition page_lines (pages : list string) : list string :=
  flat_map Py.split_nl pages.

(** The pieces one source line is cut into: full 80-character pieces,
    then the rest (possibly empty, never missing). *)
Definition pieces (line : string) : list string :=
  let '(cut, rest) := wrap_while (String.length line) line [] in cut ++ [rest].

(** Everything a loop state holds, as lines in order. *)
Definition emitted (st : list string * list string) : list string :=
  page_lines (fst st) ++ snd st.

End TextPages.

(** ** Pagination of flow text ([EPUBBookReader.paginate]) *)

Module FlowPages.

(** [[line[i:i+80] for i in range(0, len(line), 80)]] *)
Definition wrapped (line : string) : list string :=
  map (fun i => Py.slice i 80 line) (Py.range_step (String.length line) 80).

(** One turn of [for wline in wrapped]. *)
Definition add_wline (st : list string * list string) (wline : string)
  : list string * list string :=
  let '(pages, current) := st in
  let current' := current ++ [wline] in
  if (length current' =? 20)%nat
  then (pages ++ [Py.join_nl current'], [])
  else (pages, current').

Definition add_line (st : list string * list string) (line : string)
  : list string * list string :=
  fold_left add_wline (wrapped line) st.

Definition paginate (content : string) : list string :=
  TextPages.flush (fold_left add_line (Py.split_nl content) ([], [])).

(** [parse_book]: pages of every document item, in container order. *)
Definition parse_book (items : list EpubItem) : list string :=
  flat_map (fun item =>
              if item_type item =? ITEM_DOCUMENT
              then paginate (item_text item) else [])
           items.

End FlowPages.

(** ** Application state shared by both programs *)

Inductive menu : Type := Main | Reading.

Inductive level : Type := WARNING | ERROR.

Section AppState.
(** The class of the open book. *)
Variable reader : Type.

Record EReader : Type := MkEReader {
  display : Screen.t;
  current_files : list Path;          (* file_manager.current_files *)
  current_menu : menu;
  selected_index : Z;
  current_book : option reader;
  settings : Settings.t;
  persisted : option Settings.t;      (* last settings written to disk *)
  logged : list (level * string)      (* warnings and errors logged *)
}.

Definition set_display (d : Screen.t) (a : EReader) : EReader :=
  MkEReader d (current_files a) (current_menu a) (selected_index a)
            (current_book a) (settings a) (persisted a) (logged a).
Definition set_files (f : list Path) (a : EReader) : EReader :=
  MkEReader (display a) f (current_menu a) (selected_index a)
            (current_book a) (settings a) (persisted a) (logged a).
Definition set_menu (m : menu) (a : EReader) : EReader :=
  MkEReader (display a) (current_files a) m (selected_index a)
            (current_book a) (settings a) (persisted a) (logged a).
Definition set_index (i : Z) (a : EReader) : EReader :=
  MkEReader (display a) (current_files a) (current_menu a) i
            (current_book a) (settings a) (persisted a) (logged a).
Definition set_book (b : option reader) (a : EReader) : EReader :=
  MkEReader (display a) (current_files a) (current_menu a) (selected_index a)
            b (settings a) (persisted a) (logged a).
Definition set_settings (s : Settings.t) (a : EReader) : EReader :=
  MkEReader (display a) (current_files a) (current_menu a) (selected_index a)
            (current_book a) s (persisted a) (logged a).
Definition set_persisted (s : option Settings.t) (a : EReader) : EReader :=
  MkEReader (display a) (current_files a) (current_menu a) (selected_index a)
            (current_book a) (settings a) s (logged a).
Definition log_record (l : level) (msg : string) (a : EReader) : EReader :=
  MkEReader (display a) (current_files a) (current_menu a) (selected_index a)
            (current_book a) (settings a) (persisted a) (logged a ++ [(l, msg)]).

(** [load_settings] *)
Definition load_settings (w : World) : Settings.t :=
  match settings_text w with
  | Py.Ok text =>
      match json_load w text with
      | Py.Ok s => s
      | Py.Raise _ => Settings.default_settings
      end
  | Py.Raise _ => Settings.default_settings
  end.

(** [save_settings]; a failed write is logged and dropped. *)
Definition save_settings (w : World) (a : EReader) : EReader :=
  match settings_write w with
  | Py.Ok _ => set_persisted (Some (settings a)) a
  | Py.Raise e =>
      log_record ERROR ("Error saving settings: " ++ Py.exn_msg e)%string a
  end.

(** [show_main_menu]: re-scan the directory, then draw. *)
Definition show_main_menu (w : World) (a : EReader) : EReader :=
  let files := FileManager.refresh_files w in
  let names := FileManager.get_file_list files in
  let names := match names with [] => ["No books found"%string] | _ => names end in
  set_menu Main
    (set_display (Screen.draw_menu "E-Reader" names (selected_index a) (display a))
       (set_files files a)).

(** [EReader.__init__], then the start of [run]. *)
Definition startup (w : World) : EReader :=
  show_main_menu w
    {| display := Screen.init;
       current_files := FileManager.refresh_files w;
       current_menu := Main;
       selected_index := 0;
       current_book := None;
       settings := load_settings w;
       persisted := None;
       logged := [] |}.
End AppState.

Arguments display {reader} _.
Arguments current_files {reader} _.
Arguments current_menu {reader} _.
Arguments selected_index {reader} _.
Arguments current_book {reader} _.
Arguments settings {reader} _.
Arguments persisted {reader} _.
Arguments logged {reader} _.
Arguments set_display {reader} _ _.
Arguments set_files {reader} _ _.
Arguments set_menu {reader} _ _.
Arguments set_index {reader} _ _.
Arguments set_book {reader} _ _.
Arguments set_settings {reader} _ _.
Arguments set_persisted {reader} _ _.
Arguments log_record {reader} _ _ _.
Arguments save_settings {reader} _ _.
Arguments show_main_menu {reader} _ _.
Arguments startup {reader} _.

(** ** [Firmware/main.py]: the plain-text reader and the controller *)

Module Firmware.

Record BookReader : Type := MkBookReader {
  file_path : Path;
  current_page : Z;
  pages : list string
}.

Definition set_page (n : Z) (r : BookReader) : BookReader :=
  {| file_path := file_path r; current_page := n; pages := pages r |}.

Definition page_count (r : BookReader) : Z := Z.of_nat (length (pages r)).

(** [BookReader(file_path, display)] *)
Definition new_reader (w : World) (p : Path) : BookReader :=
  {| file_path := p; current_page := 0;
     pages := TextPages.load_book (read_text w (path_str p)) |}.

(** The line loop of [display_page], leaving at [y > HEIGHT - 30]. *)
Fixpoint draw_lines (lines : list string) (y : Z) (d : Screen.t) : Screen.t :=
  match lines with
  | [] => d
  | line :: rest =>
      if y >? Screen.HEIGHT - 30 then d
      else draw_lines rest (y + 20) (Screen.draw_text line 10 y d)
  end.

Definition page_info (r : BookReader) : string :=
  ("Page " ++ Py.str_of_int (current_page r + 1) ++ " of "
     ++ Py.str_of_int (page_count r))%string.

Definition display_page (r : BookReader) (d : Screen.t) : Screen.t * Py.result unit :=
  match pages r with
  | [] => (d, Py.Ok tt)
  | _ :: _ =>
      match Py.index (pages r) (current_page r) with
      | Py.Raise e => (d, Py.Raise e)
      | Py.Ok page_content =>
          let d1 := draw_lines (Py.split_nl page_content) 20 (Screen.new_buffer d) in
          let d2 := Screen.draw_text (page_info r) 10 (Screen.HEIGHT - 25) d1 in
          (Screen.display_image None d2, Py.Ok tt)
      end
  end.

(** The value returned after [self.display_page()] when that call
    does not raise. *)
Definition after_display (v : Py.retval) (x : Screen.t * Py.result unit)
  : Screen.t * Py.result Py.retval :=
  match x with
  | (d, Py.Ok _) => (d, Py.Ok v)
  | (d, Py.Raise e) => (d, Py.Raise e)
  end.

Definition next_page (r : BookReader) (d : Screen.t)
  : BookReader * (Screen.t * Py.result Py.retval) :=
  if current_page r <? page_count r - 1 then
    let r' := set_page (current_page r + 1) r in
    (r', after_display (Py.RBool true) (display_page r' d))
  else (r, (d, Py.Ok (Py.RBool false))).

Definition prev_page (r : BookReader) (d : Screen.t)
  : BookReader * (Screen.t * Py.result Py.retval) :=
  if current_page r >? 0 then
    let r' := set_page (current_page r - 1) r in
    (r', after_display (Py.RBool true) (display_page r' d))
  else (r, (d, Py.Ok (Py.RBool false))).

(** *** The controller *)

Definition App : Type := EReader BookReader.

(** Run a reader method on the open book; what it returns or raises
    is not used by the handlers. *)
Definition on_book
           (m : BookReader -> Screen.t -> BookReader * (Screen.t * Py.result Py.retval))
           (a : App) : App :=
  match current_book a with
  | Some r =>
      let '(r', (d', _)) := m r (display a) in
      set_display d' (set_book (Some r') a)
  | None => a
  end.

Definition handle_up (w : World) (a : App) : App :=
  match current_menu a with
  | Main =>
      if selected_index a >? 0
      then show_main_menu w (set_index (selected_index a - 1) a)
      else a
  | Reading => on_book prev_page a
  end.

Definition handle_down (w : World) (a : App) : App :=
  match current_menu a with
  | Main =>
      let files := FileManager.get_file_list (current_files a) in
      if selected_index a <? Z.of_nat (length files) - 1
      then show_main_menu w (set_index (selected_index a + 1) a)
      else a
  | Reading => on_book next_page a
  end.

Definition handle_left (a : App) : App :=
  match current_menu a with
  | Reading => on_book prev_page a
  | Main => a
  end.

Definition handle_right (a : App) : App :=
  match current_menu a with
  | Reading => on_book next_page a
  | Main => a
  end.

(** [open_book] *)
Definition open_book (w : World) (a : App) : App :=
  match FileManager.get_file_path (current_files a) (selected_index a) with
  | None => a
  | Some p =>
      if String.eqb (Py.lower (path_suffix p)) ".txt" then
        let r := new_reader w p in
        let r :=
          if decide (Some (path_str p) = Settings.last_book (settings a))
          then set_page (default 0 (Settings.last_page (settings a))) r
          else r in
        let a1 := set_book (Some r) a in
        match display_page r (display a1) with
        | (d, Py.Ok _) => set_menu Reading (set_display d a1)
        | (d, Py.Raise e) =>
            log_record ERROR ("Error opening book: " ++ Py.exn_msg e)%string
                       (set_display d a1)
        end
      else log_record WARNING ("Unsupported format: " ++ path_suffix p)%string a
  end.

Definition handle_select (w : World) (a : App) : App :=
  match current_menu a with
  | Main => open_book w a
  | Reading => a
  end.

Definition handle_menu (w : World) (a : App) : App :=
  match current_menu a with
  | Reading => show_main_menu w (set_menu Main a)
  | Main => a
  end.

Definition handle_back (w : World) (a : App) : App :=
  match current_menu a with
  | Reading => show_main_menu w (set_menu Main a)
  | Main => a
  end.

Definition handle_bookmark (w : World) (a : App) : App :=
  match current_menu a, current_book a with
  | Reading, Some r =>
      save_settings w
        (set_settings
           {| Settings.last_book := Some (path_str (file_path r));
              Settings.last_page := Some (current_page r);
              Settings.font_size := Settings.font_size (settings a) |} a)
  | _, _ => a
  end.

Definition handle_settings (a : App) : App := a.

(** The nine actions, as bound by [setup_input_handlers]. *)
Inductive action : Type :=
| Up | Down | Left | Right | Select | Menu | Back | Bookmark | SettingsKey.

Definition handle (act : action) (w : World) (a : App) : App :=
  match act with
  | Up => handle_up w a
  | Down => handle_down w a
  | Left => handle_left a
  | Right => handle_right a
  | Select => handle_select w a
  | Menu => handle_menu w a
  | Back => handle_back w a
  | Bookmark => handle_bookmark w a
  | SettingsKey => handle_settings a
  end.

(** [setup_input_handlers]: every event name is bound to its action. *)
Definition setup_input_handlers : InputHandler.t action :=
  InputHandler.set_handler "settings" SettingsKey
    (InputHandler.set_handler "bookmark" Bookmark
       (InputHandler.set_handler "back" Back
          (InputHandler.set_handler "menu" Menu
             (InputHandler.set_handler "select" Select
                (InputHandler.set_handler "right" Right
                   (InputHandler.set_handler "left" Left
                      (InputHandler.set_handler "down" Down
                         (InputHandler.set_handler "up" Up InputHandler.init)))))))).

(** States the controller can be in: after start-up, and after any
    action, each taken in whatever world there is at that moment. *)
Inductive reachable : App -> Prop :=
| reach_start w : reachable (startup w)
| reach_step act w a : reachable a -> reachable (handle act w a).

(** The same, along runs where no re-scan of the book directory finds
    fewer files than the scan before it. *)
Inductive reachable_steady : App -> Prop :=
| steady_start w : reachable_steady (startup w)
| steady_step act w a :
    reachable_steady a ->
    (length (current_files a) <= length (FileManager.refresh_files w))%nat ->
    reachable_steady (handle act w a).

(** [0 <= selectedIndex < fileCount], or 0 when there is no file. *)
Definition index_ok (a : App) : Prop :=
  match current_files a with
  | [] => selected_index a = 0
  | _ :: _ => 0 <= selected_index a < Z.of_nat (length (current_files a))
  end.

End Firmware.

(** ** [Production/main.py]: the three readers and [open_book] *)

Module Production.

Inductive BookReader : Type :=
| TextBookReader (file_path : Path) (current_page : Z) (pages : list string)
| PDFBookReader (doc : PdfDoc) (current_page : Z) (total_pages : Z)
| EPUBBookReader (book : list EpubItem) (pages : list string) (current_page : Z).

Definition current_page (r : BookReader) : Z :=
  match r with
  | TextBookReader _ n _ => n
  | PDFBookReader _ n _ => n
  | EPUBBookReader _ _ n => n
  end.

Definition set_page (n : Z) (r : BookReader) : BookReader :=
  match r with
  | TextBookReader p _ pages => TextBookReader p n pages
  | PDFBookReader doc _ total => PDFBookReader doc n total
  | EPUBBookReader book pages _ => EPUBBookReader book pages n
  end.

(** [len(self.pages)], or [self.total_pages]. *)
Definition page_count (r : BookReader) : Z :=
  match r with
  | TextBookReader _ _ pages => Z.of_nat (length pages)
  | PDFBookReader _ _ total => total
  | EPUBBookReader _ pages _ => Z.of_nat (length pages)
  end.

(** The constructors.  Only the plain-text one guards its load. *)
Definition new_text (w : World) (p : Path) : BookReader :=
  TextBookReader p 0 (TextPages.load_book (read_text w (path_str p))).

Definition new_pdf (w : World) (p : Path) : Py.result BookReader :=
  match fitz_open w (path_str p) with
  | Py.Ok doc => Py.Ok (PDFBookReader doc 0 (Z.of_nat (pdf_len doc)))
  | Py.Raise e => Py.Raise e
  end.

Definition new_epub (w : World) (p : Path) : Py.result BookReader :=
  match read_epub w (path_str p) with
  | Py.Ok book => Py.Ok (EPUBBookReader book (FlowPages.parse_book book) 0)
  | Py.Raise e => Py.Raise e
  end.

Definition draw_lines (lines : list string) (d : Screen.t) : Screen.t :=
  snd (fold_left (fun '(y, d) line => (y + 20, Screen.draw_text line 10 y d))
                 lines (20, d)).

Definition page_info (n : Z) (pages : list string) : string :=
  ("Page " ++ Py.str_of_int (n + 1) ++ "/"
     ++ Py.str_of_int (Z.of_nat (length pages)))%string.

(** [display_page] of the text and flow readers. *)
Definition display_text_page (n : Z) (pages : list string) (d : Screen.t)
  : Screen.t * Py.result unit :=
  match pages with
  | [] => (d, Py.Ok tt)
  | _ :: _ =>
      let d0 := Screen.new_buffer d in
      match Py.index pages n with
      | Py.Raise e => (d0, Py.Raise e)
      | Py.Ok page =>
          let d1 := draw_lines (Py.split_nl page) d0 in
          let d2 := Screen.draw_text (page_info n pages) 10 (Screen.HEIGHT - 25) d1 in
          (Screen.display_image None d2, Py.Ok tt)
      end
  end.

Definition display_page (r : BookReader) (d : Screen.t) : Screen.t * Py.result unit :=
  match r with
  | TextBookReader _ n pages => display_text_page n pages d
  | EPUBBookReader _ pages n => display_text_page n pages d
  | PDFBookReader doc n _ =>
      match pdf_load_page doc n with
      | Py.Ok _ => (Screen.display_image (Some (Screen.Pixmap n)) d, Py.Ok tt)
      | Py.Raise e => (d, Py.Raise e)
      end
  end.

(** The three classes share these bodies; neither has a [return]. *)
Definition next_page (r : BookReader) (d : Screen.t)
  : BookReader * (Screen.t * Py.result Py.retval) :=
  if current_page r <? page_count r - 1 then
    let r' := set_page (current_page r + 1) r in
    (r', Firmware.after_display Py.RNone (display_page r' d))
  else (r, (d, Py.Ok Py.RNone)).

Definition prev_page (r : BookReader) (d : Screen.t)
  : BookReader * (Screen.t * Py.result Py.retval) :=
  if current_page r >? 0 then
    let r' := set_page (current_page r - 1) r in
    (r', Firmware.after_display Py.RNone (display_page r' d))
  else (r, (d, Py.Ok Py.RNone)).

Definition App : Type := EReader BookReader.

(** The reader [open_book] builds for an extension, when there is one. *)
Definition construct (w : World) (p : Path) : option (Py.result BookReader) :=
  let ext := Py.lower (path_suffix p) in
  if String.eqb ext ".txt" then Some (Py.Ok (new_text w p))
  else if String.eqb ext ".pdf" then Some (new_pdf w p)
  else if String.eqb ext ".epub" then Some (new_epub w p)
  else None.

Definition open_book (w : World) (a : App) : App :=
  match FileManager.get_file_path (current_files a) (selected_index a) with
  | None => a
  | Some p =>
      match construct w p with
      | None =>
          log_record WARNING
            ("Unsupported format: " ++ Py.lower (path_suffix p))%string a
      | Some (Py.Raise e) =>
          log_record ERROR ("Error opening book: " ++ Py.exn_msg e)%string a
      | Some (Py.Ok r) =>
          let r :=
            if decide (Some (path_str p) = Settings.last_book (settings a))
            then set_page (default 0 (Settings.last_page (settings a))) r
            else r in
          let a1 := set_book (Some r) a in
          match display_page r (display a1) with
          | (d, Py.Ok _) => set_menu Reading (set_display d a1)
          | (d, Py.Raise e) =>
              log_record ERROR ("Error opening book: " ++ Py.exn_msg e)%string
                         (set_display d a1)
          end
      end
  end.

(** The cursor invariant of the specification. *)
Definition cursor_ok (r : BookReader) : Prop :=
  0 <= current_page r < page_count r /\ 1 <= page_count r.

End Production.

(** ** Sample inputs *)

Module Samples.

Definition a_txt : Path := MkPath "/home/pi/books/a.txt" "a.txt" ".txt".
Definition b_pdf : Path := MkPath "/home/pi/books/b.pdf" "b.pdf" ".pdf".
Definition c_epub : Path := MkPath "/home/pi/books/c.epub" "c.epub" ".epub".
Definition d_txt : Path := MkPath "/home/pi/books/D.TXT" "D.TXT" ".TXT".

Definition no_such_file : Py.exn := Py.Exception "No such file or directory".
Definition broken : Py.exn := Py.Exception "cannot open broken document".

(** A shelf with a two-line text file, a corrupt PDF, an EPUB without
    document items and an unreadable text file; no settings file. *)
Definition shelf : World :=
  {| iterdir := [(c_epub, true); (d_txt, true); (a_txt, true); (b_pdf, true)];
     read_text := fun p =>
       if String.eqb p (path_str a_txt)
       then Py.Ok ("alpha" ++ Py.nl ++ "beta")%string
       else Py.Raise no_such_file;
     fitz_open := fun _ => Py.Raise broken;
     read_epub := fun _ => Py.Ok [];
     settings_text := Py.Raise no_such_file;
     json_load := fun _ => Py.Raise (Py.Exception "Expecting value");
     settings_write := Py.Ok tt |}.

(** The same shelf after all books but the first were deleted. *)
Definition thinned : World :=
  {| iterdir := [(a_txt, true)];
     read_text := read_text shelf;
     fitz_open := fitz_open shelf;
     read_epub := read_epub shelf;
     settings_text := settings_text shelf;
     json_load := json_load shelf;
     settings_write := settings_write shelf |}.

(** A shelf whose settings file holds text that is not JSON. *)
Definition garbled : World :=
  {| iterdir := iterdir shelf;
     read_text := read_text shelf;
     fitz_open := fitz_open shelf;
     read_epub := read_epub shelf;
     settings_text := Py.Ok "{last_book"%string;
     json_load := json_load shelf;
     settings_write := settings_write shelf |}.

(** A busy line that reads high [k] times and low from then on. *)
Definition settles (k : nat) : nat -> bool := fun n => (n <? k)%nat.

End Samples.

(** ** The bus as the panel sees it *)

Module Bus.
Import EInkDisplay.

(** One SPI write, with the levels of the data/command line and of
    chip-select while it went out. *)
Record transfer : Type := Transfer { dc : bool; cs : bool; payload : list Z }.

(** Replay a traffic log from given line levels. *)
Fixpoint transfers (l : list io) (dc0 cs0 : bool) : list transfer :=
  match l with
  | [] => []
  | GpioOut pin v :: l' =>
      if pin =? DC_PIN then transfers l' v cs0
      else if pin =? CS_PIN then transfers l' dc0 v
      else transfers l' dc0 cs0
  | SpiWrite bytes :: l' => Transfer dc0 cs0 bytes :: transfers l' dc0 cs0
  | Sleep _ :: l' => transfers l' dc0 cs0
  end.

(** The line levels a log leaves behind. *)
Fixpoint levels (l : list io) (dc0 cs0 : bool) : bool * bool :=
  match l with
  | [] => (dc0, cs0)
  | GpioOut pin v :: l' =>
      if pin =? DC_PIN then levels l' v cs0
      else if pin =? CS_PIN then levels l' dc0 v
      else levels l' dc0 cs0
  | _ :: l' => levels l' dc0 cs0
  end.

(** A command byte: data/command low, chip-select low. *)
Definition command (c : Z) : transfer := Transfer false false [c].
(** Data bytes: data/command high, chip-select low. *)
Definition data (bytes : list Z) : transfer := Transfer true false bytes.

(** [clear_screen]: present an all-white buffer. *)
Definition clear_screen (busy : nat -> bool) (fuel : nat) (h : hw) : option hw :=
  display_image busy fuel white h.

End Bus.

(** ** Runs of input edges *)

Module Router.

Section Runs.
Context {handler : Type}.

(** Consecutive times are at least one debounce window apart. *)
Fixpoint spaced (times : list Z) : Prop :=
  match times with
  | a :: (b :: _) as rest => InputHandler.debounce_delay <= b - a /\ spaced rest
  | _ => True
  end.

(** The times of the edges on [pin] that made [handle_input] call a
    handler, while the edges [(time, pin)] are delivered in order. *)
Fixpoint call_times (pin : Z) (edges : list (Z * Z)) (s : InputHandler.t handler)
  : list Z :=
  match edges with
  | [] => []
  | (now, p) :: rest =>
      let '(s', calls) := InputHandler.handle_input now p s in
      match calls with
      | _ :: _ => if decide (p = pin) then now :: call_times pin rest s'
                  else call_times pin rest s'
      | [] => call_times pin rest s'
      end
  end.
End Runs.

End Router.

(** ** What is on a canvas *)

Module Canvas.

(** The strings drawn, in drawing order. *)
Definition texts (ops : list Screen.op) : list string :=
  flat_map (fun o => match o with Screen.Text _ _ t _ _ => [t] | _ => [] end) ops.

(** The strings drawn in white, that is on a highlight bar. *)
Definition inverted (ops : list Screen.op) : list string :=
  flat_map (fun o => match o with
                     | Screen.Text _ _ t _ fill => if fill =? 1 then [t] else []
                     | _ => []
                     end) ops.

(** The highlight bars. *)
Definition bars (ops : list Screen.op) : nat :=
  length (List.filter (fun o => match o with Screen.Rectangle _ _ _ _ _ => true
                                        | _ => false end) ops).

(** The draw calls of the image presented last. *)
Definition last_ops (d : Screen.t) : list Screen.op :=
  match last (Screen.presented d) with
  | Some (Screen.Canvas ops) => ops
  | _ => []
  end.

(** [EInkDisplay.clear_screen] *)
Definition clear_screen (d : Screen.t) : Screen.t :=
  Screen.display_image None (Screen.new_buffer d).

End Canvas.

(** ** Edges reaching the controller, and repeated page turns *)

Module Wiring.
Import Firmware.

(** One falling edge, from the input handler through the bound action
    to the controller. *)
Definition on_edge (now pin : Z) (w : World) (st : InputHandler.t action * App)
  : InputHandler.t action * App :=
  let '(router, a) := st in
  let '(router', calls) := InputHandler.handle_input now pin router in
  (router', fold_left (fun a act => handle act w a) calls a).

(** The same reader method, called [k] times in a row. *)
Fixpoint turns {R : Type}
         (m : R -> Screen.t -> R * (Screen.t * Py.result Py.retval))
         (k : nat) (r : R) (d : Screen.t) : R * Screen.t :=
  match k with
  | O => (r, d)
  | S k' => let '(r', (d', _)) := m r d in turns m k' r' d'
  end.

(** [cleanup]: the settings are saved on the way out. *)
Definition cleanup (w : World) (a : App) : App := save_settings w a.

End Wiring.

(** ** Notions used by the further properties *)

(** Files in case-insensitive name order. *)
Definition by_name (p q : Path) : Prop := String.leb (FileManager.sort_key p) (FileManager.sort_key q) = true.

(** Lines on a page. *)
Definition line_count (page : string) : nat := length (Py.split_nl page).

(** The flow loop: finished pages hold 20 lines, the open page fewer. *)
Definition flow_inv (st : list string * list string) : Prop :=
  Forall (fun p => line_count p = 20%nat) (fst st)
  /\ (length (snd st) < 20)%nat /\ lines_ok (snd st).

(** The text loop: finished pages hold 20 lines or more. *)
Definition text_inv (exact : bool) (st : list string * list string) : Prop :=
  Forall (fun p => if exact then line_count p = 20%nat else (20 <= line_count p)%nat)
         (fst st)
  /\ (length (snd st) < 20)%nat /\ lines_ok (snd st).

(** The title of row [k] when [k] is a row. *)
Definition row (items : list string) (k : Z) : list string :=
  if 0 <=? k then match nth_error items (Z.to_nat k) with
                  | Some item => [item]
                  | None => []
                  end
  else [].

(** The names a menu shows for a listing. *)
Definition menu_names (files : list Path) : list string :=
  let names := FileManager.get_file_list files in
  match names with
  | [] => ["No books found"%string]
  | _ => names
  end.

(** The menu as it stands after a redraw in world [w] with row [sel]
    selected: the listing is the one just scanned, the image shows its
    names (or the placeholder), and row [sel] is highlighted if the new
    listing has such a row. *)
Definition redrawn (w : World) (sel : Z) (a' : Firmware.App) : Prop :=
  current_menu a' = Main
  /\ selected_index a' = sel
  /\ current_files a' = FileManager.refresh_files w
  /\ Canvas.texts (Canvas.last_ops (display a'))
     = "E-Reader"%string :: menu_names (FileManager.refresh_files w)
  /\ Canvas.inverted (Canvas.last_ops (display a'))
     = (if (0 <=? sel)
           && (sel <? Z.of_nat (length (menu_names (FileManager.refresh_files w))))
        then firstn 1 (skipn (Z.to_nat sel) (menu_names (FileManager.refresh_files w)))
        else []).

(** * Properties *)

(** ** The frame encoder *)

Section EncoderFacts.
Import EInkDisplay.
Variables W H : nat.
Variable getpixel : nat -> nat -> Z.

Lemma testbit_mask (bit b : nat) :
  (b < 8)%nat ->
  Z.testbit (Z.shiftr 0x80 (Z.of_nat bit)) (Z.of_nat (7 - b)) = (bit =? b)%nat.
Proof.
  intros Hb. rewrite Z.shiftr_spec by lia.
  change 0x80 with (2 ^ 7). rewrite Z.pow2_bits_eqb by lia.
  destruct (Nat.eqb_spec bit b) as [->|Hne].
  - apply Z.eqb_eq. lia.
  - apply Z.eqb_neq. lia.
Qed.

Lemma testbit_pack_bit (x y : nat) (byte : Z) (bit b : nat) :
  (b < 8)%nat ->
  Z.testbit (pack_bit W getpixel x y byte bit) (Z.of_nat (7 - b))
  = Z.testbit byte (Z.of_nat (7 - b)) || ((bit =? b)%nat && inked W getpixel (x + bit) y).
Proof.
  intros Hb. unfold pack_bit, inked.
  destruct (x + bit <? W)%nat; cbn [andb].
  - destruct (getpixel (x + bit)%nat y =? 0).
    + rewrite Z.lor_spec, testbit_mask by exact Hb. now rewrite andb_true_r.
    + now rewrite andb_false_r, orb_false_r.
  - now rewrite andb_false_r, orb_false_r.
Qed.

Lemma testbit_pack_fold (x y : nat) (b n s : nat) (acc : Z) :
  (b < 8)%nat ->
  Z.testbit (fold_left (pack_bit W getpixel x y) (seq s n) acc) (Z.of_nat (7 - b))
  = Z.testbit acc (Z.of_nat (7 - b))
    || ((s <=? b)%nat && (b <? s + n)%nat && inked W getpixel (x + b) y).
Proof.
  intros Hb. revert s acc. induction n as [|n IH]; intros s acc.
  - cbn [seq fold_left]. replace (b <? s + 0)%nat with (b <? s)%nat by (f_equal; lia).
    destruct (Nat.leb_spec s b), (Nat.ltb_spec b s); try lia;
      cbn [andb]; now rewrite orb_false_r.
  - cbn [seq fold_left]. rewrite IH, testbit_pack_bit by exact Hb.
    rewrite <- orb_assoc. f_equal.
    destruct (Nat.eqb_spec s b) as [->|Hne].
    + destruct (Nat.leb_spec (S b) b), (Nat.leb_spec b b), (Nat.ltb_spec b (b + S n));
        try lia. cbn [andb]. now rewrite orb_false_r.
    + cbn [andb orb].
      destruct (Nat.leb_spec (S s) b), (Nat.leb_spec s b);
        destruct (Nat.ltb_spec b (S s + n)), (Nat.ltb_spec b (s + S n));
        try lia; reflexivity.
Qed.

(** Bit [7 - b] of a packed byte is set exactly for an inked pixel. *)
Lemma testbit_pack_byte (x y b : nat) :
  (b < 8)%nat ->
  Z.testbit (pack_byte W getpixel x y) (Z.of_nat (7 - b)) = inked W getpixel (x + b) y.
Proof.
  intros Hb. unfold pack_byte. rewrite testbit_pack_fold by exact Hb.
  rewrite Z.bits_0. cbn [orb].
  destruct (Nat.ltb_spec b (0 + 8)); [reflexivity | lia].
Qed.

Lemma lor_byte (a b : Z) :
  0 <= a < 256 -> 0 <= b < 256 -> 0 <= Z.lor a b < 256.
Proof.
  intros Ha Hb. split; [apply Z.lor_nonneg; lia|].
  destruct (Z.eq_dec a 0) as [->|Ha0]; [rewrite Z.lor_0_l; lia|].
  destruct (Z.eq_dec b 0) as [->|Hb0]; [rewrite Z.lor_0_r; lia|].
  assert (Hl : 0 < Z.lor a b).
  { assert (0 <= Z.lor a b) by (apply Z.lor_nonneg; lia).
    assert (Z.lor a b <> 0) by (intros E; apply Z.lor_eq_0_iff in E; lia). lia. }
  change 256 with (2 ^ 8). apply Z.log2_lt_pow2; [exact Hl|].
  rewrite Z.log2_lor by lia.
  assert (Z.log2 a < 8) by (apply Z.log2_lt_pow2; [lia | change (2 ^ 8) with 256; lia]).
  assert (Z.log2 b < 8) by (apply Z.log2_lt_pow2; [lia | change (2 ^ 8) with 256; lia]).
  lia.
Qed.

Lemma pack_fold_byte (x y : nat) (l : list nat) (acc : Z) :
  Forall (fun bit => (bit < 8)%nat) l -> 0 <= acc < 256 ->
  0 <= fold_left (pack_bit W getpixel x y) l acc < 256.
Proof.
  intros Hl. revert acc. induction Hl as [|bit l Hbit _ IH]; intros acc Hacc.
  - exact Hacc.
  - cbn [fold_left]. apply IH. unfold pack_bit.
    destruct (x + bit <? W)%nat; [|exact Hacc].
    destruct (getpixel (x + bit)%nat y =? 0); [|exact Hacc].
    apply lor_byte; [exact Hacc|].
    do 8 (destruct bit as [|bit]; [vm_compute; split; [discriminate | reflexivity]|]). lia.
Qed.

Lemma pack_byte_range (x y : nat) : 0 <= pack_byte W getpixel x y < 256.
Proof.
  unfold pack_byte. apply pack_fold_byte; [|lia].
  repeat constructor.
Qed.

Lemma length_range_step (stop : nat) :
  length (Py.range_step stop 8) = ((stop + 7) / 8)%nat.
Proof.
  unfold Py.range_step. rewrite length_map, length_seq.
  f_equal. lia.
Qed.

Lemma length_pack_row (y : nat) : length (pack_row W getpixel y) = stride W.
Proof. unfold pack_row. now rewrite length_map, length_range_step. Qed.

(** Rows of equal length laid end to end: where an entry lands. *)
Lemma nth_flat_rows {A : Type} (f : nat -> list A) (c : nat) (d : A) :
  (forall y, length (f y) = c) ->
  forall n s y k, (y < n)%nat -> (k < c)%nat ->
    nth (y * c + k) (flat_map f (seq s n)) d = nth k (f (s + y)%nat) d.
Proof.
  intros Hc. induction n as [|n IH]; intros s y k Hy Hk; [lia|].
  cbn [seq flat_map]. destruct y as [|y].
  - rewrite app_nth1 by (rewrite Hc; lia).
    replace (s + 0)%nat with s by lia. f_equal.
  - rewrite app_nth2 by (rewrite Hc; lia). rewrite Hc.
    replace (S y * c + k - c)%nat with (y * c + k)%nat by lia.
    rewrite IH by lia. f_equal. f_equal. lia.
Qed.

Lemma length_flat_rows {A : Type} (f : nat -> list A) (c : nat) :
  (forall y, length (f y) = c) ->
  forall n s, length (flat_map f (seq s n)) = (n * c)%nat.
Proof.
  intros Hc. induction n as [|n IH]; intros s; [reflexivity|].
  cbn [seq flat_map]. rewrite length_app, Hc, IH. lia.
Qed.

Lemma length_encode : length (encode W H getpixel) = (stride W * H)%nat.
Proof.
  unfold encode. rewrite (length_flat_rows _ (stride W)) by apply length_pack_row. lia.
Qed.

(** The byte at row [y], column [k] is the packed byte of pixels
    [8k .. 8k+7] of that row. *)
Lemma nth_encode (y k : nat) :
  (y < H)%nat -> (k < stride W)%nat ->
  nth (y * stride W + k) (encode W H getpixel) 0 = pack_byte W getpixel (8 * k) y.
Proof.
  intros Hy Hk. unfold encode.
  rewrite (nth_flat_rows _ (stride W)) by (try apply length_pack_row; assumption).
  cbn [Nat.add]. unfold pack_row, Py.range_step.
  replace ((W + 8 - 1) / 8)%nat with (stride W) by (unfold stride; f_equal; lia).
  rewrite (nth_indep _ 0 (pack_byte W getpixel 0 y)) by
    (rewrite length_map, length_map, length_seq; exact Hk).
  rewrite (map_nth (fun x => pack_byte W getpixel x y)).
  rewrite (nth_indep _ 0%nat (0 * 8)%nat) by
    (rewrite length_map, length_seq; exact Hk).
  rewrite (map_nth (fun k => (k * 8)%nat)).
  rewrite seq_nth by exact Hk.
  f_equal. lia.
Qed.

Lemma frame_bit_inked (x y : nat) :
  (x < 8 * stride W)%nat -> (y < H)%nat ->
  frame_bit W (encode W H getpixel) x y = inked W getpixel x y.
Proof.
  intros Hx Hy. unfold frame_bit.
  assert (Hk : (x / 8 < stride W)%nat)
    by (apply Nat.Div0.div_lt_upper_bound; exact Hx).
  rewrite nth_encode by assumption.
  rewrite testbit_pack_byte by (apply Nat.mod_upper_bound; lia).
  f_equal. pose proof (Nat.div_mod_eq x 8). lia.
Qed.

Lemma stride_covers : (W <= 8 * stride W)%nat.
Proof.
  unfold stride. pose proof (Nat.div_mod_eq (W + 7) 8) as E.
  pose proof (Nat.mod_upper_bound (W + 7) 8). lia.
Qed.

Lemma encode_bytes : Forall (fun b => 0 <= b < 256) (encode W H getpixel).
Proof.
  unfold encode. apply Forall_flat_map, List.Forall_forall. intros y _.
  unfold pack_row. apply List.Forall_map, List.Forall_forall. intros x _.
  apply pack_byte_range.
Qed.
End EncoderFacts.

(** C1 (as the specification words it, refuted): on an all-white canvas the
    top-left pixel is blank, yet its bit in the encoded frame is 0, and the
    whole first byte is [0x00], not [0xFF]. *)
Lemma C1_blank_pixel_bit_is_clear :
  let fr := EInkDisplay.encode EInkDisplay.WIDTH EInkDisplay.HEIGHT EInkDisplay.white in
  EInkDisplay.white 0 0 = 255
  /\ EInkDisplay.frame_bit EInkDisplay.WIDTH fr 0 0 = false
  /\ nth 0 fr 0 = 0.
Proof.
  cbv zeta. split; [reflexivity|]. split.
  - rewrite frame_bit_inked by (vm_compute; lia). reflexivity.
  - pose proof (nth_encode EInkDisplay.WIDTH EInkDisplay.HEIGHT EInkDisplay.white 0 0)
      as E.
    change (0 * EInkDisplay.stride EInkDisplay.WIDTH + 0)%nat with 0%nat in E.
    rewrite E by (vm_compute; lia). reflexivity.
Qed.

(** C1 (amended): the encoded frame has exactly ceil(W/8)*H entries, each a
    byte, laid out row-major and most-significant-bit first; the bit of a
    pixel on the panel is 1 exactly when that pixel is black (value 0), and
    the padding bits to the right of the last column are 0. *)
Theorem C1_frame_format (W H : nat) (getpixel : nat -> nat -> Z) (x y : nat) :
  (x < 8 * EInkDisplay.stride W)%nat -> (y < H)%nat ->
  let fr := EInkDisplay.encode W H getpixel in
  length fr = ((W + 7) / 8 * H)%nat
  /\ Forall (fun b => 0 <= b < 256) fr
  /\ ((x < W)%nat -> (EInkDisplay.frame_bit W fr x y = true <-> getpixel x y = 0))
  /\ ((W <= x)%nat -> EInkDisplay.frame_bit W fr x y = false).
Proof.
  intros Hx Hy fr. subst fr. split; [apply length_encode|].
  split; [apply encode_bytes|].
  rewrite frame_bit_inked by assumption. unfold EInkDisplay.inked. split.
  - intros Hw. destruct (Nat.ltb_spec x W); [|lia]. cbn [andb]. apply Z.eqb_eq.
  - intros Hw. destruct (Nat.ltb_spec x W); [lia|]. reflexivity.
Qed.

Lemma C1_frame_format_witness :
  let fr := EInkDisplay.encode 10 2 EInkDisplay.checker in
  length fr = 4%nat
  /\ Forall (fun b => 0 <= b < 256) fr
  /\ ((9 < 10)%nat -> (EInkDisplay.frame_bit 10 fr 9 1 = true <-> EInkDisplay.checker 9 1 = 0))
  /\ ((10 <= 9)%nat -> EInkDisplay.frame_bit 10 fr 9 1 = false).
Proof.
  apply (C1_frame_format 10 2 EInkDisplay.checker 9 1); vm_compute; lia.
Defined.

Example encode_checker :
  EInkDisplay.encode 10 2 EInkDisplay.checker = [0xAA; 0x80; 0x55; 0x40].
Proof. reflexivity. Qed.

(** ** The busy-wait *)

Section BusyWaitFacts.
Import EInkDisplay.
Variable busy : nat -> bool.

(** The loop leaves at the first read that finds the line low, having
    slept once for every read before it. *)
Lemma wait_first_idle (d : nat) :
  forall (h : hw) (fuel : nat),
    busy (polls h + d) = false ->
    (forall k, (k < d)%nat -> busy (polls h + k) = true) ->
    (d < fuel)%nat ->
    wait_until_idle busy fuel h
    = Some {| log := log h ++ repeat (Sleep 10) d; polls := S (polls h + d) |}.
Proof.
  induction d as [|d IH]; intros h fuel Hidle Hbusy Hfuel;
    (destruct fuel as [|fuel]; [lia|]); cbn [wait_until_idle].
  - rewrite Nat.add_0_r in Hidle. rewrite Hidle.
    cbn [repeat]. now rewrite app_nil_r, Nat.add_0_r.
  - pose proof (Hbusy 0%nat ltac:(lia)) as H0. rewrite Nat.add_0_r in H0.
    rewrite H0. rewrite IH; cbn [polls log].
    + f_equal. f_equal; [|lia]. rewrite <- app_assoc. reflexivity.
    + rewrite <- Hidle. f_equal. lia.
    + intros k Hk. rewrite <- (Hbusy (S k)) by lia. f_equal. lia.
    + lia.
Qed.

(** Among the reads from [s] on, the first that finds the line low. *)
Lemma first_idle (d : nat) :
  forall s, busy (s + d) = false ->
    exists d', (d' <= d)%nat /\ busy (s + d') = false
               /\ forall k, (k < d')%nat -> busy (s + k) = true.
Proof.
  induction d as [|d IH]; intros s Hd.
  - exists 0%nat. split; [lia|]. split; [exact Hd|]. intros k Hk. lia.
  - destruct (busy s) eqn:Hs.
    + destruct (IH (S s)) as (d' & Hle & Hidle & Hbusy).
      { rewrite <- Hd. f_equal. lia. }
      exists (S d'). split; [lia|]. split.
      * rewrite <- Hidle. f_equal. lia.
      * intros [|k] Hk; [now rewrite Nat.add_0_r|].
        rewrite <- (Hbusy k) by lia. f_equal. lia.
    + exists 0%nat. split; [lia|]. split; [now rewrite Nat.add_0_r|].
      intros k Hk. lia.
Qed.

Lemma wait_returns (h : hw) (n : nat) :
  (polls h <= n)%nat -> busy n = false ->
  exists d, (polls h + d <= n)%nat /\
    forall fuel, (d < fuel)%nat ->
      wait_until_idle busy fuel h
      = Some {| log := log h ++ repeat (Sleep 10) d; polls := S (polls h + d) |}.
Proof.
  intros Hn Hidle.
  destruct (first_idle (n - polls h) (polls h)) as (d & Hle & Hd & Hbusy).
  { rewrite <- Hidle. f_equal. lia. }
  exists d. split; [lia|]. intros fuel Hfuel. now apply wait_first_idle.
Qed.

Lemma wait_some_idle (fuel : nat) :
  forall h h', wait_until_idle busy fuel h = Some h' ->
    exists n, (polls h <= n)%nat /\ busy n = false.
Proof.
  induction fuel as [|fuel IH]; intros h h' Hw; cbn [wait_until_idle] in Hw.
  - discriminate.
  - destruct (busy (polls h)) eqn:Hb.
    + apply IH in Hw. destruct Hw as (n & Hn & Hidle). cbn [polls] in Hn.
      exists n. split; [lia | exact Hidle].
    + exists (polls h). split; [lia | exact Hb].
Qed.

Lemma wait_never (fuel : nat) :
  forall h, (forall n, (polls h <= n)%nat -> busy n = true) ->
    wait_until_idle busy fuel h = None.
Proof.
  induction fuel as [|fuel IH]; intros h Hbusy; cbn [wait_until_idle].
  - reflexivity.
  - rewrite (Hbusy (polls h)) by lia. apply IH. cbn [polls].
    intros n Hn. apply Hbusy. lia.
Qed.
End BusyWaitFacts.

(** C3 (as the specification words it, refuted): with the busy line stuck
    high, no number of loop turns makes [wait_until_idle] return, and so
    neither [init_display] nor [display_image] ever returns; there is no
    timeout and no error. *)
Lemma C3_stuck_busy_line_hangs :
  let h0 := {| EInkDisplay.log := []; EInkDisplay.polls := 0 |} in
  ~ (exists fuel, EInkDisplay.wait_until_idle EInkDisplay.stuck fuel h0 <> None)
  /\ ~ (exists fuel, EInkDisplay.init_display EInkDisplay.stuck fuel h0 <> None)
  /\ ~ (exists fuel,
          EInkDisplay.display_image EInkDisplay.stuck fuel EInkDisplay.white h0 <> None).
Proof.
  cbv zeta. repeat split; intros [fuel Hret]; apply Hret.
  - now apply wait_never.
  - unfold EInkDisplay.init_display. now rewrite wait_never.
  - unfold EInkDisplay.display_image. now apply wait_never.
Qed.

(** C3 (amended): the busy-wait has no timeout.  [wait_until_idle] returns
    exactly when some later read of the busy line finds it low; if the line
    stays high from the current read on, then [wait_until_idle],
    [init_display] and [display_image] never return (and raise nothing);
    if the line always clears again, all three do return. *)
Theorem C3_busy_wait_unbounded (busy : nat -> bool) (h : EInkDisplay.hw)
        (getpixel : nat -> nat -> Z) :
  ((exists fuel h', EInkDisplay.wait_until_idle busy fuel h = Some h')
   <-> (exists n, (EInkDisplay.polls h <= n)%nat /\ busy n = false))
  /\ ((forall n, (EInkDisplay.polls h <= n)%nat -> busy n = true) ->
      forall fuel,
        EInkDisplay.wait_until_idle busy fuel h = None
        /\ EInkDisplay.init_display busy fuel h = None
        /\ EInkDisplay.display_image busy fuel getpixel h = None)
  /\ ((forall n, exists m, (n <= m)%nat /\ busy m = false) ->
      exists fuel,
        EInkDisplay.init_display busy fuel h <> None
        /\ EInkDisplay.display_image busy fuel getpixel h <> None).
Proof.
  split; [split|split].
  - intros (fuel & h' & Hw). eapply wait_some_idle; eassumption.
  - intros (n & Hn & Hidle).
    destruct (wait_returns busy h n Hn Hidle) as (d & _ & Hd).
    exists (S d). eexists. apply Hd. lia.
  - intros Hbusy fuel. split; [now apply wait_never|]. split.
    + unfold EInkDisplay.init_display. now rewrite wait_never.
    + unfold EInkDisplay.display_image. now apply wait_never.
  - intros Hclear.
    (* the wait after the reset pulse *)
    destruct (Hclear (EInkDisplay.polls (EInkDisplay.reset h))) as (n1 & Hn1 & Hi1).
    destruct (wait_returns busy _ n1 Hn1 Hi1) as (d1 & _ & Hd1).
    set (h1 := {| EInkDisplay.log := _; EInkDisplay.polls := _ |}) in Hd1.
    (* the wait after power-on *)
    set (h4 :=
           EInkDisplay.write_command 4
             (EInkDisplay.write_data [0xc7; 0xcc; 0x28]
                (EInkDisplay.write_command 6
                   (EInkDisplay.write_data [0xCF; 0x08]
                      (EInkDisplay.write_command 0
                         (EInkDisplay.write_data [0x37; 0x00]
                            (EInkDisplay.write_command 1 h1))))))).
    destruct (Hclear (EInkDisplay.polls h4)) as (n2 & Hn2 & Hi2).
    destruct (wait_returns busy h4 n2 Hn2 Hi2) as (d2 & _ & Hd2).
    (* the wait after the refresh command *)
    set (h5 :=
           EInkDisplay.write_command 0x12
             (EInkDisplay.write_data
                (EInkDisplay.encode EInkDisplay.WIDTH EInkDisplay.HEIGHT getpixel)
                (EInkDisplay.write_command 0x13 h))).
    destruct (Hclear (EInkDisplay.polls h5)) as (n3 & Hn3 & Hi3).
    destruct (wait_returns busy h5 n3 Hn3 Hi3) as (d3 & _ & Hd3).
    exists (S (d1 + d2 + d3)). split.
    + unfold EInkDisplay.init_display. rewrite Hd1 by lia.
      fold h1. cbv zeta. fold h4. rewrite Hd2 by lia. discriminate.
    + unfold EInkDisplay.display_image. cbv zeta. fold h5.
      rewrite Hd3 by lia. discriminate.
Qed.

(** ** Debounce *)

Section DebounceFacts.
Import InputHandler.
Context {handler : Type}.
Implicit Types (s : InputHandler.t handler) (pin now : Z).

Lemma event_map_named pin event :
  event_map pin = Some event -> String.eqb event "" = false.
Proof.
  unfold event_map. repeat case_decide; intros E; inversion E; reflexivity.
Qed.

Lemma dispatch_bound s pin event h :
  event_map pin = Some event -> event_handlers s !! event = Some h ->
  dispatch pin s = [h].
Proof.
  intros Hev Hh. unfold dispatch. rewrite Hev, (event_map_named _ _ Hev).
  cbn [negb]. now rewrite Hh.
Qed.

(** An edge that is not within the window of the last accepted one is
    accepted: its time is recorded and the handler called once. *)
Lemma handle_input_accept s pin now event h :
  event_map pin = Some event -> event_handlers s !! event = Some h ->
  (forall last, last_press_time s !! pin = Some last -> debounce_delay <= now - last) ->
  handle_input now pin s
  = ({| last_press_time := <[pin := now]> (last_press_time s);
        event_handlers := event_handlers s |}, [h]).
Proof.
  intros Hev Hh Hfar. unfold handle_input.
  rewrite (dispatch_bound _ _ _ _ Hev Hh).
  destruct (last_press_time s !! pin) as [last|] eqn:Hl; [|reflexivity].
  specialize (Hfar last eq_refl).
  destruct (Z.ltb_spec (now - last) debounce_delay); [lia | reflexivity].
Qed.

(** An edge within the window is dropped and changes nothing. *)
Lemma handle_input_discard s pin now last :
  last_press_time s !! pin = Some last -> now - last < debounce_delay ->
  handle_input now pin s = (s, []).
Proof.
  intros Hl Hnear. unfold handle_input. rewrite Hl.
  destruct (Z.ltb_spec (now - last) debounce_delay); [reflexivity | lia].
Qed.
End DebounceFacts.


Example shelf_listing :
  map path_name (FileManager.refresh_files Samples.shelf)
  = ["a.txt"; "b.pdf"; "c.epub"; "D.TXT"]%string.
Proof. reflexivity. Qed.

Lemma C3_busy_wait_unbounded_witness :
  exists fuel,
    EInkDisplay.init_display (Samples.settles 3) fuel
      {| EInkDisplay.log := []; EInkDisplay.polls := 0 |} <> None
    /\ EInkDisplay.display_image (Samples.settles 3) fuel EInkDisplay.checker
         {| EInkDisplay.log := []; EInkDisplay.polls := 0 |} <> None.
Proof.
  apply (C3_busy_wait_unbounded (Samples.settles 3)
           {| EInkDisplay.log := []; EInkDisplay.polls := 0 |} EInkDisplay.checker).
  intros n. exists (n + 3)%nat. split; [lia|].
  unfold Samples.settles. apply Nat.ltb_ge. lia.
Defined.


(** C9: when the settings file cannot be read, or its text does not parse,
    [load_settings] returns the defaults: no last book, last page 0, font
    size 16.  It is a total function: nothing is raised to the caller. *)
Theorem C9_load_settings_defaults (w : World) :
  (forall text, settings_text w = Py.Ok text -> exists e, json_load w text = Py.Raise e) ->
  load_settings w
  = {| Settings.last_book := None; Settings.last_page := Some 0;
       Settings.font_size := Some 16 |}.
Proof.
  intros Hbad. unfold load_settings.
  destruct (settings_text w) as [text|e]; [|reflexivity].
  destruct (Hbad text eq_refl) as [e He]. now rewrite He.
Qed.

Lemma C9_load_settings_defaults_witness :
  load_settings Samples.garbled
  = {| Settings.last_book := None; Settings.last_page := Some 0;
       Settings.font_size := Some 16 |}.
Proof.
  apply (C9_load_settings_defaults Samples.garbled).
  intros text Htext. exists (Py.Exception "Expecting value"). reflexivity.
Defined.

(** ** Turning pages *)

Lemma index_in_range {A : Type} (l : list A) (i : Z) :
  0 <= i < Z.of_nat (length l) -> exists a, Py.index l i = Py.Ok a.
Proof.
  intros Hi. unfold Py.index.
  destruct (Z.ltb_spec i 0); [lia|].
  destruct (Z.leb_spec 0 i); [|lia].
  destruct (Z.ltb_spec i (Z.of_nat (length l))); [|lia]. cbn [andb].
  destruct (nth_error l (Z.to_nat i)) as [a|] eqn:Hn; [now exists a|].
  apply nth_error_None in Hn. lia.
Qed.

Module FirmwareFacts.
Import Firmware.

Lemma display_page_in_range (r : BookReader) (d : Screen.t) :
  0 <= current_page r < page_count r ->
  exists d', display_page r d = (d', Py.Ok tt).
Proof.
  intros Hr. unfold display_page.
  destruct (pages r) as [|p ps] eqn:Hp; [now exists d|].
  rewrite <- Hp.
  destruct (index_in_range (pages r) (current_page r) Hr) as [page ->].
  eexists. reflexivity.
Qed.

Lemma reader_set_page_same (r : BookReader) : set_page (current_page r) r = r.
Proof. now destruct r. Qed.

Lemma reader_set_page_twice (n m : Z) (r : BookReader) :
  set_page n (set_page m r) = set_page n r.
Proof. reflexivity. Qed.

Lemma next_page_moves (r : BookReader) (d : Screen.t) :
  0 <= current_page r < page_count r - 1 ->
  exists d', next_page r d
             = (set_page (current_page r + 1) r, (d', Py.Ok (Py.RBool true))).
Proof.
  intros Hr. unfold next_page.
  destruct (Z.ltb_spec (current_page r) (page_count r - 1)); [|lia].
  destruct (display_page_in_range (set_page (current_page r + 1) r) d) as [d' ->].
  { unfold page_count in *. cbn [current_page set_page pages]. lia. }
  now exists d'.
Qed.

Lemma next_page_at_end (r : BookReader) (d : Screen.t) :
  page_count r - 1 <= current_page r ->
  next_page r d = (r, (d, Py.Ok (Py.RBool false))).
Proof.
  intros Hr. unfold next_page.
  destruct (Z.ltb_spec (current_page r) (page_count r - 1)); [lia | reflexivity].
Qed.

Lemma prev_page_moves (r : BookReader) (d : Screen.t) :
  0 < current_page r < page_count r ->
  exists d', prev_page r d
             = (set_page (current_page r - 1) r, (d', Py.Ok (Py.RBool true))).
Proof.
  intros Hr. unfold prev_page.
  destruct (Z.gtb_spec (current_page r) 0); [|lia].
  destruct (display_page_in_range (set_page (current_page r - 1) r) d) as [d' ->].
  { unfold page_count in *. cbn [current_page set_page pages]. lia. }
  now exists d'.
Qed.

Lemma prev_page_at_start (r : BookReader) (d : Screen.t) :
  current_page r <= 0 ->
  prev_page r d = (r, (d, Py.Ok (Py.RBool false))).
Proof.
  intros Hr. unfold prev_page.
  destruct (Z.gtb_spec (current_page r) 0); [lia | reflexivity].
Qed.
End FirmwareFacts.

Module ProductionFacts.
Import Production.

Lemma set_page_same (r : BookReader) : set_page (current_page r) r = r.
Proof. now destruct r. Qed.

Lemma set_page_twice (n m : Z) (r : BookReader) :
  set_page n (set_page m r) = set_page n r.
Proof. now destruct r. Qed.

Lemma current_page_set (n : Z) (r : BookReader) : current_page (set_page n r) = n.
Proof. now destruct r. Qed.

Lemma page_count_set (n : Z) (r : BookReader) : page_count (set_page n r) = page_count r.
Proof. now destruct r. Qed.

Lemma after_display_none (x : Screen.t * Py.result unit) (v : Py.retval) :
  snd (Firmware.after_display Py.RNone x) = Py.Ok v -> v = Py.RNone.
Proof. destruct x as [d [u|e]]; cbn; congruence. Qed.

Lemma next_page_reader (r : BookReader) (d : Screen.t) :
  fst (next_page r d)
  = if current_page r <? page_count r - 1 then set_page (current_page r + 1) r else r.
Proof. unfold next_page. now destruct (current_page r <? page_count r - 1). Qed.

Lemma prev_page_reader (r : BookReader) (d : Screen.t) :
  fst (prev_page r d)
  = if current_page r >? 0 then set_page (current_page r - 1) r else r.
Proof. unfold prev_page. now destruct (current_page r >? 0). Qed.

Lemma next_page_returns_none (r : BookReader) (d : Screen.t) (v : Py.retval) :
  snd (snd (next_page r d)) = Py.Ok v -> v = Py.RNone.
Proof.
  unfold next_page. destruct (current_page r <? page_count r - 1); cbn [snd].
  - apply after_display_none.
  - congruence.
Qed.

Lemma prev_page_returns_none (r : BookReader) (d : Screen.t) (v : Py.retval) :
  snd (snd (prev_page r d)) = Py.Ok v -> v = Py.RNone.
Proof.
  unfold prev_page. destruct (current_page r >? 0); cbn [snd].
  - apply after_display_none.
  - congruence.
Qed.

Lemma next_then_prev (r : BookReader) (d d' : Screen.t) :
  0 <= current_page r < page_count r - 1 ->
  fst (prev_page (fst (next_page r d)) d') = r.
Proof.
  intros Hr. rewrite next_page_reader.
  destruct (Z.ltb_spec (current_page r) (page_count r - 1)); [|lia].
  rewrite prev_page_reader, current_page_set.
  destruct (Z.gtb_spec (current_page r + 1) 0); [|lia].
  rewrite set_page_twice. replace (current_page r + 1 - 1) with (current_page r) by lia.
  apply set_page_same.
Qed.
End ProductionFacts.

(** C6 (as the specification words it, refuted): the text reader of
    [Production/main.py], on the first of two pages, moves to the second
    page on [next_page] but returns [None], not whether it moved. *)
Lemma C6_production_next_page_returns_none :
  let r := Production.TextBookReader Samples.a_txt 0 ["one"; "two"]%string in
  let out := Production.next_page r Screen.init in
  Production.current_page (fst out) = 1
  /\ snd (snd out) = Py.Ok Py.RNone
  /\ snd (snd out) <> Py.Ok (Py.RBool true).
Proof. cbv zeta. split; [reflexivity|]. split; [reflexivity | discriminate]. Qed.

(** C6 (amended): for every reader with its cursor in range, on any page
    but the last [next_page] followed by [prev_page] restores the cursor;
    on the last page [next_page] changes nothing; on page 0 [prev_page]
    changes nothing.  The reader of [Firmware/main.py] returns [True] when
    it moved and [False] when it did not; the readers of
    [Production/main.py] return no value. *)
Theorem C6_page_turns (r : Firmware.BookReader) (p : Production.BookReader)
        (d : Screen.t) :
  0 <= Firmware.current_page r < Firmware.page_count r ->
  0 <= Production.current_page p < Production.page_count p ->
  (Firmware.current_page r < Firmware.page_count r - 1 ->
   exists d1 d2,
     Firmware.next_page r d
     = (Firmware.set_page (Firmware.current_page r + 1) r, (d1, Py.Ok (Py.RBool true)))
     /\ Firmware.prev_page (Firmware.set_page (Firmware.current_page r + 1) r) d1
        = (r, (d2, Py.Ok (Py.RBool true))))
  /\ (Firmware.current_page r = Firmware.page_count r - 1 ->
      Firmware.next_page r d = (r, (d, Py.Ok (Py.RBool false))))
  /\ (Firmware.current_page r = 0 ->
      Firmware.prev_page r d = (r, (d, Py.Ok (Py.RBool false))))
  /\ (Production.current_page p < Production.page_count p - 1 ->
      forall d', fst (Production.prev_page (fst (Production.next_page p d)) d') = p)
  /\ (Production.current_page p = Production.page_count p - 1 ->
      Production.next_page p d = (p, (d, Py.Ok Py.RNone)))
  /\ (Production.current_page p = 0 ->
      Production.prev_page p d = (p, (d, Py.Ok Py.RNone)))
  /\ (forall v, snd (snd (Production.next_page p d)) = Py.Ok v
                \/ snd (snd (Production.prev_page p d)) = Py.Ok v -> v = Py.RNone).
Proof.
  intros Hr Hp. repeat split.
  - intros Hlast.
    destruct (FirmwareFacts.next_page_moves r d ltac:(lia)) as [d1 E1].
    destruct (FirmwareFacts.prev_page_moves
                (Firmware.set_page (Firmware.current_page r + 1) r) d1) as [d2 E2].
    { unfold Firmware.page_count in *.
      cbn [Firmware.current_page Firmware.set_page Firmware.pages]. lia. }
    exists d1, d2. split; [exact E1|]. rewrite E2. f_equal. cbn [Firmware.current_page
      Firmware.set_page Firmware.file_path Firmware.pages].
    replace (Firmware.current_page r + 1 - 1) with (Firmware.current_page r) by lia.
    now destruct r.
  - intros Hlast. apply FirmwareFacts.next_page_at_end. lia.
  - intros Hfirst. apply FirmwareFacts.prev_page_at_start. lia.
  - intros Hlast d'. apply ProductionFacts.next_then_prev. lia.
  - intros Hlast. unfold Production.next_page.
    destruct (Z.ltb_spec (Production.current_page p) (Production.page_count p - 1));
      [lia | reflexivity].
  - intros Hfirst. unfold Production.prev_page.
    destruct (Z.gtb_spec (Production.current_page p) 0); [lia | reflexivity].
  - intros v [Hv|Hv].
    + eapply ProductionFacts.next_page_returns_none; eassumption.
    + eapply ProductionFacts.prev_page_returns_none; eassumption.
Qed.

(** ** Strings: splitting and joining lines *)

Section StrFacts.
Import Py.

Lemma append_cons (c : ascii) (a b : string) :
  (String c a ++ b)%string = String c (a ++ b).
Proof. reflexivity. Qed.

Lemma append_empty (b : string) : (EmptyString ++ b)%string = b.
Proof. reflexivity. Qed.

Lemma take_drop (n : nat) (s : string) : (take n s ++ drop n s)%string = s.
Proof.
  revert s. induction n as [|n IH]; intros [|c s]; simpl; try reflexivity.
  now rewrite append_cons, IH.
Qed.

Lemma length_take (n : nat) (s : string) :
  String.length (take n s) = Nat.min n (String.length s).
Proof.
  revert s. induction n as [|n IH]; intros [|c s]; simpl; try reflexivity.
  now rewrite IH.
Qed.

Lemma length_drop (n : nat) (s : string) :
  String.length (drop n s) = (String.length s - n)%nat.
Proof.
  revert s. induction n as [|n IH]; intros [|c s]; simpl; try reflexivity.
  now rewrite IH.
Qed.

Lemma no_newline_take (n : nat) (s : string) :
  no_newline s = true -> no_newline (take n s) = true.
Proof.
  revert s. induction n as [|n IH]; intros [|c s]; simpl; try reflexivity.
  intros H. apply andb_true_iff in H as [Hc Hs]. now rewrite Hc, IH.
Qed.

Lemma no_newline_drop (n : nat) (s : string) :
  no_newline s = true -> no_newline (drop n s) = true.
Proof.
  revert s. induction n as [|n IH]; intros [|c s]; simpl; try reflexivity; try easy.
  intros H. apply andb_true_iff in H as [Hc Hs]. now apply IH.
Qed.

Lemma split_nl_cons (s : string) : exists h t, split_nl s = h :: t.
Proof.
  induction s as [|c s (h & t & IH)]; cbn.
  - now eexists _, _.
  - destruct (Ascii.eqb c newline); [now eexists _, _|].
    rewrite IH. now eexists _, _.
Qed.

Lemma split_nl_lines (s : string) :
  Forall (fun l => no_newline l = true) (split_nl s).
Proof.
  induction s as [|c s IH]; cbn.
  - now repeat constructor.
  - destruct (Ascii.eqb c newline) eqn:Hc; [now constructor|].
    destruct (split_nl s) as [|h t]; [repeat constructor; cbn; now rewrite Hc|].
    inversion IH as [|? ? Hh Ht]; subst. constructor; [|exact Ht].
    cbn. now rewrite Hc, Hh.
Qed.

(** A text without line break is one line. *)
Lemma split_nl_line (s : string) : no_newline s = true -> split_nl s = [s].
Proof.
  induction s as [|c s IH]; cbn; [reflexivity|].
  intros H. apply andb_true_iff in H as [Hc Hs]. apply negb_true_iff in Hc.
  now rewrite Hc, IH.
Qed.

Lemma split_nl_app (x rest : string) :
  no_newline x = true ->
  split_nl (x ++ nl ++ rest) = x :: split_nl rest.
Proof.
  induction x as [|c x IH]; [reflexivity|].
  intros H. cbn in H. apply andb_true_iff in H as [Hc Hx]. apply negb_true_iff in Hc.
  rewrite append_cons. cbn [split_nl]. now rewrite Hc, IH.
Qed.

(** Splitting undoes joining, for a page of at least one line. *)
Lemma split_join (ls : list string) :
  ls <> [] -> Forall (fun l => no_newline l = true) ls ->
  split_nl (join_nl ls) = ls.
Proof.
  induction ls as [|x ls IH]; [easy|]. intros _ Hall.
  inversion Hall as [|? ? Hx Hls]; subst.
  destruct ls as [|y ls].
  - cbn. now apply split_nl_line.
  - unfold join_nl in *. cbn [String.concat].
    rewrite split_nl_app by exact Hx. f_equal. now apply IH.
Qed.
End StrFacts.

(** ** Pagination of plain text *)

Section TextPagesFacts.
Import TextPages.

Lemma append_assoc (a b c : string) : ((a ++ b) ++ c)%string = (a ++ (b ++ c))%string.
Proof. induction a as [|x a IH]; [reflexivity|]. now rewrite !append_cons, IH. Qed.

Lemma append_empty_r (a : string) : (a ++ "")%string = a.
Proof. induction a as [|x a IH]; [reflexivity|]. now rewrite append_cons, IH. Qed.

Lemma glue_app (a b : list string) : Py.glue (a ++ b) = (Py.glue a ++ Py.glue b)%string.
Proof.
  induction a as [|x a IH]; [reflexivity|].
  cbn [app Py.glue fold_right]. fold (Py.glue (a ++ b)). fold (Py.glue a).
  now rewrite IH, append_assoc.
Qed.

(** The inner loop only appends to [current]. *)
Lemma wrap_while_acc (fuel : nat) :
  forall line current,
    wrap_while fuel line current
    = (current ++ fst (wrap_while fuel line []), snd (wrap_while fuel line [])).
Proof.
  induction fuel as [|fuel IH]; intros line current; cbn [wrap_while].
  - cbn. now rewrite app_nil_r.
  - destruct (chars_per_line <? String.length line)%nat.
    + rewrite (IH _ (current ++ _)), (IH _ ([] ++ _)). cbn [fst snd].
      now rewrite <- app_assoc.
    + cbn. now rewrite app_nil_r.
Qed.

Lemma add_line_pieces (pages current : list string) (line : string) :
  add_line (pages, current) line
  = if (lines_per_page <=? length (current ++ pieces line))%nat
    then (pages ++ [Py.join_nl (current ++ pieces line)], [])
    else (pages, current ++ pieces line).
Proof.
  unfold add_line, pieces. rewrite wrap_while_acc.
  destruct (wrap_while (String.length line) line []) as [cut rest]. cbn [fst snd].
  now rewrite <- app_assoc.
Qed.

(** What the inner loop cuts off and what it leaves. *)
Lemma wrap_while_spec (fuel : nat) :
  forall line, (String.length line <= fuel)%nat ->
    let '(cut, rest) := wrap_while fuel line [] in
    (Py.glue cut ++ rest)%string = line
    /\ Forall (fun p => String.length p = chars_per_line) cut
    /\ (String.length rest <= chars_per_line)%nat
    /\ (Py.no_newline line = true -> lines_ok cut /\ Py.no_newline rest = true).
Proof.
  induction fuel as [|fuel IH]; intros line Hfuel; cbn [wrap_while].
  - repeat split; auto. lia.
  - destruct (Nat.ltb_spec chars_per_line (String.length line)) as [Hlong|Hshort].
    + rewrite wrap_while_acc.
      specialize (IH (Py.drop chars_per_line line)).
      destruct (wrap_while fuel (Py.drop chars_per_line line) []) as [cut rest].
      destruct IH as (Hglue & Hcut & Hrest & Hnl).
      { rewrite length_drop. unfold chars_per_line in *. lia. }
      cbn [fst snd app]. repeat split.
      * cbn [Py.glue fold_right]. fold (Py.glue cut).
        now rewrite append_assoc, Hglue, take_drop.
      * constructor; [|exact Hcut]. rewrite length_take. lia.
      * exact Hrest.
      * constructor; [now apply no_newline_take|].
        apply Hnl. now apply no_newline_drop.
      * apply Hnl. now apply no_newline_drop.
    + repeat split; auto.
Qed.

(** The pieces of a line put together give the line back, and none is
    longer than 80 characters. *)
Lemma pieces_spec (line : string) :
  Py.glue (pieces line) = line
  /\ Forall (fun p => (String.length p <= chars_per_line)%nat) (pieces line)
  /\ pieces line <> []
  /\ (Py.no_newline line = true -> lines_ok (pieces line)).
Proof.
  unfold pieces. pose proof (wrap_while_spec (String.length line) line (le_n _)) as Hw.
  destruct (wrap_while (String.length line) line []) as [cut rest].
  destruct Hw as (Hglue & Hcut & Hrest & Hnl). repeat split.
  - rewrite glue_app. cbn [Py.glue fold_right]. now rewrite append_empty_r.
  - apply Forall_app. split; [|constructor; [exact Hrest | constructor]].
    eapply List.Forall_impl; [|exact Hcut]. cbn. intros p ->. lia.
  - now destruct cut.
  - intros H. apply Forall_app. split; [now apply Hnl|].
    repeat constructor. now apply Hnl.
Qed.

Lemma page_lines_app (a b : list string) :
  page_lines (a ++ b) = page_lines a ++ page_lines b.
Proof. unfold page_lines. apply flat_map_app. Qed.

Lemma add_line_emitted (st : list string * list string) (line : string) :
  lines_ok (snd st) -> Py.no_newline line = true ->
  emitted (add_line st line) = emitted st ++ pieces line
  /\ lines_ok (snd (add_line st line)).
Proof.
  destruct st as [pages current]. cbn [snd]. intros Hcur Hline.
  destruct (pieces_spec line) as (_ & _ & Hne & Hnl). specialize (Hnl Hline).
  rewrite add_line_pieces.
  assert (Hall : lines_ok (current ++ pieces line)) by (apply Forall_app; now split).
  destruct (lines_per_page <=? length (current ++ pieces line))%nat.
  - unfold emitted. cbn [fst snd]. split; [|constructor].
    rewrite page_lines_app, app_nil_r, <- app_assoc. f_equal.
    unfold page_lines. cbn [flat_map]. rewrite app_nil_r.
    apply split_join; [|exact Hall].
    destruct current; [exact Hne | discriminate].
  - unfold emitted. cbn [fst snd]. split; [now rewrite app_assoc | exact Hall].
Qed.

Lemma fold_add_line_emitted (lines : list string) :
  forall st, lines_ok (snd st) -> lines_ok lines ->
    emitted (fold_left add_line lines st) = emitted st ++ flat_map pieces lines
    /\ lines_ok (snd (fold_left add_line lines st)).
Proof.
  induction lines as [|line lines IH]; intros st Hst Hlines; cbn [fold_left flat_map].
  - now rewrite app_nil_r.
  - inversion Hlines as [|? ? Hline Hrest]; subst.
    destruct (add_line_emitted st line Hst Hline) as [He Hok].
    destruct (IH _ Hok Hrest) as [He' Hok']. split; [|exact Hok'].
    now rewrite He', He, <- app_assoc.
Qed.

Lemma flush_emitted (st : list string * list string) :
  lines_ok (snd st) -> page_lines (flush st) = emitted st.
Proof.
  destruct st as [pages [|l current]]; cbn [snd flush]; intros Hcur.
  - unfold emitted. cbn [fst snd]. now rewrite app_nil_r.
  - unfold emitted. cbn [fst snd]. rewrite page_lines_app. f_equal.
    unfold page_lines. cbn [flat_map]. rewrite app_nil_r.
    now apply split_join.
Qed.

(** The lines of all pages, in page order, are the pieces of the source
    lines, in source order. *)
Lemma paginate_lines (content : string) :
  page_lines (paginate content) = flat_map pieces (Py.split_nl content).
Proof.
  unfold paginate.
  destruct (fold_add_line_emitted (Py.split_nl content) ([], [])) as [He Hok].
  { constructor. }
  { apply split_nl_lines. }
  now rewrite flush_emitted, He.
Qed.

Lemma paginate_nonempty (content : string) : paginate content <> [].
Proof.
  intros Hnil. pose proof (paginate_lines content) as Hl. rewrite Hnil in Hl.
  destruct (split_nl_cons content) as (h & t & Hs). rewrite Hs in Hl.
  cbn [flat_map page_lines] in Hl.
  destruct (pieces_spec h) as (_ & _ & Hne & _).
  destruct (pieces h); [now apply Hne | discriminate].
Qed.

(** A load, failed or not, leaves at least one page. *)
Lemma load_book_nonempty (read : Py.result string) :
  (1 <= length (load_book read))%nat.
Proof.
  destruct read as [content|e]; cbn [load_book length]; [|lia].
  pose proof (paginate_nonempty content).
  destruct (paginate content); [easy | cbn; lia].
Qed.
End TextPagesFacts.

Example paginate_45_lines :
  map (fun p => length (Py.split_nl p))
      (TextPages.paginate (Py.join_nl (repeat "x"%string 45)))
  = [20; 20; 5]%nat.
Proof. vm_compute. reflexivity. Qed.

(** ** Pagination of flow text *)

Section FlowPagesFacts.
Import FlowPages.

Lemma drop_drop (a b : nat) (s : string) : Py.drop a (Py.drop b s) = Py.drop (b + a) s.
Proof.
  revert s. induction b as [|b IH]; intros s; [reflexivity|].
  destruct s as [|c s]; cbn [Py.drop Nat.add]; [now destruct a | apply IH].
Qed.

(** The first [n] slices of 80 characters. *)
Lemma glue_slices (n : nat) :
  forall s, (String.length s <= n * 80)%nat ->
    Py.glue (map (fun i => Py.slice i 80 s) (map (fun k => (k * 80)%nat) (seq 0 n))) = s.
Proof.
  induction n as [|n IH]; intros s Hlen.
  - destruct s; [reflexivity | cbn in Hlen; lia].
  - cbn [seq map Py.glue fold_right].
    rewrite <- seq_shift, !map_map.
    rewrite (map_ext _ (fun k => Py.slice (k * 80) 80 (Py.drop 80 s))).
    2:{ intros k. unfold Py.slice. now rewrite drop_drop. }
    rewrite <- (map_map (fun k => (k * 80)%nat) (fun i => Py.slice i 80 (Py.drop 80 s))).
    match goal with
    | |- (_ ++ fold_right String.append EmptyString ?l)%string = _ =>
        change (fold_right String.append EmptyString l) with (Py.glue l)
    end.
    rewrite IH by (rewrite length_drop; cbn in Hlen; lia).
    apply take_drop.
Qed.

(** Within a line nothing is lost; but a blank line has no slice at all. *)
Lemma wrapped_spec (line : string) :
  Py.glue (wrapped line) = line
  /\ (line = EmptyString -> wrapped line = [])
  /\ (Py.no_newline line = true -> lines_ok (wrapped line)).
Proof.
  unfold wrapped, Py.range_step. repeat split.
  - apply glue_slices.
    pose proof (Nat.div_mod_eq (String.length line + 80 - 1) 80).
    pose proof (Nat.mod_upper_bound (String.length line + 80 - 1) 80). lia.
  - now intros ->.
  - intros Hline. apply List.Forall_map, List.Forall_forall. intros i _.
    unfold Py.slice. now apply no_newline_take, no_newline_drop.
Qed.

Lemma add_wline_emitted (st : list string * list string) (wline : string) :
  lines_ok (snd st) -> Py.no_newline wline = true ->
  TextPages.emitted (add_wline st wline) = TextPages.emitted st ++ [wline]
  /\ lines_ok (snd (add_wline st wline)).
Proof.
  destruct st as [pages current]. cbn [snd]. intros Hcur Hw. unfold add_wline.
  assert (Hall : lines_ok (current ++ [wline]))
    by (apply Forall_app; split; [exact Hcur | now repeat constructor]).
  destruct (length (current ++ [wline]) =? 20)%nat; unfold TextPages.emitted; cbn [fst snd].
  - split; [|constructor].
    rewrite page_lines_app, app_nil_r, <- app_assoc. f_equal.
    unfold TextPages.page_lines. cbn [flat_map]. rewrite app_nil_r.
    apply split_join; [|exact Hall]. now destruct current.
  - split; [now rewrite app_assoc | exact Hall].
Qed.

Lemma fold_add_wline_emitted (ws : list string) :
  forall st, lines_ok (snd st) -> lines_ok ws ->
    TextPages.emitted (fold_left add_wline ws st) = TextPages.emitted st ++ ws
    /\ lines_ok (snd (fold_left add_wline ws st)).
Proof.
  induction ws as [|w ws IH]; intros st Hst Hws; cbn [fold_left].
  - now rewrite app_nil_r.
  - inversion Hws as [|? ? Hw Hrest]; subst.
    destruct (add_wline_emitted st w Hst Hw) as [He Hok].
    destruct (IH _ Hok Hrest) as [He' Hok']. split; [|exact Hok'].
    now rewrite He', He, <- app_assoc.
Qed.

Lemma fold_flow_add_line_emitted (lines : list string) :
  forall st, lines_ok (snd st) -> lines_ok lines ->
    TextPages.emitted (fold_left add_line lines st)
    = TextPages.emitted st ++ flat_map wrapped lines
    /\ lines_ok (snd (fold_left add_line lines st)).
Proof.
  induction lines as [|line lines IH]; intros st Hst Hlines; cbn [fold_left flat_map].
  - now rewrite app_nil_r.
  - inversion Hlines as [|? ? Hline Hrest]; subst.
    destruct (wrapped_spec line) as (_ & _ & Hw). specialize (Hw Hline).
    destruct (fold_add_wline_emitted (wrapped line) st Hst Hw) as [He Hok].
    fold (add_line st line) in He, Hok.
    destruct (IH _ Hok Hrest) as [He' Hok']. split; [|exact Hok'].
    now rewrite He', He, <- app_assoc.
Qed.

(** The lines of all pages are the slices of the source lines, in order;
    source lines that are blank contribute nothing. *)
Lemma flow_paginate_lines (content : string) :
  TextPages.page_lines (paginate content) = flat_map wrapped (Py.split_nl content).
Proof.
  unfold paginate.
  destruct (fold_flow_add_line_emitted (Py.split_nl content) ([], [])) as [He Hok].
  { constructor. }
  { apply split_nl_lines. }
  now rewrite flush_emitted, He.
Qed.
End FlowPagesFacts.

(** C5 (code defect, evaluated): the flow-text paginator drops blank
    lines.  The text "a", blank line, "b" has the three lines
    [["a"; ""; "b"]]; the plain-text paginator shows exactly these, while
    [EPUBBookReader.paginate] returns one page whose lines are
    [["a"; "b"]]. *)
Lemma C5_flow_paginate_drops_blank_line :
  let content := ("a" ++ Py.nl ++ Py.nl ++ "b")%string in
  Py.split_nl content = ["a"; ""; "b"]%string
  /\ TextPages.page_lines (TextPages.paginate content) = ["a"; ""; "b"]%string
  /\ FlowPages.paginate content = [("a" ++ Py.nl ++ "b")%string]
  /\ TextPages.page_lines (FlowPages.paginate content) = ["a"; "b"]%string.
Proof. cbv zeta. repeat split; reflexivity. Qed.

(** ** Opening a book *)

Module OpenFacts.

Lemma construct_fresh (w : World) (p : Path) (r0 : Production.BookReader) :
  Production.construct w p = Some (Py.Ok r0) -> Production.current_page r0 = 0.
Proof.
  unfold Production.construct, Production.new_pdf, Production.new_epub.
  destruct (String.eqb _ ".txt"); [intros [= <-]; reflexivity|].
  destruct (String.eqb _ ".pdf").
  { destruct (fitz_open w (path_str p)); intros [= <-]; reflexivity. }
  destruct (String.eqb _ ".epub"); [|discriminate].
  destruct (read_epub w (path_str p)); intros [= <-]; reflexivity.
Qed.

(** [open_book] of the production program stores the reader it has just
    built, with the cursor taken from the settings. *)
Lemma production_open_book_reader (w : World) (a : Production.App) (p : Path)
      (r0 : Production.BookReader) :
  FileManager.get_file_path (current_files a) (selected_index a) = Some p ->
  Production.construct w p = Some (Py.Ok r0) ->
  current_book (Production.open_book w a)
  = Some (Production.set_page (resumed (settings a) p) r0).
Proof.
  intros Hp Hc. unfold Production.open_book, resumed. rewrite Hp, Hc.
  pose proof (construct_fresh w p r0 Hc) as H0.
  replace (if decide (Some (path_str p) = Settings.last_book (settings a))
           then Production.set_page (default 0 (Settings.last_page (settings a))) r0
           else r0)
    with (Production.set_page
            (if decide (Some (path_str p) = Settings.last_book (settings a))
             then default 0 (Settings.last_page (settings a)) else 0) r0).
  2:{ case_decide; [reflexivity|]. rewrite <- H0. apply ProductionFacts.set_page_same. }
  destruct (Production.display_page _ _) as [d [u|e]]; reflexivity.
Qed.

(** A constructor that raises leaves everything but the log as it was. *)
Lemma production_open_book_raises (w : World) (a : Production.App) (p : Path)
      (e : Py.exn) :
  FileManager.get_file_path (current_files a) (selected_index a) = Some p ->
  Production.construct w p = Some (Py.Raise e) ->
  Production.open_book w a
  = log_record ERROR ("Error opening book: " ++ Py.exn_msg e)%string a.
Proof. intros Hp Hc. unfold Production.open_book. now rewrite Hp, Hc. Qed.

Lemma firmware_open_book_reader (w : World) (a : Firmware.App) (p : Path) :
  FileManager.get_file_path (current_files a) (selected_index a) = Some p ->
  Py.lower (path_suffix p) = ".txt"%string ->
  current_book (Firmware.open_book w a)
  = Some (Firmware.set_page (resumed (settings a) p) (Firmware.new_reader w p)).
Proof.
  intros Hp Hext. unfold Firmware.open_book, resumed. rewrite Hp, Hext. cbn [String.eqb].
  change (String.eqb ".txt" ".txt") with true. cbv iota.
  replace (if decide (Some (path_str p) = Settings.last_book (settings a))
           then Firmware.set_page (default 0 (Settings.last_page (settings a)))
                  (Firmware.new_reader w p)
           else Firmware.new_reader w p)
    with (Firmware.set_page
            (if decide (Some (path_str p) = Settings.last_book (settings a))
             then default 0 (Settings.last_page (settings a)) else 0)
            (Firmware.new_reader w p)).
  2:{ case_decide; reflexivity. }
  destruct (Firmware.display_page _ _) as [d [u|e]]; reflexivity.
Qed.

End OpenFacts.

(** C4 (as the specification words it, refuted): selecting the corrupt PDF
    on the sample shelf builds no reader.  The application stays in the
    menu with no book, nothing new is presented on the display, and the
    only trace is one error record in the log. *)
Lemma C4_corrupt_pdf_builds_no_reader :
  let a : Production.App := set_index 1 (startup Samples.shelf) in
  let a' := Production.open_book Samples.shelf a in
  FileManager.get_file_path (current_files a) (selected_index a) = Some Samples.b_pdf
  /\ fitz_open Samples.shelf (path_str Samples.b_pdf) = Py.Raise Samples.broken
  /\ current_book a' = None
  /\ current_menu a' = Main
  /\ display a' = display a
  /\ logged a' = [(ERROR, "Error opening book: cannot open broken document"%string)].
Proof. cbv zeta. repeat split; reflexivity. Qed.

(** C4 (amended): when the PDF library fails to open the selected file,
    [open_book] does not crash and builds no reader: it logs
    "Error opening book: ..." and leaves the book, the mode and the
    display as they were, so the user stays in the menu.  Only a plain-text
    file whose read fails yields a reader with exactly one, non-empty,
    diagnostic page. *)
Theorem C4_pdf_open_failure (w : World) (a : Production.App) (p : Path) (e : Py.exn) :
  FileManager.get_file_path (current_files a) (selected_index a) = Some p ->
  (Py.lower (path_suffix p) = ".pdf"%string ->
   fitz_open w (path_str p) = Py.Raise e ->
   Production.open_book w a
   = log_record ERROR ("Error opening book: " ++ Py.exn_msg e)%string a)
  /\ (Py.lower (path_suffix p) = ".txt"%string ->
      read_text w (path_str p) = Py.Raise e ->
      exists n page,
        current_book (Production.open_book w a)
        = Some (Production.TextBookReader p n [page])
        /\ page = ("Error loading book: " ++ Py.exn_msg e)%string
        /\ page <> EmptyString).
Proof.
  intros Hp. split.
  - intros Hext Hopen. apply (OpenFacts.production_open_book_raises w a p e); [exact Hp|].
    unfold Production.construct, Production.new_pdf. rewrite Hext, Hopen. reflexivity.
  - intros Hext Hread.
    rewrite (OpenFacts.production_open_book_reader w a p (Production.new_text w p) Hp).
    2:{ unfold Production.construct. rewrite Hext. reflexivity. }
    unfold Production.new_text. rewrite Hread. cbn [TextPages.load_book Production.set_page].
    eexists _, _. split; [reflexivity|]. split; [reflexivity | discriminate].
Qed.

Lemma C4_pdf_open_failure_witness :
  let a : Production.App := set_index 1 (startup Samples.shelf) in
  Production.open_book Samples.shelf a
  = log_record ERROR "Error opening book: cannot open broken document"%string a.
Proof.
  cbv zeta.
  apply (C4_pdf_open_failure Samples.shelf (set_index 1 (startup Samples.shelf))
           Samples.b_pdf Samples.broken); reflexivity.
Defined.

Module CursorFacts.

Lemma firmware_next_page_reader (r : Firmware.BookReader) (d : Screen.t) :
  fst (Firmware.next_page r d)
  = if Firmware.current_page r <? Firmware.page_count r - 1
    then Firmware.set_page (Firmware.current_page r + 1) r else r.
Proof.
  unfold Firmware.next_page.
  now destruct (Firmware.current_page r <? Firmware.page_count r - 1).
Qed.

Lemma firmware_prev_page_reader (r : Firmware.BookReader) (d : Screen.t) :
  fst (Firmware.prev_page r d)
  = if Firmware.current_page r >? 0
    then Firmware.set_page (Firmware.current_page r - 1) r else r.
Proof. unfold Firmware.prev_page. now destruct (Firmware.current_page r >? 0). Qed.

Lemma firmware_turns_in_range (r : Firmware.BookReader) (d : Screen.t) :
  0 <= Firmware.current_page r < Firmware.page_count r ->
  0 <= Firmware.current_page (fst (Firmware.next_page r d)) < Firmware.page_count r
  /\ 0 <= Firmware.current_page (fst (Firmware.prev_page r d)) < Firmware.page_count r
  /\ Firmware.pages (fst (Firmware.next_page r d)) = Firmware.pages r
  /\ Firmware.pages (fst (Firmware.prev_page r d)) = Firmware.pages r.
Proof.
  intros Hr. rewrite firmware_next_page_reader, firmware_prev_page_reader.
  destruct (Z.ltb_spec (Firmware.current_page r) (Firmware.page_count r - 1));
    destruct (Z.gtb_spec (Firmware.current_page r) 0);
    cbn [Firmware.current_page Firmware.set_page Firmware.pages];
    repeat split; try reflexivity; lia.
Qed.

Lemma production_turns_in_range (r : Production.BookReader) (d : Screen.t) :
  Production.cursor_ok r ->
  Production.cursor_ok (fst (Production.next_page r d))
  /\ Production.cursor_ok (fst (Production.prev_page r d)).
Proof.
  unfold Production.cursor_ok. intros [Hr H1].
  rewrite ProductionFacts.next_page_reader, ProductionFacts.prev_page_reader.
  destruct (Z.ltb_spec (Production.current_page r) (Production.page_count r - 1));
    destruct (Z.gtb_spec (Production.current_page r) 0);
    rewrite ?ProductionFacts.current_page_set, ?ProductionFacts.page_count_set;
    repeat split; lia.
Qed.

Lemma new_text_in_range (w : World) (p : Path) :
  Production.cursor_ok (Production.new_text w p).
Proof.
  unfold Production.cursor_ok, Production.new_text.
  cbn [Production.current_page Production.page_count].
  pose proof (load_book_nonempty (read_text w (path_str p))). lia.
Qed.

Lemma new_reader_in_range (w : World) (p : Path) :
  Firmware.current_page (Firmware.new_reader w p) = 0
  /\ 1 <= Firmware.page_count (Firmware.new_reader w p).
Proof.
  split; [reflexivity|]. unfold Firmware.page_count, Firmware.new_reader.
  cbn [Firmware.pages].
  pose proof (load_book_nonempty (read_text w (path_str p))). lia.
Qed.

End CursorFacts.




(** ** The controller *)

Module ControllerFacts.
Import Firmware.

(** What a handler can touch: [on_book] only the book and the display,
    [open_book] also the mode and the log. *)
Lemma on_book_frame m (a : App) :
  selected_index (on_book m a) = selected_index a
  /\ current_files (on_book m a) = current_files a
  /\ settings (on_book m a) = settings a
  /\ current_menu (on_book m a) = current_menu a.
Proof.
  unfold on_book. destruct (current_book a) as [r|]; [|now repeat split].
  destruct (m r (display a)) as [r' [d' v]]. now repeat split.
Qed.

Lemma open_book_frame (w : World) (a : App) :
  selected_index (open_book w a) = selected_index a
  /\ current_files (open_book w a) = current_files a
  /\ settings (open_book w a) = settings a.
Proof.
  unfold open_book.
  destruct (FileManager.get_file_path _ _) as [p|]; [|now repeat split].
  destruct (String.eqb _ _); [|now repeat split].
  destruct (display_page _ _) as [d [u|e]]; now repeat split.
Qed.

Lemma save_settings_frame (w : World) (a : App) :
  selected_index (save_settings w a) = selected_index a
  /\ current_files (save_settings w a) = current_files a
  /\ settings (save_settings w a) = settings a.
Proof. unfold save_settings. destruct (settings_write w); now repeat split. Qed.

Lemma index_ok_iff (a : App) :
  index_ok a
  <-> 0 <= selected_index a
      /\ (selected_index a < Z.of_nat (length (current_files a))
          \/ (selected_index a = 0 /\ length (current_files a) = 0%nat)).
Proof.
  unfold index_ok. destruct (current_files a) as [|f fs]; cbn [length]; lia.
Qed.

(** Re-drawing the menu keeps the selection and replaces the file list. *)
Lemma show_main_menu_index (w : World) (a : App) :
  index_ok a ->
  (length (current_files a) <= length (FileManager.refresh_files w))%nat ->
  index_ok (show_main_menu w a).
Proof.
  rewrite !index_ok_iff.
  change (selected_index (show_main_menu w a)) with (selected_index a).
  change (current_files (show_main_menu w a)) with (FileManager.refresh_files w).
  lia.
Qed.

Lemma handle_index (act : action) (w : World) (a : App) :
  index_ok a ->
  (length (current_files a) <= length (FileManager.refresh_files w))%nat ->
  index_ok (handle act w a).
Proof.
  intros Hok Hlen.
  assert (Hframe : forall a' : App,
             selected_index a' = selected_index a ->
             current_files a' = current_files a -> index_ok a').
  { intros a' Hi Hf. apply index_ok_iff. rewrite Hi, Hf. now apply index_ok_iff. }
  destruct act; cbn [handle];
    unfold handle_up, handle_down, handle_left, handle_right, handle_select,
      handle_menu, handle_back, handle_bookmark, handle_settings;
    destruct (current_menu a);
    try exact Hok;
    try (apply Hframe; apply on_book_frame);
    try (apply Hframe; apply open_book_frame).
  - (* up, in the menu *)
    destruct (Z.gtb_spec (selected_index a) 0); [|exact Hok].
    apply show_main_menu_index; [|exact Hlen].
    apply index_ok_iff. apply index_ok_iff in Hok.
    cbn [selected_index current_files set_index]. lia.
  - (* down, in the menu *)
    unfold FileManager.get_file_list. rewrite length_map.
    destruct (Z.ltb_spec (selected_index a) (Z.of_nat (length (current_files a)) - 1));
      [|exact Hok].
    apply show_main_menu_index; [|exact Hlen].
    apply index_ok_iff. apply index_ok_iff in Hok.
    cbn [selected_index current_files set_index]. lia.
  - (* menu, while reading *)
    apply show_main_menu_index; [|exact Hlen]. now apply Hframe.
  - (* back, while reading *)
    apply show_main_menu_index; [|exact Hlen]. now apply Hframe.
  - (* bookmark, while reading *)
    destruct (current_book a) as [r|]; [|exact Hok].
    apply Hframe; (etransitivity; [apply save_settings_frame | reflexivity]).
Qed.

Lemma startup_index (w : World) : index_ok (startup w : App).
Proof.
  apply index_ok_iff.
  change (selected_index (startup w : App)) with 0. lia.
Qed.

(** Only the bookmark action changes the settings. *)
Lemma handle_settings_frame (act : action) (w : World) (a : App) :
  act <> Bookmark -> settings (handle act w a) = settings a.
Proof.
  intros Hact.
  destruct act; try congruence; cbn [handle];
    unfold handle_up, handle_down, handle_left, handle_right, handle_select,
      handle_menu, handle_back, handle_settings;
    destruct (current_menu a);
    try reflexivity;
    try apply on_book_frame;
    try apply open_book_frame.
  - now destruct (selected_index a >? 0).
  - now destruct (selected_index a <? _).
Qed.

End ControllerFacts.

(** C7 (as the specification words it, refuted): start on the sample shelf
    of four books, move down twice, then move up after all books but one
    were deleted.  The menu re-scan finds one file while the selection
    stands at index 1. *)
Lemma C7_selection_outlives_shrunk_listing :
  let a := Firmware.handle Firmware.Up Samples.thinned
             (Firmware.handle Firmware.Down Samples.shelf
                (Firmware.handle Firmware.Down Samples.shelf
                   (startup Samples.shelf))) in
  Firmware.reachable a
  /\ selected_index a = 1
  /\ length (current_files a) = 1%nat
  /\ ~ Firmware.index_ok a.
Proof.
  cbv zeta. split; [repeat constructor|]. split; [reflexivity|].
  split; [reflexivity|].
  intros Hok. apply ControllerFacts.index_ok_iff in Hok.
  vm_compute in Hok. destruct Hok as [_ [Hlt | [Hz _]]]; discriminate.
Qed.

(** C7 (amended): in every state reached by a run in which no re-scan of
    the book directory returns fewer files than the previous scan,
    [0 <= selectedIndex < fileCount] when there are files, and
    [selectedIndex = 0] when there are none.  The menu redraw does not
    clamp the selection when the list shrinks. *)
Theorem C7_selected_index_invariant (a : Firmware.App) :
  Firmware.reachable_steady a -> Firmware.index_ok a.
Proof.
  induction 1 as [w | act w a Hreach IH Hlen].
  - apply ControllerFacts.startup_index.
  - now apply ControllerFacts.handle_index.
Qed.

Lemma C7_selected_index_invariant_witness :
  Firmware.index_ok
    (Firmware.handle Firmware.Down Samples.shelf (startup Samples.shelf)).
Proof.
  apply (C7_selected_index_invariant
           (Firmware.handle Firmware.Down Samples.shelf (startup Samples.shelf))).
  apply Firmware.steady_step; [apply Firmware.steady_start|].
  vm_compute. lia.
Defined.



Lemma C6_page_turns_witness :
  let r := Firmware.MkBookReader Samples.a_txt 0 ["one"; "two"]%string in
  let p := Production.EPUBBookReader [] ["one"; "two"]%string 0 in
  (exists d1 d2,
      Firmware.next_page r Screen.init
      = (Firmware.set_page 1 r, (d1, Py.Ok (Py.RBool true)))
      /\ Firmware.prev_page (Firmware.set_page 1 r) d1
         = (r, (d2, Py.Ok (Py.RBool true))))
  /\ Firmware.prev_page r Screen.init = (r, (Screen.init, Py.Ok (Py.RBool false)))
  /\ Production.prev_page p Screen.init = (p, (Screen.init, Py.Ok Py.RNone)).
Proof.
  cbv zeta.
  destruct (C6_page_turns
              (Firmware.MkBookReader Samples.a_txt 0 ["one"; "two"]%string)
              (Production.EPUBBookReader [] ["one"; "two"]%string 0)
              Screen.init)
    as (Hmove & _ & Hfirst & _ & _ & Hpfirst & _).
  - vm_compute. split; [discriminate | reflexivity].
  - vm_compute. split; [discriminate | reflexivity].
  - split; [|split].
    + apply Hmove. reflexivity.
    + apply Hfirst. reflexivity.
    + apply Hpfirst. reflexivity.
Defined.

(** ** Worked scenarios *)

(** An unreadable text file opens as a one-page book that shows the error
    text with the footer "Page 1/1". *)
Example unreadable_text_shows_diagnostic_page :
  let a : Production.App := set_index 3 (startup Samples.shelf) in
  let a' := Production.open_book Samples.shelf a in
  current_book a'
  = Some (Production.TextBookReader Samples.d_txt 0
            ["Error loading book: No such file or directory"%string])
  /\ current_menu a' = Reading
  /\ last (Screen.presented (display a'))
     = Some (Screen.Canvas
               [Screen.Text 10 20 "Error loading book: No such file or directory" false 0;
                Screen.Text 10 455 "Page 1/1" false 0]).
Proof. cbv zeta. repeat split; reflexivity. Qed.

(** A bookmark on page 4 of the first book is taken up again when that
    book is opened: the cursor is 3.  Here the book has a single page, so
    the page cannot be drawn; the error is logged and the menu stays. *)
Example bookmark_resumes_stored_page :
  let marked : Firmware.App :=
    set_settings {| Settings.last_book := Some (path_str Samples.a_txt);
                    Settings.last_page := Some 3;
                    Settings.font_size := Some 16 |} (startup Samples.shelf) in
  let a' := Firmware.handle Firmware.Select Samples.shelf marked in
  option_map Firmware.current_page (current_book a') = Some 3
  /\ option_map Firmware.page_count (current_book a') = Some 1
  /\ current_menu a' = Main
  /\ logged a' = [(ERROR, "Error opening book: list index out of range"%string)].
Proof. cbv zeta. repeat split; reflexivity. Qed.

(** * Further properties of the programs *)

(** ** Encoder: what a frame keeps of the image *)

Section EncoderMore.
Import EInkDisplay.
Variables W H : nat.

Lemma pack_bit_ext (g1 g2 : nat -> nat -> Z) (x y : nat) (byte : Z) (bit : nat) :
  ((x + bit < W)%nat -> (g1 (x + bit)%nat y =? 0) = (g2 (x + bit)%nat y =? 0)) ->
  pack_bit W g1 x y byte bit = pack_bit W g2 x y byte bit.
Proof.
  intros Hg. unfold pack_bit.
  destruct (Nat.ltb_spec (x + bit) W); [|reflexivity]. now rewrite Hg.
Qed.

Lemma pack_fold_ext (g1 g2 : nat -> nat -> Z) (x y : nat) (bits : list nat) :
  (forall bit, In bit bits -> (x + bit < W)%nat ->
               (g1 (x + bit)%nat y =? 0) = (g2 (x + bit)%nat y =? 0)) ->
  forall acc, fold_left (pack_bit W g1 x y) bits acc
              = fold_left (pack_bit W g2 x y) bits acc.
Proof.
  induction bits as [|bit bits IH]; intros Hg acc; [reflexivity|].
  cbn [fold_left]. rewrite (pack_bit_ext g1 g2) by (apply Hg; now left).
  apply IH. intros b Hb. apply Hg. now right.
Qed.

Lemma encode_ext (g1 g2 : nat -> nat -> Z) :
  (forall x y, (x < W)%nat -> (y < H)%nat -> (g1 x y =? 0) = (g2 x y =? 0)) ->
  encode W H g1 = encode W H g2.
Proof.
  intros Hg. unfold encode. rewrite !flat_map_concat_map. f_equal.
  apply map_ext_in. intros y Hy. apply in_seq in Hy.
  unfold pack_row. apply map_ext_in. intros x _. unfold pack_byte.
  apply pack_fold_ext. intros bit _ Hx. apply Hg; lia.
Qed.

(** With no black pixel under it, a byte stays 0. *)
Lemma pack_fold_blank (g : nat -> nat -> Z) (x y : nat) (bits : list nat) :
  (forall bit, In bit bits -> (x + bit < W)%nat -> g (x + bit)%nat y <> 0) ->
  fold_left (pack_bit W g x y) bits 0 = 0.
Proof.
  induction bits as [|bit bits IH]; intros Hg; [reflexivity|].
  cbn [fold_left].
  replace (pack_bit W g x y 0 bit) with 0; [apply IH; intros b Hb; apply Hg; now right|].
  unfold pack_bit. destruct (Nat.ltb_spec (x + bit) W); [|reflexivity].
  destruct (Z.eqb_spec (g (x + bit)%nat y) 0) as [E|_]; [|reflexivity].
  exfalso. apply (Hg bit); [now left | assumption | exact E].
Qed.

Lemma flat_map_rows_const {A : Type} (f : nat -> list A) (a : A) (c : nat) :
  forall n s, (forall y, (s <= y < s + n)%nat -> f y = repeat a c) ->
    flat_map f (seq s n) = repeat a (n * c).
Proof.
  induction n as [|n IH]; intros s Hf; [reflexivity|].
  cbn [seq flat_map]. rewrite Hf by lia. rewrite IH by (intros y Hy; apply Hf; lia).
  rewrite <- repeat_app. f_equal.
Qed.
End EncoderMore.

(** X1: two images of the panel's size are encoded to the same frame
    exactly when they have the same black pixels.  The frame keeps the
    whole black-and-white picture and nothing else of the pixel values. *)
Theorem X1_encode_same_frame_iff (W H : nat) (g1 g2 : nat -> nat -> Z) :
  EInkDisplay.encode W H g1 = EInkDisplay.encode W H g2
  <-> forall x y, (x < W)%nat -> (y < H)%nat -> (g1 x y =? 0) = (g2 x y =? 0).
Proof.
  split.
  - intros E x y Hx Hy.
    assert (Hs : (x < 8 * EInkDisplay.stride W)%nat)
      by (pose proof (stride_covers W); lia).
    pose proof (frame_bit_inked W H g1 x y Hs Hy) as B1.
    pose proof (frame_bit_inked W H g2 x y Hs Hy) as B2.
    rewrite E, B2 in B1. unfold EInkDisplay.inked in B1.
    destruct (Nat.ltb_spec x W); [|lia]. cbn [andb] in B1. now symmetry.
  - apply encode_ext.
Qed.

(** X2: an image without a black pixel on the panel is sent as zero bytes
    only, ceil(W/8)*H of them: this is the frame [clear_screen] sends. *)
Theorem X2_encode_blank_is_zero (W H : nat) (g : nat -> nat -> Z) :
  (forall x y, (x < W)%nat -> (y < H)%nat -> g x y <> 0) ->
  EInkDisplay.encode W H g = repeat 0 (H * ((W + 7) / 8)).
Proof.
  intros Hg. unfold EInkDisplay.encode.
  apply flat_map_rows_const. intros y Hy. unfold EInkDisplay.pack_row.
  assert (Hrow : forall xs,
             map (fun x => EInkDisplay.pack_byte W g x y) xs = repeat 0 (length xs)).
  { induction xs as [|x xs IH]; [reflexivity|]. cbn [map length repeat]. f_equal.
    - unfold EInkDisplay.pack_byte. apply pack_fold_blank.
      intros bit _ Hx. apply Hg; lia.
    - exact IH. }
  rewrite Hrow. f_equal. apply length_range_step.
Qed.

Lemma X2_encode_blank_is_zero_witness :
  EInkDisplay.encode EInkDisplay.WIDTH EInkDisplay.HEIGHT EInkDisplay.white
  = repeat 0 (480 * 100).
Proof.
  apply (X2_encode_blank_is_zero EInkDisplay.WIDTH EInkDisplay.HEIGHT EInkDisplay.white).
  intros x y _ _. unfold EInkDisplay.white. lia.
Defined.

(** ** The bus protocol *)

Section BusFacts.
Import EInkDisplay.

Lemma replay_app (a b : list io) (dc0 cs0 : bool) :
  Bus.transfers (a ++ b) dc0 cs0
  = Bus.transfers a dc0 cs0
      ++ Bus.transfers b (fst (Bus.levels a dc0 cs0)) (snd (Bus.levels a dc0 cs0))
  /\ Bus.levels (a ++ b) dc0 cs0
     = Bus.levels b (fst (Bus.levels a dc0 cs0)) (snd (Bus.levels a dc0 cs0)).
Proof.
  revert dc0 cs0. induction a as [|[pin v|bytes|ms] a IH]; intros dc0 cs0;
    cbn [app Bus.transfers Bus.levels fst snd].
  - now split.
  - destruct (pin =? DC_PIN); [apply IH|]. destruct (pin =? CS_PIN); apply IH.
  - destruct (IH dc0 cs0) as [-> ->]. now split.
  - apply IH.
Qed.

Lemma replay_sleeps (d : nat) (dc0 cs0 : bool) :
  Bus.transfers (repeat (Sleep 10) d) dc0 cs0 = []
  /\ Bus.levels (repeat (Sleep 10) d) dc0 cs0 = (dc0, cs0).
Proof. induction d as [|d IH]; [now split | exact IH]. Qed.

(** A command goes out alone, with both lines low, and releases
    chip-select. *)
Lemma replay_write_command (c : Z) (h : hw) (dc0 cs0 : bool) :
  Bus.transfers (log (write_command c h)) dc0 cs0
  = Bus.transfers (log h) dc0 cs0 ++ [Bus.command c]
  /\ Bus.levels (log (write_command c h)) dc0 cs0 = (false, true).
Proof.
  unfold write_command, spi_write, emit. cbn [log].
  destruct (replay_app (log h ++ [GpioOut DC_PIN false])
              [GpioOut CS_PIN false; SpiWrite [c]; GpioOut CS_PIN true] dc0 cs0)
    as [-> ->].
  destruct (replay_app (log h) [GpioOut DC_PIN false] dc0 cs0) as [-> ->].
  cbn. rewrite app_nil_r. now split.
Qed.

Lemma replay_write_data (bytes : list Z) (h : hw) (dc0 cs0 : bool) :
  Bus.transfers (log (write_data bytes h)) dc0 cs0
  = Bus.transfers (log h) dc0 cs0 ++ [Bus.data bytes]
  /\ Bus.levels (log (write_data bytes h)) dc0 cs0 = (true, true).
Proof.
  unfold write_data, spi_write, emit. cbn [log].
  destruct (replay_app (log h ++ [GpioOut DC_PIN true])
              [GpioOut CS_PIN false; SpiWrite bytes; GpioOut CS_PIN true] dc0 cs0)
    as [-> ->].
  destruct (replay_app (log h) [GpioOut DC_PIN true] dc0 cs0) as [-> ->].
  cbn. rewrite app_nil_r. now split.
Qed.

Lemma replay_reset (h : hw) (dc0 cs0 : bool) :
  Bus.transfers (log (reset h)) dc0 cs0 = Bus.transfers (log h) dc0 cs0
  /\ Bus.levels (log (reset h)) dc0 cs0 = Bus.levels (log h) dc0 cs0.
Proof.
  unfold reset, emit. cbn [log].
  destruct (replay_app (log h)
              [GpioOut RST_PIN false; Sleep 200; GpioOut RST_PIN true; Sleep 200]
              dc0 cs0) as [-> ->].
  cbn. rewrite app_nil_r. split; [reflexivity | now destruct (Bus.levels (log h) dc0 cs0)].
Qed.

(** What a returned wait leaves: only sleeps were added. *)
Lemma wait_result (busy : nat -> bool) (fuel : nat) :
  forall h h', wait_until_idle busy fuel h = Some h' ->
    exists d, (d < fuel)%nat
              /\ busy (polls h + d)%nat = false
              /\ (forall k, (k < d)%nat -> busy (polls h + k)%nat = true)
              /\ h' = {| log := log h ++ repeat (Sleep 10) d;
                         polls := S (polls h + d)%nat |}.
Proof.
  induction fuel as [|fuel IH]; intros h h' Hw; cbn [wait_until_idle] in Hw;
    [discriminate|].
  destruct (busy (polls h)) eqn:Hb.
  - apply IH in Hw. destruct Hw as (d & Hd & Hidle & Hbusy & ->). cbn [polls log] in *.
    exists (S d). split; [lia|]. split; [|split].
    + rewrite <- Hidle. f_equal. lia.
    + intros [|k] Hk; [now rewrite Nat.add_0_r|].
      rewrite <- (Hbusy k) by lia. f_equal. lia.
    + f_equal; [|lia]. rewrite <- app_assoc. reflexivity.
  - injection Hw as <-. exists 0%nat. split; [lia|]. split; [|split].
    + now rewrite Nat.add_0_r.
    + intros k Hk. lia.
    + cbn [repeat]. now rewrite app_nil_r, Nat.add_0_r.
Qed.
End BusFacts.

(** X3: [wait_until_idle] returns exactly at the first read that finds the
    busy line low: it has then read the line once more than it slept, has
    slept 10 ms once for every high read, and has put nothing else on the
    log.  The result does not depend on how long the loop could have run. *)
Theorem X3_wait_until_idle_first_idle (busy : nat -> bool) (fuel : nat)
        (h h' : EInkDisplay.hw) :
  EInkDisplay.wait_until_idle busy fuel h = Some h'
  <-> exists d, (d < fuel)%nat
                /\ busy (EInkDisplay.polls h + d)%nat = false
                /\ (forall k, (k < d)%nat -> busy (EInkDisplay.polls h + k)%nat = true)
                /\ h' = {| EInkDisplay.log :=
                             EInkDisplay.log h ++ repeat (EInkDisplay.Sleep 10) d;
                           EInkDisplay.polls := S (EInkDisplay.polls h + d)%nat |}.
Proof.
  split.
  - apply wait_result.
  - intros (d & Hd & Hidle & Hbusy & ->). now apply wait_first_idle.
Qed.

(** X4: when the busy line first reads low at the [d]-th read after the
    refresh command, [display_image] returns, and what it put on the bus
    is: command 0x13, the encoded frame as data, command 0x12 - commands
    with the data/command line low, the frame with it high, each with
    chip-select low - and chip-select is released at the end. *)
Theorem X4_display_image_traffic (busy : nat -> bool) (fuel d : nat)
        (getpixel : nat -> nat -> Z) (h : EInkDisplay.hw) (dc0 cs0 : bool) :
  busy (EInkDisplay.polls h + d)%nat = false ->
  (forall k, (k < d)%nat -> busy (EInkDisplay.polls h + k)%nat = true) ->
  (d < fuel)%nat ->
  exists h',
    EInkDisplay.display_image busy fuel getpixel h = Some h'
    /\ EInkDisplay.polls h' = S (EInkDisplay.polls h + d)%nat
    /\ Bus.transfers (EInkDisplay.log h') dc0 cs0
       = Bus.transfers (EInkDisplay.log h) dc0 cs0
           ++ [Bus.command 0x13;
               Bus.data (EInkDisplay.encode EInkDisplay.WIDTH EInkDisplay.HEIGHT getpixel);
               Bus.command 0x12]
    /\ Bus.levels (EInkDisplay.log h') dc0 cs0 = (false, true).
Proof.
  intros Hidle Hbusy Hfuel. unfold EInkDisplay.display_image. cbv zeta.
  set (frame := EInkDisplay.encode _ _ _).
  set (h3 := EInkDisplay.write_command 0x12
               (EInkDisplay.write_data frame (EInkDisplay.write_command 0x13 h))).
  rewrite (wait_first_idle busy d h3 fuel); [|exact Hidle|exact Hbusy|exact Hfuel].
  eexists. split; [reflexivity|]. cbn [EInkDisplay.polls EInkDisplay.log].
  split; [reflexivity|].
  destruct (replay_app (EInkDisplay.log h3) (repeat (EInkDisplay.Sleep 10) d) dc0 cs0)
    as [-> ->].
  destruct (replay_sleeps d (fst (Bus.levels (EInkDisplay.log h3) dc0 cs0))
              (snd (Bus.levels (EInkDisplay.log h3) dc0 cs0))) as [-> ->].
  rewrite app_nil_r. subst h3.
  destruct (replay_write_command 0x12
              (EInkDisplay.write_data frame (EInkDisplay.write_command 0x13 h)) dc0 cs0)
    as [-> ->].
  destruct (replay_write_data frame (EInkDisplay.write_command 0x13 h) dc0 cs0)
    as [-> _].
  destruct (replay_write_command 0x13 h dc0 cs0) as [-> _].
  rewrite <- !app_assoc. now split.
Qed.

Lemma X4_display_image_traffic_witness :
  exists h',
    EInkDisplay.display_image (Samples.settles 3) 4 EInkDisplay.checker
      (EInkDisplay.Hw [] 0) = Some h'
    /\ EInkDisplay.polls h' = 4%nat
    /\ Bus.transfers (EInkDisplay.log h') true true
       = [] ++ [Bus.command 0x13;
                Bus.data (EInkDisplay.encode EInkDisplay.WIDTH EInkDisplay.HEIGHT
                            EInkDisplay.checker);
                Bus.command 0x12]
    /\ Bus.levels (EInkDisplay.log h') true true = (false, true).
Proof.
  apply (X4_display_image_traffic (Samples.settles 3) 4 3 EInkDisplay.checker
           (EInkDisplay.Hw [] 0) true true).
  - reflexivity.
  - intros k Hk. unfold Samples.settles. cbn [EInkDisplay.polls Nat.add].
    apply Nat.ltb_lt. exact Hk.
  - lia.
Defined.

(** X5: when the busy line first reads low at the [d1]-th read after the
    reset pulse and then at the [d2]-th read after power-on, [init_display]
    returns after [d1 + d2 + 2] reads, and the bus has carried exactly the
    initialisation sequence: power setting, panel setting, booster soft
    start, each a command followed by its parameters as data, then the
    power-on command. *)
Theorem X5_init_display_traffic (busy : nat -> bool) (fuel d1 d2 : nat)
        (h : EInkDisplay.hw) (dc0 cs0 : bool) :
  busy (EInkDisplay.polls h + d1)%nat = false ->
  (forall k, (k < d1)%nat -> busy (EInkDisplay.polls h + k)%nat = true) ->
  busy (S (EInkDisplay.polls h + d1) + d2)%nat = false ->
  (forall k, (k < d2)%nat -> busy (S (EInkDisplay.polls h + d1) + k)%nat = true) ->
  (d1 < fuel)%nat -> (d2 < fuel)%nat ->
  exists h',
    EInkDisplay.init_display busy fuel h = Some h'
    /\ EInkDisplay.polls h' = (EInkDisplay.polls h + d1 + d2 + 2)%nat
    /\ Bus.transfers (EInkDisplay.log h') dc0 cs0
       = Bus.transfers (EInkDisplay.log h) dc0 cs0
           ++ [Bus.command 0x01; Bus.data [0x37; 0x00];
               Bus.command 0x00; Bus.data [0xCF; 0x08];
               Bus.command 0x06; Bus.data [0xc7; 0xcc; 0x28];
               Bus.command 0x04]
    /\ Bus.levels (EInkDisplay.log h') dc0 cs0 = (false, true).
Proof.
  intros Hi1 Hb1 Hi2 Hb2 Hf1 Hf2. unfold EInkDisplay.init_display.
  rewrite (wait_first_idle busy d1 (EInkDisplay.reset h) fuel);
    [|exact Hi1|exact Hb1|exact Hf1].
  cbv zeta.
  set (h1 := {| EInkDisplay.log := _; EInkDisplay.polls := _ |}).
  set (h2 := EInkDisplay.write_command 1 h1).
  set (h3 := EInkDisplay.write_data [55; 0] h2).
  set (h4 := EInkDisplay.write_command 0 h3).
  set (h5 := EInkDisplay.write_data [207; 8] h4).
  set (h6 := EInkDisplay.write_command 6 h5).
  set (h7 := EInkDisplay.write_data [199; 204; 40] h6).
  set (h8 := EInkDisplay.write_command 4 h7).
  rewrite (wait_first_idle busy d2 h8 fuel); [|exact Hi2|exact Hb2|exact Hf2].
  eexists. split; [reflexivity|]. cbn [EInkDisplay.polls EInkDisplay.log].
  split; [cbn; lia|].
  destruct (replay_app (EInkDisplay.log h8) (repeat (EInkDisplay.Sleep 10) d2) dc0 cs0)
    as [-> ->].
  destruct (replay_sleeps d2 (fst (Bus.levels (EInkDisplay.log h8) dc0 cs0))
              (snd (Bus.levels (EInkDisplay.log h8) dc0 cs0))) as [-> ->].
  rewrite app_nil_r. subst h8.
  destruct (replay_write_command 4 h7 dc0 cs0) as [-> ->]. subst h7.
  destruct (replay_write_data [199; 204; 40] h6 dc0 cs0) as [-> _]. subst h6.
  destruct (replay_write_command 6 h5 dc0 cs0) as [-> _]. subst h5.
  destruct (replay_write_data [207; 8] h4 dc0 cs0) as [-> _]. subst h4.
  destruct (replay_write_command 0 h3 dc0 cs0) as [-> _]. subst h3.
  destruct (replay_write_data [55; 0] h2 dc0 cs0) as [-> _]. subst h2.
  destruct (replay_write_command 1 h1 dc0 cs0) as [-> _]. subst h1.
  cbn [EInkDisplay.log].
  destruct (replay_app (EInkDisplay.log (EInkDisplay.reset h))
              (repeat (EInkDisplay.Sleep 10) d1) dc0 cs0) as [-> _].
  destruct (replay_sleeps d1
              (fst (Bus.levels (EInkDisplay.log (EInkDisplay.reset h)) dc0 cs0))
              (snd (Bus.levels (EInkDisplay.log (EInkDisplay.reset h)) dc0 cs0)))
    as [-> _].
  destruct (replay_reset h dc0 cs0) as [-> _].
  rewrite app_nil_r, <- !app_assoc. now split.
Qed.

Lemma X5_init_display_traffic_witness :
  exists h',
    EInkDisplay.init_display (fun n => Nat.even n) 2 (EInkDisplay.Hw [] 0) = Some h'
    /\ EInkDisplay.polls h' = 4%nat
    /\ Bus.transfers (EInkDisplay.log h') true true
       = [] ++ [Bus.command 0x01; Bus.data [0x37; 0x00];
                Bus.command 0x00; Bus.data [0xCF; 0x08];
                Bus.command 0x06; Bus.data [0xc7; 0xcc; 0x28];
                Bus.command 0x04]
    /\ Bus.levels (EInkDisplay.log h') true true = (false, true).
Proof.
  apply (X5_init_display_traffic (fun n => Nat.even n) 2 1 1 (EInkDisplay.Hw [] 0)
           true true).
  - reflexivity.
  - intros [|k] Hk; [reflexivity | lia].
  - reflexivity.
  - intros [|k] Hk; [reflexivity | lia].
  - lia.
  - lia.
Defined.

(** ** The input router *)

Section RouterFacts.
Import InputHandler.
Context {handler : Type}.
Implicit Types (s : InputHandler.t handler).

Lemma handle_input_handlers s now pin :
  event_handlers (fst (handle_input now pin s)) = event_handlers s.
Proof.
  unfold handle_input. destruct (last_press_time s !! pin) as [last|]; [|reflexivity].
  now destruct (now - last <? debounce_delay).
Qed.

Lemma handle_input_other s now pin q :
  pin <> q ->
  last_press_time (fst (handle_input now pin s)) !! q = last_press_time s !! q.
Proof.
  intros Hne. unfold handle_input.
  destruct (last_press_time s !! pin) as [last|];
    [destruct (now - last <? debounce_delay); [reflexivity|]|];
    cbn [fst last_press_time]; now rewrite lookup_insert_ne.
Qed.

(** The three ways an edge can go. *)
Lemma handle_input_cases s now pin :
  (exists last, last_press_time s !! pin = Some last
                /\ now - last < debounce_delay
                /\ handle_input now pin s = (s, []))
  \/ ((forall last, last_press_time s !! pin = Some last -> debounce_delay <= now - last)
      /\ last_press_time (fst (handle_input now pin s)) !! pin = Some now
      /\ snd (handle_input now pin s) = dispatch pin s).
Proof.
  unfold handle_input. destruct (last_press_time s !! pin) as [last|] eqn:Hl.
  - destruct (Z.ltb_spec (now - last) debounce_delay).
    + left. exists last. now repeat split.
    + right. cbn [fst snd last_press_time]. rewrite lookup_insert_eq.
      repeat split. now intros ? [= <-].
  - right. cbn [fst snd last_press_time]. rewrite lookup_insert_eq.
    repeat split. discriminate.
Qed.

Lemma spaced_later (t0 t1 : Z) (times : list Z) :
  debounce_delay <= t1 - t0 -> Router.spaced (t1 :: times) -> Router.spaced (t0 :: times).
Proof.
  destruct times as [|b rest]; [easy|]. cbn [Router.spaced].
  unfold debounce_delay. intros H01 [H1b Hrest]. split; [lia | exact Hrest].
Qed.

Lemma call_times_spaced (pin : Z) (edges : list (Z * Z)) :
  forall s,
    Router.spaced (Router.call_times pin edges s)
    /\ forall t0, last_press_time s !! pin = Some t0 ->
                  Router.spaced (t0 :: Router.call_times pin edges s).
Proof.
  induction edges as [|[now p] rest IH]; intros s; [now split|].
  cbn [Router.call_times].
  destruct (handle_input now p s) as [s' calls] eqn:Hh.
  assert (Hs' : s' = fst (handle_input now p s)) by now rewrite Hh.
  assert (Hc : calls = snd (handle_input now p s)) by now rewrite Hh.
  destruct (IH s') as [IH1 IH2].
  destruct (decide (p = pin)) as [->|Hne].
  - destruct (handle_input_cases s now pin) as [(last & Hl & Hnear & Hsame)|(Hfar & Hrec & _)].
    + rewrite Hsame in Hs', Hc. cbn in Hs', Hc. subst s' calls. split; [exact IH1|].
      exact IH2.
    + rewrite <- Hs' in Hrec. specialize (IH2 now Hrec).
      destruct calls as [|c calls].
      * split; [exact IH1|]. intros t0 Ht0. eapply spaced_later; [|exact IH2].
        now apply Hfar.
      * split; [exact IH2|]. intros t0 Ht0. cbn [Router.spaced].
        split; [now apply Hfar | exact IH2].
  - assert (Hkeep : last_press_time s' !! pin = last_press_time s !! pin)
      by (subst s'; now apply handle_input_other).
    assert (Hgoal : Router.spaced (Router.call_times pin rest s')
                    /\ forall t0, last_press_time s !! pin = Some t0 ->
                                  Router.spaced (t0 :: Router.call_times pin rest s')).
    { split; [exact IH1|]. intros t0 Ht0. apply IH2. now rewrite Hkeep. }
    destruct calls; exact Hgoal.
Qed.
End RouterFacts.

(** X6: the pin table is one-to-one: it names an event for exactly the
    nine input lines, and no two lines share an event. *)
Theorem X6_event_map_one_to_one (p q : Z) (event : string) :
  (is_Some (@InputHandler.event_map p) <-> In p InputHandler.pins)
  /\ (InputHandler.event_map p = Some event ->
      InputHandler.event_map q = Some event -> p = q).
Proof.
  split.
  - unfold InputHandler.event_map, InputHandler.pins. split.
    + intros [e He]. cbn [In].
      repeat (case_decide; [subst; tauto|]). discriminate.
    + cbn [In]. intros H.
      repeat (destruct H as [<-|H]; [now eexists|]). contradiction.
  - unfold InputHandler.event_map.
    repeat (case_decide; [subst p; intros [= <-];
                          repeat (case_decide; [now subst|]); discriminate|]).
    discriminate.
Qed.

(** X7: with the handlers bound at start-up, every one of the nine lines
    calls exactly one action, and different lines call different
    actions. *)
Theorem X7_every_line_has_its_action (p q : Z) :
  In p InputHandler.pins -> In q InputHandler.pins ->
  (exists act, InputHandler.dispatch p Firmware.setup_input_handlers = [act])
  /\ (InputHandler.dispatch p Firmware.setup_input_handlers
      = InputHandler.dispatch q Firmware.setup_input_handlers -> p = q).
Proof.
  unfold InputHandler.pins. cbn [In]. intros Hp Hq.
  repeat (destruct Hp as [<-|Hp]); try contradiction;
    (split; [eexists; vm_compute; reflexivity|]);
    repeat (destruct Hq as [<-|Hq]); try contradiction;
    vm_compute; intros E; first [reflexivity | discriminate E].
Qed.

Lemma X7_every_line_has_its_action_witness :
  (exists act,
      InputHandler.dispatch InputHandler.BUTTON_1 Firmware.setup_input_handlers = [act])
  /\ (InputHandler.dispatch InputHandler.BUTTON_1 Firmware.setup_input_handlers
      = InputHandler.dispatch InputHandler.BUTTON_2 Firmware.setup_input_handlers ->
      InputHandler.BUTTON_1 = InputHandler.BUTTON_2).
Proof.
  apply (X7_every_line_has_its_action InputHandler.BUTTON_1 InputHandler.BUTTON_2);
    unfold InputHandler.pins; cbn [In]; tauto.
Defined.

(** X8: input lines do not disturb one another: an edge on one line leaves
    the debounce time of every other line alone, so what an edge on line
    [p] calls is the same whether or not an edge on another line [q] was
    handled just before. *)
Theorem X8_lines_are_independent {handler : Type} (s : InputHandler.t handler)
        (p q t t' : Z) :
  p <> q ->
  snd (InputHandler.handle_input t p (fst (InputHandler.handle_input t' q s)))
  = snd (InputHandler.handle_input t p s)
  /\ InputHandler.last_press_time (fst (InputHandler.handle_input t' q s)) !! p
     = InputHandler.last_press_time s !! p.
Proof.
  intros Hne.
  assert (Hk : InputHandler.last_press_time (fst (InputHandler.handle_input t' q s)) !! p
               = InputHandler.last_press_time s !! p)
    by (apply handle_input_other; congruence).
  split; [|exact Hk].
  pose proof (handle_input_handlers s t' q) as Hh.
  destruct (fst (InputHandler.handle_input t' q s)) as [lp eh]. cbn in Hk, Hh.
  unfold InputHandler.handle_input, InputHandler.dispatch. cbn [InputHandler.last_press_time
    InputHandler.event_handlers]. rewrite Hk, Hh.
  destruct (InputHandler.last_press_time s !! p) as [last|]; [|reflexivity].
  now destruct (t - last <? InputHandler.debounce_delay).
Qed.

Lemma X8_lines_are_independent_witness :
  snd (InputHandler.handle_input 50 InputHandler.JOYSTICK_UP
         (fst (InputHandler.handle_input 0 InputHandler.JOYSTICK_DOWN
                 Firmware.setup_input_handlers)))
  = snd (InputHandler.handle_input 50 InputHandler.JOYSTICK_UP
           Firmware.setup_input_handlers)
  /\ InputHandler.last_press_time
       (fst (InputHandler.handle_input 0 InputHandler.JOYSTICK_DOWN
               Firmware.setup_input_handlers)) !! InputHandler.JOYSTICK_UP
     = InputHandler.last_press_time Firmware.setup_input_handlers
         !! InputHandler.JOYSTICK_UP.
Proof.
  apply (X8_lines_are_independent Firmware.setup_input_handlers
           InputHandler.JOYSTICK_UP InputHandler.JOYSTICK_DOWN 50 0).
  discriminate.
Defined.

(** X9: however the edges arrive, on whatever lines and from whatever
    router state, two consecutive handler calls for the same line are at
    least 200 ms apart. *)
Theorem X9_calls_are_spaced {handler : Type} (s : InputHandler.t handler)
        (pin : Z) (edges : list (Z * Z)) :
  Router.spaced (Router.call_times pin edges s).
Proof. apply call_times_spaced. Qed.

Example call_times_bouncing_button :
  Router.call_times InputHandler.BUTTON_1
    [(0, InputHandler.BUTTON_1); (40, InputHandler.BUTTON_1);
     (90, InputHandler.JOYSTICK_UP); (199, InputHandler.BUTTON_1);
     (200, InputHandler.BUTTON_1); (399, InputHandler.BUTTON_1);
     (400, InputHandler.BUTTON_1)]
    Firmware.setup_input_handlers
  = [0; 200; 400].
Proof. vm_compute. reflexivity. Qed.

(** ** The book listing *)

Section FileManagerFacts.
Import FileManager.

Lemma insert_sorted_perm (p : Path) (l : list Path) :
  Permutation (insert_sorted p l) (p :: l).
Proof.
  induction l as [|q l IH]; cbn [insert_sorted]; [reflexivity|].
  destruct (String.leb (sort_key p) (sort_key q)); [reflexivity|].
  rewrite IH. apply perm_swap.
Qed.

Lemma sort_files_perm (l : list Path) : Permutation (sort_files l) l.
Proof.
  induction l as [|p l IH]; cbn [sort_files fold_right]; [reflexivity|].
  fold (sort_files l). rewrite insert_sorted_perm. now constructor.
Qed.

Lemma insert_sorted_hd (p q : Path) (l : list Path) :
  by_name q p -> HdRel by_name q l -> HdRel by_name q (insert_sorted p l).
Proof.
  intros Hqp Hl. destruct l as [|x l]; cbn [insert_sorted]; [now constructor|].
  destruct (String.leb (sort_key p) (sort_key x)); [now constructor|].
  inversion Hl; subst. now constructor.
Qed.

Lemma insert_sorted_sorted (p : Path) (l : list Path) :
  Sorted by_name l -> Sorted by_name (insert_sorted p l).
Proof.
  induction 1 as [|q l Hl IH Hq]; cbn [insert_sorted]; [repeat constructor|].
  destruct (String.leb (sort_key p) (sort_key q)) eqn:Hpq.
  - constructor; [now constructor | now constructor].
  - constructor; [exact IH|]. apply insert_sorted_hd; [|exact Hq].
    destruct (String.leb_total (sort_key p) (sort_key q)) as [H|H]; [congruence | exact H].
Qed.

Lemma sort_files_sorted (l : list Path) : Sorted by_name (sort_files l).
Proof.
  induction l as [|p l IH]; cbn [sort_files fold_right]; [constructor|].
  now apply insert_sorted_sorted.
Qed.
End FileManagerFacts.

(** X10: the listing [refresh_files] builds holds exactly the directory
    entries that are regular files with a supported extension (compared
    in lower case), each as often as the directory has it, in
    case-insensitive order of their names. *)
Theorem X10_refresh_files_sorted_listing (w : World) :
  Permutation (FileManager.refresh_files w)
    (map fst (List.filter (fun e => snd e && FileManager.supported (fst e)) (iterdir w)))
  /\ Sorted by_name (FileManager.refresh_files w)
  /\ (forall p, In p (FileManager.refresh_files w)
                <-> In (p, true) (iterdir w)
                    /\ In (Py.lower (path_suffix p)) [".txt"; ".pdf"; ".epub"]%string).
Proof.
  unfold FileManager.refresh_files. split; [apply sort_files_perm|].
  split; [apply sort_files_sorted|]. intros p.
  rewrite (Permutation_in' (eq_refl p) (sort_files_perm _)).
  rewrite in_map_iff. split.
  - intros ([q b] & <- & Hin). apply filter_In in Hin as [Hin Hok].
    cbn [fst snd] in *. apply andb_true_iff in Hok as [-> Hsup]. split; [exact Hin|].
    unfold FileManager.supported, FileManager.supported_formats in Hsup.
    apply existsb_exists in Hsup as (x & Hx & Heq). apply String.eqb_eq in Heq.
    now subst x.
  - intros [Hin Hext]. exists (p, true). split; [reflexivity|].
    apply filter_In. split; [exact Hin|]. cbn [fst snd andb].
    unfold FileManager.supported. apply existsb_exists.
    exists (Py.lower (path_suffix p)). split; [exact Hext | apply String.eqb_refl].
Qed.

(** X11: [get_file_path] answers for exactly the indices [0 .. len-1],
    with the entry at that place; a negative index, unlike Python's own
    indexing, gives nothing.  The name shown in menu row [i] is the name of
    the path returned for [i]. *)
Theorem X11_get_file_path_bounds (files : list Path) (i : Z) (p : Path) :
  (FileManager.get_file_path files i = Some p
   <-> 0 <= i < Z.of_nat (length files) /\ nth_error files (Z.to_nat i) = Some p)
  /\ (FileManager.get_file_path files i = None
      <-> i < 0 \/ Z.of_nat (length files) <= i)
  /\ (FileManager.get_file_path files i = Some p ->
      nth_error (FileManager.get_file_list files) (Z.to_nat i) = Some (path_name p)).
Proof.
  unfold FileManager.get_file_path, FileManager.get_file_list.
  destruct (Z.leb_spec 0 i); destruct (Z.ltb_spec i (Z.of_nat (length files)));
    cbn [andb].
  - split; [|split].
    + split; [intros E; split; [lia | exact E] | now intros [_ E]].
    + split; [|lia]. intros E. apply nth_error_None in E. lia.
    + intros E. now rewrite nth_error_map, E.
  - split; [|split]; [split; [discriminate | lia] | split; [lia | reflexivity] | discriminate].
  - split; [|split]; [split; [discriminate | lia] | split; [lia | reflexivity] | discriminate].
  - split; [|split]; [split; [discriminate | lia] | split; [lia | reflexivity] | discriminate].
Qed.

(** ** Pages *)

(** X12: the plain-text paginator loses nothing.  The lines of its pages,
    read in page order, are the source lines each cut into pieces; the
    pieces of a line put together are the line again; there is at least
    one piece, also for a blank line; and no piece is longer than 80
    characters. *)
Theorem X12_text_pagination_is_lossless (content : string) :
  TextPages.page_lines (TextPages.paginate content)
  = flat_map TextPages.pieces (Py.split_nl content)
  /\ Forall (fun line =>
               Py.glue (TextPages.pieces line) = line
               /\ TextPages.pieces line <> []
               /\ Forall (fun p => (String.length p <= 80)%nat) (TextPages.pieces line))
            (Py.split_nl content).
Proof.
  split; [apply paginate_lines|].
  apply List.Forall_forall. intros line _.
  destruct (pieces_spec line) as (Hg & Hs & Hne & _). now repeat split.
Qed.

(** X13: the flow-text paginator keeps every character of every line, in
    order, in slices of at most 80 characters, and nothing of a blank
    line: the lines of its pages are the slices of the source lines, and
    a line has no slice exactly when it is empty. *)
Theorem X13_flow_pagination_lines (content : string) :
  TextPages.page_lines (FlowPages.paginate content)
  = flat_map FlowPages.wrapped (Py.split_nl content)
  /\ Forall (fun line =>
               Py.glue (FlowPages.wrapped line) = line
               /\ (FlowPages.wrapped line = [] <-> line = EmptyString)
               /\ Forall (fun p => (String.length p <= 80)%nat) (FlowPages.wrapped line))
            (Py.split_nl content).
Proof.
  split; [apply flow_paginate_lines|].
  apply List.Forall_forall. intros line _.
  destruct (wrapped_spec line) as (Hg & He & _). split; [exact Hg|]. split.
  - split; [|exact He]. intros Hnil. now rewrite Hnil in Hg.
  - unfold FlowPages.wrapped. apply List.Forall_map, List.Forall_forall. intros i _.
    unfold Py.slice. rewrite length_take. lia.
Qed.

Section PageSizes.

Lemma line_count_join (ls : list string) :
  ls <> [] -> lines_ok ls -> line_count (Py.join_nl ls) = length ls.
Proof. intros Hne Hok. unfold line_count. now rewrite split_join. Qed.

Lemma add_wline_inv (st : list string * list string) (w : string) :
  flow_inv st -> Py.no_newline w = true -> flow_inv (FlowPages.add_wline st w).
Proof.
  destruct st as [pages current]. unfold flow_inv. cbn [fst snd].
  intros (Hp & Hlen & Hok) Hw. unfold FlowPages.add_wline.
  assert (Hall : lines_ok (current ++ [w]))
    by (apply Forall_app; split; [exact Hok | now repeat constructor]).
  destruct (Nat.eqb_spec (length (current ++ [w])) 20) as [E|E]; cbn [fst snd].
  - split; [|split; [cbn; lia | constructor]].
    apply Forall_app. split; [exact Hp|]. repeat constructor.
    rewrite line_count_join; [exact E | now destruct current | exact Hall].
  - split; [exact Hp|]. split; [|exact Hall].
    rewrite length_app in *. cbn [length] in *. lia.
Qed.

Lemma fold_add_wline_inv (ws : list string) :
  forall st, flow_inv st -> lines_ok ws -> flow_inv (fold_left FlowPages.add_wline ws st).
Proof.
  induction ws as [|w ws IH]; intros st Hst Hws; [exact Hst|].
  inversion Hws; subst. cbn [fold_left]. apply IH; [now apply add_wline_inv | assumption].
Qed.

Lemma fold_flow_inv (lines : list string) :
  forall st, flow_inv st -> lines_ok lines ->
             flow_inv (fold_left FlowPages.add_line lines st).
Proof.
  induction lines as [|l lines IH]; intros st Hst Hls; [exact Hst|].
  inversion Hls; subst. cbn [fold_left]. apply IH; [|assumption].
  unfold FlowPages.add_line. apply fold_add_wline_inv; [exact Hst|].
  now apply wrapped_spec.
Qed.

Lemma pieces_short (line : string) :
  (String.length line <= 80)%nat -> TextPages.pieces line = [line].
Proof.
  intros Hlen. unfold TextPages.pieces.
  destruct line as [|c line]; [reflexivity|].
  cbn [String.length TextPages.wrap_while] in *.
  unfold TextPages.chars_per_line.
  destruct (Nat.ltb_spec 80 (S (String.length line))); [lia | reflexivity].
Qed.

Lemma add_line_inv (exact : bool) (st : list string * list string) (line : string) :
  text_inv exact st -> Py.no_newline line = true ->
  (exact = true -> (String.length line <= 80)%nat) ->
  text_inv exact (TextPages.add_line st line).
Proof.
  destruct st as [pages current]. unfold text_inv. cbn [fst snd].
  intros (Hp & Hlen & Hok) Hline Hshort. rewrite add_line_pieces.
  destruct (pieces_spec line) as (_ & _ & Hne & Hnl). specialize (Hnl Hline).
  assert (Hall : lines_ok (current ++ TextPages.pieces line))
    by (apply Forall_app; now split).
  unfold TextPages.lines_per_page.
  destruct (Nat.leb_spec 20 (length (current ++ TextPages.pieces line))) as [E|E];
    cbn [fst snd].
  - split; [|split; [cbn; lia | constructor]].
    apply Forall_app. split; [exact Hp|]. repeat constructor.
    rewrite line_count_join; [| now destruct current, (TextPages.pieces line) | exact Hall].
    destruct exact; [|exact E].
    rewrite (pieces_short line (Hshort eq_refl)) in *.
    rewrite length_app in *. cbn [length] in *. lia.
  - split; [exact Hp|]. split; [exact E | exact Hall].
Qed.

Lemma fold_add_line_inv (exact : bool) (lines : list string) :
  forall st, text_inv exact st -> lines_ok lines ->
    (exact = true -> Forall (fun l => (String.length l <= 80)%nat) lines) ->
    text_inv exact (fold_left TextPages.add_line lines st).
Proof.
  induction lines as [|l lines IH]; intros st Hst Hls Hshort; [exact Hst|].
  inversion Hls; subst. cbn [fold_left]. apply IH; [|assumption|].
  - apply add_line_inv; [exact Hst | assumption|].
    intros E. specialize (Hshort E). now inversion Hshort.
  - intros E. specialize (Hshort E). now inversion Hshort.
Qed.

(** Closing the open page. *)
Lemma flush_split (P : string -> Prop) (st : list string * list string) :
  Forall P (fst st) -> (length (snd st) < 20)%nat -> lines_ok (snd st) ->
  exists full rest,
    TextPages.flush st = full ++ rest /\ Forall P full
    /\ (rest = [] \/ exists p, rest = [p] /\ (1 <= line_count p < 20)%nat).
Proof.
  destruct st as [pages [|l current]]; cbn [fst snd TextPages.flush]; intros Hp Hlen Hok.
  - exists pages, []. rewrite app_nil_r. now repeat split; [|left].
  - exists pages, [Py.join_nl (l :: current)]. repeat split; [exact Hp|]. right.
    eexists. split; [reflexivity|]. rewrite line_count_join; [cbn [length] in *; lia | easy | exact Hok].
Qed.
End PageSizes.

(** X14: the flow-text paginator fills pages of exactly 20 lines; only a
    last page may be shorter, and it is never empty. *)
Theorem X14_flow_pages_hold_20_lines (content : string) :
  exists full rest,
    FlowPages.paginate content = full ++ rest
    /\ Forall (fun p => line_count p = 20%nat) full
    /\ (rest = [] \/ exists p, rest = [p] /\ (1 <= line_count p < 20)%nat).
Proof.
  unfold FlowPages.paginate.
  destruct (fold_flow_inv (Py.split_nl content) ([], [])) as (Hp & Hlen & Hok).
  { repeat split; [constructor | cbn; lia | constructor]. }
  { apply split_nl_lines. }
  now apply flush_split.
Qed.

(** X15: the plain-text paginator closes a page only after a whole source
    line, so every page but a last, shorter one holds at least 20 lines -
    more when a long line wraps across the boundary - and exactly 20 when
    no source line is longer than 80 characters. *)
Theorem X15_text_pages_hold_20_lines_or_more (content : string) :
  exists full rest,
    TextPages.paginate content = full ++ rest
    /\ Forall (fun p => (20 <= line_count p)%nat) full
    /\ (rest = [] \/ exists p, rest = [p] /\ (1 <= line_count p < 20)%nat)
    /\ (Forall (fun l => (String.length l <= 80)%nat) (Py.split_nl content) ->
        Forall (fun p => line_count p = 20%nat) full).
Proof.
  unfold TextPages.paginate.
  pose proof (fold_add_line_inv false (Py.split_nl content) ([], [])) as Hinv.
  pose proof (fold_add_line_inv true (Py.split_nl content) ([], [])) as Hex.
  destruct (fold_left TextPages.add_line (Py.split_nl content) ([], []))
    as [pages current].
  destruct Hinv as (Hp & Hlen & Hok).
  { repeat split; [constructor | cbn; lia | constructor]. }
  { apply split_nl_lines. }
  { discriminate. }
  assert (Hexact : Forall (fun l => (String.length l <= 80)%nat) (Py.split_nl content) ->
                   Forall (fun p => line_count p = 20%nat) pages).
  { intros Hshort. apply Hex.
    - repeat split; [constructor | cbn; lia | constructor].
    - apply split_nl_lines.
    - intros _. exact Hshort. }
  cbn [fst snd] in Hp, Hlen, Hok.
  destruct current as [|l current]; cbn [TextPages.flush].
  - exists pages, []. rewrite app_nil_r. repeat split; [exact Hp | now left | exact Hexact].
  - exists pages, [Py.join_nl (l :: current)].
    repeat split; [exact Hp | | exact Hexact].
    right. eexists. split; [reflexivity|].
    rewrite line_count_join; [cbn [length] in *; lia | easy | exact Hok].
Qed.

Lemma X15_text_pages_hold_20_lines_or_more_witness :
  exists full rest,
    TextPages.paginate ("alpha" ++ Py.nl ++ "beta")%string = full ++ rest
    /\ Forall (fun p => line_count p = 20%nat) full.
Proof.
  destruct (X15_text_pages_hold_20_lines_or_more ("alpha" ++ Py.nl ++ "beta")%string)
    as (full & rest & E & _ & _ & Hexact).
  exists full, rest. split; [exact E|]. apply Hexact.
  vm_compute. repeat constructor.
Defined.

(** X16: the flow-text paginator returns no page at all exactly when every
    line of the text is empty; in particular for the empty text. *)
Theorem X16_flow_no_page_iff_blank (content : string) :
  FlowPages.paginate content = []
  <-> Forall (fun line => line = EmptyString) (Py.split_nl content).
Proof.
  pose proof (flow_paginate_lines content) as Hl. split.
  - intros Hnil. rewrite Hnil in Hl. cbn in Hl.
    apply List.Forall_forall. intros line Hin.
    destruct (wrapped_spec line) as (Hg & _ & _).
    assert (Hw : FlowPages.wrapped line = []).
    { destruct (FlowPages.wrapped line) as [|x xs] eqn:E; [reflexivity|].
      exfalso. apply in_split in Hin as (l1 & l2 & Hs). rewrite Hs in Hl.
      rewrite flat_map_app in Hl. cbn [flat_map] in Hl. rewrite E in Hl.
      symmetry in Hl. apply app_eq_nil in Hl as [_ Hl]. discriminate. }
    now rewrite Hw in Hg.
  - intros Hblank. clear Hl.
    assert (Hflat : flat_map FlowPages.wrapped (Py.split_nl content) = []).
    { induction Hblank as [|line ls Hline _ IH]; [reflexivity|].
      cbn [flat_map]. rewrite IH, Hline. reflexivity. }
    pose proof (flow_paginate_lines content) as Hl. rewrite Hflat in Hl.
    destruct (FlowPages.paginate content) as [|page pages]; [reflexivity|].
    unfold TextPages.page_lines in Hl. cbn [flat_map] in Hl.
    destruct (split_nl_cons page) as (h & t & Hs). rewrite Hs in Hl. discriminate.
Qed.

(** ** What a page looks like *)

Section PageFacts.

Lemma texts_app (a b : list Screen.op) :
  Canvas.texts (a ++ b) = Canvas.texts a ++ Canvas.texts b.
Proof. unfold Canvas.texts. apply flat_map_app. Qed.

(** The firmware's line loop stops at the 22nd line. *)
Lemma firmware_draw_lines (lines : list string) :
  forall (i : nat) (d : Screen.t),
    Canvas.texts (Screen.buffer (Firmware.draw_lines lines (20 + 20 * Z.of_nat i) d))
    = Canvas.texts (Screen.buffer d) ++ firstn (22 - i) lines
    /\ Screen.presented (Firmware.draw_lines lines (20 + 20 * Z.of_nat i) d)
       = Screen.presented d.
Proof.
  induction lines as [|line lines IH]; intros i d; cbn [Firmware.draw_lines].
  - rewrite firstn_nil, app_nil_r. now split.
  - change (Screen.HEIGHT - 30) with 450.
    destruct (Z.gtb_spec (20 + 20 * Z.of_nat i) 450) as [Hy|Hy].
    + replace (22 - i)%nat with 0%nat by lia. cbn [firstn]. rewrite app_nil_r. now split.
    + replace (20 + 20 * Z.of_nat i + 20) with (20 + 20 * Z.of_nat (S i)) by lia.
      destruct (IH (S i) (Screen.draw_text line 10 (20 + 20 * Z.of_nat i) d)) as [-> ->].
      cbn [Screen.draw_text Screen.draw Screen.buffer Screen.presented].
      rewrite texts_app. cbn [Canvas.texts flat_map app].
      replace (22 - i)%nat with (S (22 - S i)) by lia. cbn [firstn].
      rewrite <- app_assoc. now split.
Qed.

(** The production programs' loop draws every line. *)
Lemma production_draw_lines (lines : list string) :
  forall (y : Z) (d : Screen.t),
    Canvas.texts
      (Screen.buffer
         (snd (fold_left (fun '(y, d) line => (y + 20, Screen.draw_text line 10 y d))
                         lines (y, d))))
    = Canvas.texts (Screen.buffer d) ++ lines
    /\ Screen.presented
         (snd (fold_left (fun '(y, d) line => (y + 20, Screen.draw_text line 10 y d))
                         lines (y, d)))
       = Screen.presented d.
Proof.
  induction lines as [|line lines IH]; intros y d; cbn [fold_left snd].
  - rewrite app_nil_r. now split.
  - destruct (IH (y + 20) (Screen.draw_text line 10 y d)) as [-> ->].
    cbn [Screen.draw_text Screen.draw Screen.buffer Screen.presented].
    rewrite texts_app. cbn [Canvas.texts flat_map app]. rewrite <- app_assoc. now split.
Qed.

Lemma index_nth {A : Type} (l : list A) (i : Z) :
  0 <= i < Z.of_nat (length l) ->
  exists a, nth_error l (Z.to_nat i) = Some a /\ Py.index l i = Py.Ok a.
Proof.
  intros Hi. unfold Py.index.
  destruct (Z.ltb_spec i 0); [lia|].
  destruct (Z.leb_spec 0 i); [|lia].
  destruct (Z.ltb_spec i (Z.of_nat (length l))); [|lia]. cbn [andb].
  destruct (nth_error l (Z.to_nat i)) as [a|] eqn:Hn; [now exists a|].
  apply nth_error_None in Hn. lia.
Qed.

(** A page in range is drawn and presented as one new image. *)
Lemma firmware_display_page_image (r : Firmware.BookReader) (d : Screen.t) :
  0 <= Firmware.current_page r < Firmware.page_count r ->
  exists page ops,
    nth_error (Firmware.pages r) (Z.to_nat (Firmware.current_page r)) = Some page
    /\ Firmware.display_page r d
       = ({| Screen.buffer := ops;
             Screen.presented := Screen.presented d ++ [Screen.Canvas ops] |}, Py.Ok tt)
    /\ Canvas.texts ops = firstn 22 (Py.split_nl page) ++ [Firmware.page_info r].
Proof.
  intros Hr. unfold Firmware.display_page.
  destruct (index_nth (Firmware.pages r) (Firmware.current_page r) Hr)
    as (page & Hn & Hi).
  destruct (Firmware.pages r) as [|p0 ps] eqn:Hp; [destruct (Z.to_nat _); discriminate|].
  rewrite Hi.
  destruct (firmware_draw_lines (Py.split_nl page) 0 (Screen.new_buffer d)) as [E Ep].
  change (20 + 20 * Z.of_nat 0) with 20 in E, Ep.
  set (drawn := Firmware.draw_lines (Py.split_nl page) 20 (Screen.new_buffer d)) in *.
  exists page, (Screen.buffer drawn ++ [Screen.Text 10 (Screen.HEIGHT - 25)
                                          (Firmware.page_info r) false 0]).
  split; [exact Hn|]. split.
  - unfold Screen.display_image, Screen.draw_text, Screen.draw.
    cbn [Screen.buffer Screen.presented]. now rewrite Ep.
  - rewrite texts_app, E. reflexivity.
Qed.
End PageFacts.

(** X17: the firmware reader, with its cursor in range, presents exactly
    one new image: the lines of the current page in order, cut off after
    the 22nd, followed by the footer "Page c+1 of n". *)
Theorem X17_firmware_page_image (r : Firmware.BookReader) (d : Screen.t) :
  0 <= Firmware.current_page r < Firmware.page_count r ->
  exists page ops,
    nth_error (Firmware.pages r) (Z.to_nat (Firmware.current_page r)) = Some page
    /\ Firmware.display_page r d
       = ({| Screen.buffer := ops;
             Screen.presented := Screen.presented d ++ [Screen.Canvas ops] |}, Py.Ok tt)
    /\ Canvas.texts ops
       = firstn 22 (Py.split_nl page)
           ++ [("Page " ++ Py.str_of_int (Firmware.current_page r + 1) ++ " of "
                  ++ Py.str_of_int (Firmware.page_count r))%string].
Proof. apply firmware_display_page_image. Qed.

Lemma X17_firmware_page_image_witness :
  exists page ops,
    nth_error ["one"; "two"]%string (Z.to_nat 1) = Some page
    /\ Firmware.display_page (Firmware.MkBookReader Samples.a_txt 1 ["one"; "two"]%string)
         Screen.init
       = ({| Screen.buffer := ops; Screen.presented := [] ++ [Screen.Canvas ops] |},
          Py.Ok tt)
    /\ Canvas.texts ops = firstn 22 (Py.split_nl page) ++ ["Page 2 of 2"%string].
Proof.
  apply (X17_firmware_page_image
           (Firmware.MkBookReader Samples.a_txt 1 ["one"; "two"]%string) Screen.init).
  vm_compute. split; [discriminate | reflexivity].
Defined.

(** X18: the text and flow readers of the production program, with the
    cursor in range, present one new image with every line of the current
    page, however many, followed by the footer "Page c+1/n"; with no page
    at all they draw nothing and raise nothing. *)
Theorem X18_production_page_image (n : Z) (pages : list string) (d : Screen.t) :
  (0 <= n < Z.of_nat (length pages) ->
   exists page ops,
     nth_error pages (Z.to_nat n) = Some page
     /\ Production.display_text_page n pages d
        = ({| Screen.buffer := ops;
              Screen.presented := Screen.presented d ++ [Screen.Canvas ops] |}, Py.Ok tt)
     /\ Canvas.texts ops
        = Py.split_nl page
            ++ [("Page " ++ Py.str_of_int (n + 1) ++ "/"
                   ++ Py.str_of_int (Z.of_nat (length pages)))%string])
  /\ Production.display_text_page n [] d = (d, Py.Ok tt).
Proof.
  split; [|reflexivity]. intros Hn. unfold Production.display_text_page.
  destruct (index_nth pages n Hn) as (page & Hnth & Hi).
  destruct pages as [|p0 ps] eqn:Hp; [destruct (Z.to_nat n); discriminate|].
  rewrite Hi.
  destruct (production_draw_lines (Py.split_nl page) 20 (Screen.new_buffer d)) as [E Ep].
  fold (Production.draw_lines (Py.split_nl page) (Screen.new_buffer d)) in E, Ep.
  set (drawn := Production.draw_lines (Py.split_nl page) (Screen.new_buffer d)) in *.
  exists page, (Screen.buffer drawn
                  ++ [Screen.Text 10 (Screen.HEIGHT - 25)
                        (Production.page_info n (p0 :: ps)) false 0]).
  split; [exact Hnth|]. split.
  - unfold Screen.display_image, Screen.draw_text, Screen.draw.
    cbn [Screen.buffer Screen.presented]. now rewrite Ep.
  - rewrite texts_app, E. reflexivity.
Qed.

Lemma X18_production_page_image_witness :
  exists page ops,
    nth_error ["one"; "two"]%string (Z.to_nat 0) = Some page
    /\ Production.display_text_page 0 ["one"; "two"]%string Screen.init
       = ({| Screen.buffer := ops; Screen.presented := [] ++ [Screen.Canvas ops] |},
          Py.Ok tt)
    /\ Canvas.texts ops = Py.split_nl page ++ ["Page 1/2"%string].
Proof.
  apply (X18_production_page_image 0 ["one"; "two"]%string Screen.init).
  vm_compute. split; [discriminate | reflexivity].
Defined.

(** ** Many page turns *)

Section TurnFacts.

Lemma firmware_next_step (r : Firmware.BookReader) (d : Screen.t) :
  0 <= Firmware.current_page r < Firmware.page_count r - 1 ->
  exists d' v,
    Firmware.next_page r d = (Firmware.set_page (Firmware.current_page r + 1) r, (d', v))
    /\ length (Screen.presented d') = S (length (Screen.presented d)).
Proof.
  intros Hr. unfold Firmware.next_page.
  destruct (Z.ltb_spec (Firmware.current_page r) (Firmware.page_count r - 1)); [|lia].
  destruct (firmware_display_page_image
              (Firmware.set_page (Firmware.current_page r + 1) r) d)
    as (page & ops & _ & -> & _).
  { unfold Firmware.page_count in *.
    cbn [Firmware.current_page Firmware.set_page Firmware.pages]. lia. }
  eexists _, _. split; [reflexivity|].
  cbn [Screen.presented]. rewrite length_app. cbn [length]. lia.
Qed.

Lemma firmware_prev_step (r : Firmware.BookReader) (d : Screen.t) :
  0 < Firmware.current_page r < Firmware.page_count r ->
  exists d' v,
    Firmware.prev_page r d = (Firmware.set_page (Firmware.current_page r - 1) r, (d', v))
    /\ length (Screen.presented d') = S (length (Screen.presented d)).
Proof.
  intros Hr. unfold Firmware.prev_page.
  destruct (Z.gtb_spec (Firmware.current_page r) 0); [|lia].
  destruct (firmware_display_page_image
              (Firmware.set_page (Firmware.current_page r - 1) r) d)
    as (page & ops & _ & -> & _).
  { unfold Firmware.page_count in *.
    cbn [Firmware.current_page Firmware.set_page Firmware.pages]. lia. }
  eexists _, _. split; [reflexivity|].
  cbn [Screen.presented]. rewrite length_app. cbn [length]. lia.
Qed.

Lemma firmware_turns_next (k : nat) :
  forall (r : Firmware.BookReader) (d : Screen.t),
    0 <= Firmware.current_page r < Firmware.page_count r ->
    let out := Wiring.turns Firmware.next_page k r d in
    Firmware.current_page (fst out)
    = Z.min (Firmware.current_page r + Z.of_nat k) (Firmware.page_count r - 1)
    /\ Firmware.pages (fst out) = Firmware.pages r
    /\ Z.of_nat (length (Screen.presented (snd out)))
       = Z.of_nat (length (Screen.presented d))
         + Z.min (Z.of_nat k) (Firmware.page_count r - 1 - Firmware.current_page r).
Proof.
  induction k as [|k IH]; intros r d Hr; cbv zeta; cbn [Wiring.turns].
  - cbn [fst snd]. repeat split; lia.
  - destruct (Z.lt_ge_cases (Firmware.current_page r) (Firmware.page_count r - 1))
      as [Hin|Hend].
    + destruct (firmware_next_step r d ltac:(lia)) as (d' & v & -> & Hlen).
      specialize (IH (Firmware.set_page (Firmware.current_page r + 1) r) d').
      unfold Firmware.page_count in *.
      cbn [Firmware.current_page Firmware.set_page Firmware.pages] in IH.
      destruct IH as (Hc & Hp & Hf); [lia|]. cbv zeta in *.
      rewrite Hc, Hp, Hf, Hlen. repeat split; lia.
    + rewrite FirmwareFacts.next_page_at_end by lia.
      destruct (IH r d Hr) as (Hc & Hp & Hf). cbv zeta in *.
      rewrite Hc, Hp, Hf. repeat split; lia.
Qed.

Lemma firmware_turns_prev (k : nat) :
  forall (r : Firmware.BookReader) (d : Screen.t),
    0 <= Firmware.current_page r < Firmware.page_count r ->
    let out := Wiring.turns Firmware.prev_page k r d in
    Firmware.current_page (fst out) = Z.max (Firmware.current_page r - Z.of_nat k) 0
    /\ Firmware.pages (fst out) = Firmware.pages r
    /\ Z.of_nat (length (Screen.presented (snd out)))
       = Z.of_nat (length (Screen.presented d))
         + Z.min (Z.of_nat k) (Firmware.current_page r).
Proof.
  induction k as [|k IH]; intros r d Hr; cbv zeta; cbn [Wiring.turns].
  - cbn [fst snd]. repeat split; lia.
  - destruct (Z.lt_ge_cases 0 (Firmware.current_page r)) as [Hin|Hend].
    + destruct (firmware_prev_step r d ltac:(lia)) as (d' & v & -> & Hlen).
      specialize (IH (Firmware.set_page (Firmware.current_page r - 1) r) d').
      unfold Firmware.page_count in *.
      cbn [Firmware.current_page Firmware.set_page Firmware.pages] in IH.
      destruct IH as (Hc & Hp & Hf); [lia|]. cbv zeta in *.
      rewrite Hc, Hp, Hf, Hlen. repeat split; lia.
    + rewrite FirmwareFacts.prev_page_at_start by lia.
      destruct (IH r d Hr) as (Hc & Hp & Hf). cbv zeta in *.
      rewrite Hc, Hp, Hf. repeat split; lia.
Qed.

Lemma production_turns_next (k : nat) :
  forall (r : Production.BookReader) (d : Screen.t),
    0 <= Production.current_page r < Production.page_count r ->
    let out := Wiring.turns Production.next_page k r d in
    Production.current_page (fst out)
    = Z.min (Production.current_page r + Z.of_nat k) (Production.page_count r - 1)
    /\ Production.page_count (fst out) = Production.page_count r.
Proof.
  induction k as [|k IH]; intros r d Hr; cbv zeta; cbn [Wiring.turns].
  - cbn [fst]. split; lia.
  - pose proof (ProductionFacts.next_page_reader r d) as Hn.
    destruct (Production.next_page r d) as [r1 [d1 v]]. cbn [fst] in Hn. subst r1.
    destruct (Z.ltb_spec (Production.current_page r) (Production.page_count r - 1)).
    + specialize (IH (Production.set_page (Production.current_page r + 1) r) d1).
      rewrite ProductionFacts.current_page_set, ProductionFacts.page_count_set in IH.
      destruct IH as (Hc & Hp); [lia|]. cbv zeta in *. rewrite Hc, Hp. split; lia.
    + destruct (IH r d1 Hr) as (Hc & Hp). cbv zeta in *. rewrite Hc, Hp. split; lia.
Qed.

Lemma production_turns_prev (k : nat) :
  forall (r : Production.BookReader) (d : Screen.t),
    0 <= Production.current_page r < Production.page_count r ->
    let out := Wiring.turns Production.prev_page k r d in
    Production.current_page (fst out) = Z.max (Production.current_page r - Z.of_nat k) 0
    /\ Production.page_count (fst out) = Production.page_count r.
Proof.
  induction k as [|k IH]; intros r d Hr; cbv zeta; cbn [Wiring.turns].
  - cbn [fst]. split; lia.
  - pose proof (ProductionFacts.prev_page_reader r d) as Hn.
    destruct (Production.prev_page r d) as [r1 [d1 v]]. cbn [fst] in Hn. subst r1.
    destruct (Z.gtb_spec (Production.current_page r) 0).
    + specialize (IH (Production.set_page (Production.current_page r - 1) r) d1).
      rewrite ProductionFacts.current_page_set, ProductionFacts.page_count_set in IH.
      destruct IH as (Hc & Hp); [lia|]. cbv zeta in *. rewrite Hc, Hp. split; lia.
    + destruct (IH r d1 Hr) as (Hc & Hp). cbv zeta in *. rewrite Hc, Hp. split; lia.
Qed.
End TurnFacts.

(** X19: the firmware reader turned forward [k] times from page [c] of [n]
    stands on page [min (c + k) (n - 1)], turned back [k] times on page
    [max (c - k) 0]; its pages are untouched, and the display has been
    given one new image for every turn that moved, none for a turn at the
    end or at the start. *)
Theorem X19_firmware_repeated_turns (k : nat) (r : Firmware.BookReader) (d : Screen.t) :
  0 <= Firmware.current_page r < Firmware.page_count r ->
  let fwd := Wiring.turns Firmware.next_page k r d in
  let back := Wiring.turns Firmware.prev_page k r d in
  Firmware.current_page (fst fwd)
  = Z.min (Firmware.current_page r + Z.of_nat k) (Firmware.page_count r - 1)
  /\ Firmware.current_page (fst back) = Z.max (Firmware.current_page r - Z.of_nat k) 0
  /\ Firmware.pages (fst fwd) = Firmware.pages r
  /\ Firmware.pages (fst back) = Firmware.pages r
  /\ Z.of_nat (length (Screen.presented (snd fwd)))
     = Z.of_nat (length (Screen.presented d))
       + Z.min (Z.of_nat k) (Firmware.page_count r - 1 - Firmware.current_page r)
  /\ Z.of_nat (length (Screen.presented (snd back)))
     = Z.of_nat (length (Screen.presented d))
       + Z.min (Z.of_nat k) (Firmware.current_page r).
Proof.
  intros Hr fwd back.
  destruct (firmware_turns_next k r d Hr) as (H1 & H2 & H3).
  destruct (firmware_turns_prev k r d Hr) as (H4 & H5 & H6).
  now repeat split.
Qed.

Lemma X19_firmware_repeated_turns_witness :
  let r := Firmware.MkBookReader Samples.a_txt 1 ["one"; "two"; "three"]%string in
  Firmware.current_page (fst (Wiring.turns Firmware.next_page 5 r Screen.init)) = 2
  /\ Firmware.current_page (fst (Wiring.turns Firmware.prev_page 5 r Screen.init)) = 0
  /\ length (Screen.presented (snd (Wiring.turns Firmware.next_page 5 r Screen.init)))
     = 1%nat.
Proof.
  cbv zeta.
  destruct (X19_firmware_repeated_turns 5
              (Firmware.MkBookReader Samples.a_txt 1 ["one"; "two"; "three"]%string)
              Screen.init) as (H1 & H2 & _ & _ & H5 & _).
  - vm_compute. split; [discriminate | reflexivity].
  - split; [exact H1|]. split; [exact H2|]. apply Nat2Z.inj. exact H5.
Defined.

(** X20: each reader of the production program - text, PDF or EPUB -
    turned forward [k] times from page [c] of [n] stands on page
    [min (c + k) (n - 1)], and turned back [k] times on page
    [max (c - k) 0], whether or not drawing a page failed on the way. *)
Theorem X20_production_repeated_turns (k : nat) (r : Production.BookReader)
        (d : Screen.t) :
  0 <= Production.current_page r < Production.page_count r ->
  Production.current_page (fst (Wiring.turns Production.next_page k r d))
  = Z.min (Production.current_page r + Z.of_nat k) (Production.page_count r - 1)
  /\ Production.current_page (fst (Wiring.turns Production.prev_page k r d))
     = Z.max (Production.current_page r - Z.of_nat k) 0
  /\ Production.page_count (fst (Wiring.turns Production.next_page k r d))
     = Production.page_count r
  /\ Production.page_count (fst (Wiring.turns Production.prev_page k r d))
     = Production.page_count r.
Proof.
  intros Hr.
  destruct (production_turns_next k r d Hr) as (H1 & H2).
  destruct (production_turns_prev k r d Hr) as (H3 & H4).
  now repeat split.
Qed.

Lemma X20_production_repeated_turns_witness :
  let r := Production.PDFBookReader
             (MkPdfDoc 3 (fun _ => Py.Raise Samples.broken)) 0 3 in
  Production.current_page (fst (Wiring.turns Production.next_page 2 r Screen.init)) = 2
  /\ Production.current_page (fst (Wiring.turns Production.prev_page 2 r Screen.init)) = 0.
Proof.
  cbv zeta.
  destruct (X20_production_repeated_turns 2
              (Production.PDFBookReader
                 (MkPdfDoc 3 (fun _ => Py.Raise Samples.broken)) 0 3)
              Screen.init) as (H1 & H2 & _ & _).
  - vm_compute. split; [discriminate | reflexivity].
  - split; [exact H1 | exact H2].
Defined.

(** ** The menu image *)

Section MenuFacts.

Lemma inverted_app (a b : list Screen.op) :
  Canvas.inverted (a ++ b) = Canvas.inverted a ++ Canvas.inverted b.
Proof. unfold Canvas.inverted. apply flat_map_app. Qed.

Lemma bars_app (a b : list Screen.op) : Canvas.bars (a ++ b) = (Canvas.bars a + Canvas.bars b)%nat.
Proof. unfold Canvas.bars. now rewrite List.filter_app, length_app. Qed.

Lemma draw_items_image (items : list string) (sel : Z) :
  forall (i : Z) (d : Screen.t),
    let d' := Screen.draw_items i items sel d in
    Canvas.texts (Screen.buffer d') = Canvas.texts (Screen.buffer d) ++ items
    /\ Canvas.inverted (Screen.buffer d')
       = Canvas.inverted (Screen.buffer d) ++ row items (sel - i)
    /\ Canvas.bars (Screen.buffer d')
       = (Canvas.bars (Screen.buffer d) + length (row items (sel - i)))%nat
    /\ Screen.presented d' = Screen.presented d.
Proof.
  induction items as [|item items IH]; intros i d; cbv zeta; cbn [Screen.draw_items].
  - unfold row. destruct (0 <=? sel - i); [destruct (Z.to_nat (sel - i))|];
      cbn [nth_error length]; rewrite !app_nil_r, Nat.add_0_r; now repeat split.
  - assert (Hrow : row (item :: items) (sel - i)
                   = if i =? sel then [item] else row items (sel - (i + 1))).
    { unfold row. destruct (Z.eqb_spec i sel) as [->|Hne].
      - now replace (sel - sel) with 0 by lia.
      - destruct (Z.leb_spec 0 (sel - i)); destruct (Z.leb_spec 0 (sel - (i + 1)));
          try lia; [|reflexivity].
        replace (Z.to_nat (sel - i)) with (S (Z.to_nat (sel - (i + 1)))) by lia.
        reflexivity. }
    assert (Hafter : (i =? sel) = true -> row items (sel - (i + 1)) = []).
    { intros E. apply Z.eqb_eq in E. unfold row.
      destruct (Z.leb_spec 0 (sel - (i + 1))); [lia | reflexivity]. }
    rewrite Hrow.
    match goal with |- context [Screen.draw_items (i + 1) items sel ?x] =>
      destruct (IH (i + 1) x) as (Ht & Hi & Hb & Hp) end. cbv zeta in *.
    rewrite Ht, Hi, Hb, Hp. clear Ht Hi Hb Hp.
    destruct (i =? sel) eqn:E;
      cbn [Screen.draw Screen.buffer Screen.presented];
      rewrite ?texts_app, ?inverted_app, ?bars_app; cbn;
      rewrite <- ?app_assoc; cbn [app].
    + rewrite (Hafter eq_refl). cbn [length]. repeat split; lia.
    + repeat split; lia.
Qed.
End MenuFacts.

Lemma draw_menu_image (title : string) (items : list string) (sel : Z)
      (d : Screen.t) :
  exists ops,
    Screen.presented (Screen.draw_menu title items sel d)
    = Screen.presented d ++ [Screen.Canvas ops]
    /\ Canvas.texts ops = title :: items
    /\ Canvas.inverted ops
       = (if (0 <=? sel) && (sel <? Z.of_nat (length items))
          then firstn 1 (skipn (Z.to_nat sel) items) else [])
    /\ Canvas.bars ops = length (Canvas.inverted ops).
Proof.
  unfold Screen.draw_menu. cbv zeta.
  set (d2 := Screen.draw _ (Screen.draw _ (Screen.new_buffer d))).
  destruct (draw_items_image items sel 0 d2) as (Ht & Hi & Hb & Hp). cbv zeta in *.
  exists (Screen.buffer (Screen.draw_items 0 items sel d2)).
  unfold Screen.display_image. cbn [Screen.presented Screen.buffer].
  rewrite Hp, Ht, Hi, Hb. subst d2. cbn [Screen.draw Screen.new_buffer Screen.buffer
    Screen.presented app]. cbn [Canvas.texts Canvas.inverted Canvas.bars flat_map
    List.filter length app Z.eqb]. rewrite Z.sub_0_r.
  split; [reflexivity|]. split; [reflexivity|].
  assert (Hrow : row items sel
                 = if (0 <=? sel) && (sel <? Z.of_nat (length items))
                   then firstn 1 (skipn (Z.to_nat sel) items) else []).
  { unfold row. destruct (Z.leb_spec 0 sel); [|reflexivity]. cbn [andb].
    destruct (Z.ltb_spec sel (Z.of_nat (length items))).
    - destruct (nth_error items (Z.to_nat sel)) as [item|] eqn:E.
      + apply nth_error_split in E as (l1 & l2 & -> & Hlen).
        rewrite <- Hlen, skipn_app, skipn_all, Nat.sub_diag. reflexivity.
      + apply nth_error_None in E. lia.
    - destruct (nth_error items (Z.to_nat sel)) as [item|] eqn:E; [|reflexivity].
      assert (nth_error items (Z.to_nat sel) <> None) by congruence.
      apply nth_error_Some in H1. lia. }
  rewrite Hrow. now split.
Qed.

(** X21: [draw_menu] presents one new image that shows the title and then
    every item in order.  Exactly the item at the selected index is drawn
    in white on a bar; when the index is no row of the menu - negative, or
    past the last item - nothing is highlighted. *)
Theorem X21_draw_menu_image (title : string) (items : list string) (sel : Z)
        (d : Screen.t) :
  exists ops,
    Screen.presented (Screen.draw_menu title items sel d)
    = Screen.presented d ++ [Screen.Canvas ops]
    /\ Canvas.texts ops = title :: items
    /\ Canvas.inverted ops
       = (if (0 <=? sel) && (sel <? Z.of_nat (length items))
          then firstn 1 (skipn (Z.to_nat sel) items) else [])
    /\ Canvas.bars ops = length (Canvas.inverted ops).
Proof. apply draw_menu_image. Qed.

(** ** The controller: what the buttons do and do not do *)

Section ButtonFacts.
Import Firmware.

Lemma handle_in_menu_noop (act : action) (w : World) (a : App) :
  current_menu a = Main ->
  In act [Left; Right; Menu; Back; Bookmark; SettingsKey] ->
  handle act w a = a.
Proof.
  intros Hm Hact. cbn [In] in Hact.
  repeat (destruct Hact as [<-|Hact]); try contradiction; cbn [handle];
    unfold handle_left, handle_right, handle_menu, handle_back, handle_bookmark,
      handle_settings; now rewrite ?Hm.
Qed.

Lemma on_book_none m (a : App) : current_book a = None -> on_book m a = a.
Proof. intros Hb. unfold on_book. now rewrite Hb. Qed.

Lemma handle_at_edges (w : World) (a : App) :
  current_menu a = Main ->
  (selected_index a <= 0 -> handle Up w a = a)
  /\ (Z.of_nat (length (current_files a)) - 1 <= selected_index a -> handle Down w a = a).
Proof.
  intros Hm. cbn [handle]. unfold handle_up, handle_down. rewrite Hm.
  unfold FileManager.get_file_list. rewrite length_map. split; intros Hi.
  - destruct (Z.gtb_spec (selected_index a) 0); [lia | reflexivity].
  - destruct (Z.ltb_spec (selected_index a) (Z.of_nat (length (current_files a)) - 1));
      [lia | reflexivity].
Qed.

Lemma startup_fields (w : World) :
  current_menu (startup w : App) = Main
  /\ selected_index (startup w : App) = 0
  /\ current_files (startup w : App) = FileManager.refresh_files w
  /\ current_book (startup w : App) = None.
Proof. now repeat split. Qed.

(** With an empty listing nothing moves. *)
Lemma handle_empty_listing (act : action) (w : World) (a : App) :
  current_menu a = Main -> selected_index a = 0 -> current_files a = [] ->
  handle act w a = a.
Proof.
  intros Hm Hi Hf.
  destruct (handle_at_edges w a Hm) as [Hup Hdown].
  destruct act;
    try (apply handle_in_menu_noop; [exact Hm | cbn [In]; tauto]).
  - apply Hup. lia.
  - apply Hdown. rewrite Hf. cbn [length]. lia.
  - cbn [handle]. unfold handle_select, open_book. rewrite Hm, Hf, Hi. reflexivity.
Qed.

(** Opening a text file whose page for the resumed cursor exists. *)
Lemma open_book_reading (w : World) (a : App) (p : Path) :
  FileManager.get_file_path (current_files a) (selected_index a) = Some p ->
  Py.lower (path_suffix p) = ".txt"%string ->
  0 <= resumed (settings a) p
    < Z.of_nat (length (TextPages.load_book (read_text w (path_str p)))) ->
  current_menu (open_book w a) = Reading
  /\ current_book (open_book w a)
     = Some {| file_path := p; current_page := resumed (settings a) p;
               pages := TextPages.load_book (read_text w (path_str p)) |}
  /\ selected_index (open_book w a) = selected_index a
  /\ settings (open_book w a) = settings a
  /\ logged (open_book w a) = logged a.
Proof.
  intros Hp Hext Hres.
  pose proof (OpenFacts.firmware_open_book_reader w a p Hp Hext) as Hbook.
  unfold open_book in *. rewrite Hp, Hext in *.
  change (String.eqb ".txt" ".txt") with true in *. cbv iota in *.
  set (r := if decide (Some (path_str p) = Settings.last_book (settings a))
            then set_page (default 0 (Settings.last_page (settings a))) (new_reader w p)
            else new_reader w p) in *.
  assert (Hr : r = {| file_path := p; current_page := resumed (settings a) p;
                      pages := TextPages.load_book (read_text w (path_str p)) |}).
  { subst r. unfold resumed. now case_decide. }
  destruct (firmware_display_page_image r (display (set_book (Some r) a)))
    as (page & ops & _ & -> & _).
  { rewrite Hr. unfold page_count. cbn [current_page pages]. exact Hres. }
  cbn. rewrite Hr. now repeat split.
Qed.
End ButtonFacts.

(** X22: the actions that have no meaning in a mode change nothing at all.
    In the menu: left, right, menu, back, bookmark and settings, and also
    up on the first row and down on the last.  While reading: select and
    settings, and every page turn and bookmark when no book is open. *)
Theorem X22_actions_without_effect (act : Firmware.action) (w : World)
        (a : Firmware.App) :
  (current_menu a = Main ->
   In act [Firmware.Left; Firmware.Right; Firmware.Menu; Firmware.Back;
           Firmware.Bookmark; Firmware.SettingsKey] ->
   Firmware.handle act w a = a)
  /\ (current_menu a = Main -> selected_index a <= 0 ->
      Firmware.handle Firmware.Up w a = a)
  /\ (current_menu a = Main ->
      Z.of_nat (length (current_files a)) - 1 <= selected_index a ->
      Firmware.handle Firmware.Down w a = a)
  /\ (current_menu a = Reading ->
      In act [Firmware.Select; Firmware.SettingsKey] ->
      Firmware.handle act w a = a)
  /\ (current_menu a = Reading -> current_book a = None ->
      In act [Firmware.Up; Firmware.Down; Firmware.Left; Firmware.Right;
              Firmware.Bookmark] ->
      Firmware.handle act w a = a).
Proof.
  split; [apply handle_in_menu_noop|].
  split; [intros Hm; now apply handle_at_edges|].
  split; [intros Hm; now apply handle_at_edges|].
  split.
  - intros Hm Hact. cbn [In] in Hact.
    repeat (destruct Hact as [<-|Hact]); try contradiction; cbn [Firmware.handle];
      unfold Firmware.handle_select, Firmware.handle_settings; now rewrite ?Hm.
  - intros Hm Hb Hact. cbn [In] in Hact.
    repeat (destruct Hact as [<-|Hact]); try contradiction; cbn [Firmware.handle];
      unfold Firmware.handle_up, Firmware.handle_down, Firmware.handle_left,
        Firmware.handle_right, Firmware.handle_bookmark;
      rewrite Hm; rewrite ?Hb; try reflexivity; now apply on_book_none.
Qed.

Lemma X22_actions_without_effect_witness :
  Firmware.handle Firmware.Back Samples.shelf (startup Samples.shelf)
  = startup Samples.shelf
  /\ Firmware.handle Firmware.Up Samples.shelf (startup Samples.shelf)
     = startup Samples.shelf.
Proof.
  destruct (X22_actions_without_effect Firmware.Back Samples.shelf
              (startup Samples.shelf)) as (Hmenu & Hup & _).
  split.
  - apply Hmenu; [reflexivity | cbn [In]; tauto].
  - apply Hup; [reflexivity | cbn; lia].
Defined.

(** X23: when the book directory holds no supported file at start-up, the
    menu shows the single line "No books found", highlighted, and from
    then on no sequence of actions changes anything: the listing is only
    re-read by a redraw, and nothing redraws. *)
Theorem X23_empty_directory (w : World) (run : list (Firmware.action * World)) :
  FileManager.refresh_files w = [] ->
  fold_left (fun a step => Firmware.handle (fst step) (snd step) a) run (startup w)
  = startup w
  /\ Canvas.texts (Canvas.last_ops (display (startup w : Firmware.App)))
     = ["E-Reader"; "No books found"]%string
  /\ Canvas.inverted (Canvas.last_ops (display (startup w : Firmware.App)))
     = ["No books found"%string].
Proof.
  intros Hempty. split.
  - induction run as [|[act w'] run IH]; [reflexivity|]. cbn [fold_left fst snd].
    rewrite handle_empty_listing; [exact IH | reflexivity | reflexivity|].
    cbn. exact Hempty.
  - unfold startup, show_main_menu. rewrite Hempty. now split.
Qed.

Lemma X23_empty_directory_witness :
  fold_left (fun a step => Firmware.handle (fst step) (snd step) a)
            [(Firmware.Down, Samples.shelf); (Firmware.Select, Samples.shelf)]
            (startup (MkWorld [(Samples.a_txt, false)] (read_text Samples.shelf)
                        (fitz_open Samples.shelf) (read_epub Samples.shelf)
                        (settings_text Samples.shelf) (json_load Samples.shelf)
                        (settings_write Samples.shelf)))
  = startup (MkWorld [(Samples.a_txt, false)] (read_text Samples.shelf)
               (fitz_open Samples.shelf) (read_epub Samples.shelf)
               (settings_text Samples.shelf) (json_load Samples.shelf)
               (settings_write Samples.shelf)).
Proof.
  apply (X23_empty_directory
           (MkWorld [(Samples.a_txt, false)] (read_text Samples.shelf)
              (fitz_open Samples.shelf) (read_epub Samples.shelf)
              (settings_text Samples.shelf) (json_load Samples.shelf)
              (settings_write Samples.shelf))
           [(Firmware.Down, Samples.shelf); (Firmware.Select, Samples.shelf)]).
  reflexivity.
Defined.

Section BookmarkFacts.
Import Firmware.

(** What the bookmark action leaves, whatever the write does. *)
Lemma handle_bookmark_fields (w : World) (a : App) (r : BookReader) :
  current_menu a = Reading -> current_book a = Some r ->
  let a' := handle Bookmark w a in
  settings a'
  = {| Settings.last_book := Some (path_str (file_path r));
       Settings.last_page := Some (current_page r);
       Settings.font_size := Settings.font_size (settings a) |}
  /\ current_book a' = Some r
  /\ current_menu a' = Reading
  /\ display a' = display a
  /\ selected_index a' = selected_index a
  /\ current_files a' = current_files a.
Proof.
  intros Hm Hb. cbv zeta. cbn [handle]. unfold handle_bookmark, save_settings.
  rewrite Hm, Hb. destruct (settings_write w); cbn; now repeat split.
Qed.

Lemma on_book_next (a : App) (r : BookReader) :
  current_book a = Some r ->
  current_book (on_book next_page a) = Some (fst (next_page r (display a)))
  /\ current_menu (on_book next_page a) = current_menu a.
Proof.
  intros Hb. unfold on_book. rewrite Hb.
  destruct (next_page r (display a)) as [r' [d' v]]. now split.
Qed.

Lemma next_page_cursor (r : BookReader) (d : Screen.t) :
  0 <= current_page r < page_count r ->
  current_page (fst (next_page r d)) = Z.min (current_page r + 1) (page_count r - 1)
  /\ page_count (fst (next_page r d)) = page_count r.
Proof.
  intros Hr. rewrite CursorFacts.firmware_next_page_reader.
  destruct (Z.ltb_spec (current_page r) (page_count r - 1));
    unfold page_count in *; cbn [current_page set_page pages]; split; lia.
Qed.
End BookmarkFacts.

(** X24: a bookmark brings the reader back.  Bookmark the open text book
    on page [c], return to the menu, and select the same file again (it
    still stands at the selected row and reads as before): the book opens
    in reading mode on page [c] - whether or not the settings could be
    written to disk. *)
Theorem X24_bookmark_round_trip (w1 w2 w3 : World) (a : Firmware.App)
        (r : Firmware.BookReader) :
  current_menu a = Reading -> current_book a = Some r ->
  0 <= Firmware.current_page r < Firmware.page_count r ->
  Py.lower (path_suffix (Firmware.file_path r)) = ".txt"%string ->
  FileManager.get_file_path (FileManager.refresh_files w2) (selected_index a)
  = Some (Firmware.file_path r) ->
  TextPages.load_book (read_text w3 (path_str (Firmware.file_path r)))
  = Firmware.pages r ->
  let a3 := Firmware.handle Firmware.Select w3
              (Firmware.handle Firmware.Menu w2
                 (Firmware.handle Firmware.Bookmark w1 a)) in
  current_menu a3 = Reading /\ current_book a3 = Some r.
Proof.
  intros Hm Hb Hr Hext Hp Hsame. cbv zeta.
  destruct (handle_bookmark_fields w1 a r Hm Hb) as (Hs & _ & Hm1 & _ & Hi1 & _).
  cbv zeta in *.
  set (a1 := Firmware.handle Firmware.Bookmark w1 a) in *.
  assert (Ha2 : Firmware.handle Firmware.Menu w2 a1 = show_main_menu w2 (set_menu Main a1)).
  { cbn [Firmware.handle]. unfold Firmware.handle_menu. now rewrite Hm1. }
  rewrite Ha2. set (a2 := show_main_menu w2 (set_menu Main a1)).
  assert (Hres : resumed (settings a2) (Firmware.file_path r) = Firmware.current_page r).
  { change (settings a2) with (settings a1). rewrite Hs. unfold resumed.
    cbn [Settings.last_book Settings.last_page]. case_decide; [reflexivity | congruence]. }
  destruct (open_book_reading w3 a2 (Firmware.file_path r)) as (Hm3 & Hb3 & _).
  - change (current_files a2) with (FileManager.refresh_files w2).
    change (selected_index a2) with (selected_index a1). now rewrite Hi1.
  - exact Hext.
  - rewrite Hres, Hsame. exact Hr.
  - cbn [Firmware.handle]. unfold Firmware.handle_select.
    change (current_menu a2) with Main. cbv iota. split; [exact Hm3|].
    rewrite Hb3, Hres, Hsame. now destruct r.
Qed.

Lemma X24_bookmark_round_trip_witness :
  let a := Firmware.handle Firmware.Select Samples.shelf (startup Samples.shelf) in
  let a3 := Firmware.handle Firmware.Select Samples.shelf
              (Firmware.handle Firmware.Menu Samples.shelf
                 (Firmware.handle Firmware.Bookmark Samples.shelf a)) in
  current_menu a3 = Reading
  /\ current_book a3
     = Some (Firmware.MkBookReader Samples.a_txt 0
               [("alpha" ++ Py.nl ++ "beta")%string]).
Proof.
  cbv zeta.
  apply (X24_bookmark_round_trip Samples.shelf Samples.shelf Samples.shelf
           (Firmware.handle Firmware.Select Samples.shelf (startup Samples.shelf))
           (Firmware.MkBookReader Samples.a_txt 0
              [("alpha" ++ Py.nl ++ "beta")%string])).
  - reflexivity.
  - reflexivity.
  - vm_compute. split; [discriminate | reflexivity].
  - reflexivity.
  - reflexivity.
  - reflexivity.
Defined.

(** X25: one press turns one page.  With the handlers bound at start-up
    and a book open, an accepted edge on the joystick's right line
    followed by a second one less than 200 ms later moves the cursor one
    page forward (not two); a second edge 200 ms or more later moves it a
    second page; in both cases never past the last page. *)
Theorem X25_one_press_one_page (router : InputHandler.t Firmware.action)
        (a : Firmware.App) (w w' : World) (r : Firmware.BookReader) (t1 t2 : Z) :
  InputHandler.event_handlers router
  = InputHandler.event_handlers Firmware.setup_input_handlers ->
  (forall last,
      InputHandler.last_press_time router !! InputHandler.JOYSTICK_RIGHT = Some last ->
      InputHandler.debounce_delay <= t1 - last) ->
  current_menu a = Reading -> current_book a = Some r ->
  0 <= Firmware.current_page r < Firmware.page_count r ->
  let st := Wiring.on_edge t2 InputHandler.JOYSTICK_RIGHT w'
              (Wiring.on_edge t1 InputHandler.JOYSTICK_RIGHT w (router, a)) in
  (t2 - t1 < 200 ->
   option_map Firmware.current_page (current_book (snd st))
   = Some (Z.min (Firmware.current_page r + 1) (Firmware.page_count r - 1)))
  /\ (200 <= t2 - t1 ->
      option_map Firmware.current_page (current_book (snd st))
      = Some (Z.min (Firmware.current_page r + 2) (Firmware.page_count r - 1))).
Proof.
  intros Hh Hfirst Hm Hb Hr. cbv zeta.
  assert (Hbound : InputHandler.event_handlers router !! "right"%string
                   = Some Firmware.Right) by (rewrite Hh; vm_compute; reflexivity).
  destruct (on_book_next a r Hb) as [Hb1 Hm1]. rewrite Hm in Hm1.
  destruct (next_page_cursor r (display a) Hr) as [Hc1 Hn1].
  set (a1 := Firmware.on_book Firmware.next_page a) in *.
  set (r1 := fst (Firmware.next_page r (display a))) in *.
  assert (E1 : Wiring.on_edge t1 InputHandler.JOYSTICK_RIGHT w (router, a)
               = ({| InputHandler.last_press_time :=
                       <[InputHandler.JOYSTICK_RIGHT := t1]>
                         (InputHandler.last_press_time router);
                     InputHandler.event_handlers := InputHandler.event_handlers router |},
                  a1)).
  { unfold Wiring.on_edge.
    rewrite (handle_input_accept router InputHandler.JOYSTICK_RIGHT t1 "right"
               Firmware.Right eq_refl Hbound Hfirst).
    cbn [fold_left Firmware.handle]. unfold Firmware.handle_right. now rewrite Hm. }
  rewrite E1. unfold Wiring.on_edge. split; intros Ht.
  - rewrite (handle_input_discard _ InputHandler.JOYSTICK_RIGHT t2 t1);
      [| cbn; apply lookup_insert_eq | exact Ht].
    cbn [fold_left snd]. rewrite Hb1. cbn [option_map]. now rewrite Hc1.
  - rewrite (handle_input_accept _ InputHandler.JOYSTICK_RIGHT t2 "right"
               Firmware.Right eq_refl).
    + cbn [fold_left snd Firmware.handle]. unfold Firmware.handle_right. rewrite Hm1.
      destruct (on_book_next a1 r1 Hb1) as [-> _]. cbn [option_map].
      destruct (next_page_cursor r1 (display a1)) as [-> _]; [rewrite Hc1, Hn1; lia|].
      rewrite Hc1, Hn1. f_equal. lia.
    + exact Hbound.
    + cbn. intros last. rewrite lookup_insert_eq. intros [= <-].
      unfold InputHandler.debounce_delay. lia.
Qed.

Lemma X25_one_press_one_page_witness :
  let a := set_book (Some (Firmware.MkBookReader Samples.a_txt 0
                                      ["one"; "two"; "three"]%string))
             (Firmware.handle Firmware.Select Samples.shelf (startup Samples.shelf)) in
  let st := Wiring.on_edge 150 InputHandler.JOYSTICK_RIGHT Samples.shelf
              (Wiring.on_edge 0 InputHandler.JOYSTICK_RIGHT Samples.shelf
                 (Firmware.setup_input_handlers, a)) in
  option_map Firmware.current_page (current_book (snd st)) = Some 1.
Proof.
  cbv zeta.
  eapply (X25_one_press_one_page Firmware.setup_input_handlers _ Samples.shelf
            Samples.shelf
            (Firmware.MkBookReader Samples.a_txt 0 ["one"; "two"; "three"]%string)
            0 150).
  - reflexivity.
  - intros last Hl. vm_compute in Hl. discriminate Hl.
  - reflexivity.
  - reflexivity.
  - vm_compute. split; [discriminate | reflexivity].
  - lia.
Defined.

(** X26: the bookmark action stores the path and the cursor of the open
    book in the settings and touches neither the book, the mode, the
    display nor the selection.  When the write succeeds the stored record
    is what is on disk and nothing is logged; when it fails the disk copy
    stays as it was, one error is logged, and the bookmark is still kept
    in memory. *)
Theorem X26_bookmark_is_kept (w : World) (a : Firmware.App) (r : Firmware.BookReader) :
  current_menu a = Reading -> current_book a = Some r ->
  let mark := {| Settings.last_book := Some (path_str (Firmware.file_path r));
                 Settings.last_page := Some (Firmware.current_page r);
                 Settings.font_size := Settings.font_size (settings a) |} in
  let a' := Firmware.handle Firmware.Bookmark w a in
  settings a' = mark
  /\ current_book a' = Some r /\ current_menu a' = Reading
  /\ display a' = display a /\ selected_index a' = selected_index a
  /\ (settings_write w = Py.Ok tt -> persisted a' = Some mark /\ logged a' = logged a)
  /\ (forall e, settings_write w = Py.Raise e ->
                persisted a' = persisted a
                /\ logged a'
                   = logged a ++ [(ERROR, ("Error saving settings: " ++ Py.exn_msg e)%string)]).
Proof.
  intros Hm Hb. cbv zeta.
  destruct (handle_bookmark_fields w a r Hm Hb) as (Hs & Hb' & Hm' & Hd & Hi & _).
  cbv zeta in *. repeat split; try assumption.
  - cbn [Firmware.handle]. unfold Firmware.handle_bookmark, save_settings.
    rewrite Hm, Hb, H. reflexivity.
  - cbn [Firmware.handle]. unfold Firmware.handle_bookmark, save_settings.
    rewrite Hm, Hb, H. reflexivity.
  - cbn [Firmware.handle]. unfold Firmware.handle_bookmark, save_settings.
    rewrite Hm, Hb, H. reflexivity.
  - cbn [Firmware.handle]. unfold Firmware.handle_bookmark, save_settings.
    rewrite Hm, Hb, H. reflexivity.
Qed.

Lemma X26_bookmark_is_kept_witness :
  let a := Firmware.handle Firmware.Select Samples.shelf (startup Samples.shelf) in
  let a' := Firmware.handle Firmware.Bookmark Samples.shelf a in
  settings a'
  = {| Settings.last_book := Some "/home/pi/books/a.txt"%string;
       Settings.last_page := Some 0; Settings.font_size := Some 16 |}
  /\ persisted a' = Some (settings a').
Proof.
  cbv zeta.
  destruct (X26_bookmark_is_kept Samples.shelf
              (Firmware.handle Firmware.Select Samples.shelf (startup Samples.shelf))
              (Firmware.MkBookReader Samples.a_txt 0
                 [("alpha" ++ Py.nl ++ "beta")%string]))
    as (Hs & _ & _ & _ & _ & Hok & _).
  - reflexivity.
  - reflexivity.
  - split; [exact Hs|]. rewrite Hs. apply Hok. reflexivity.
Defined.

Section RedrawFacts.

Lemma show_main_menu_image {R : Type} (w : World) (a : EReader R) :
  let a' := show_main_menu w a in
  current_files a' = FileManager.refresh_files w
  /\ selected_index a' = selected_index a
  /\ current_menu a' = Main
  /\ length (Screen.presented (display a')) = S (length (Screen.presented (display a)))
  /\ Canvas.texts (Canvas.last_ops (display a'))
     = "E-Reader"%string :: menu_names (FileManager.refresh_files w)
  /\ Canvas.inverted (Canvas.last_ops (display a'))
     = (if (0 <=? selected_index a)
           && (selected_index a
               <? Z.of_nat (length (menu_names (FileManager.refresh_files w))))
        then firstn 1 (skipn (Z.to_nat (selected_index a))
                         (menu_names (FileManager.refresh_files w)))
        else []).
Proof.
  cbv zeta.
  destruct (draw_menu_image "E-Reader" (menu_names (FileManager.refresh_files w))
              (selected_index a) (display a)) as (ops & Hp & Ht & Hi & _).
  change (display (show_main_menu w a))
    with (Screen.draw_menu "E-Reader" (menu_names (FileManager.refresh_files w))
            (selected_index a) (display a)).
  unfold Canvas.last_ops. rewrite Hp, last_snoc, length_app. cbn [length].
  repeat split; try assumption. lia.
Qed.
End RedrawFacts.

Lemma show_main_menu_redrawn (w : World) (a : Firmware.App) :
  redrawn w (selected_index a) (show_main_menu w a).
Proof.
  destruct (show_main_menu_image w a) as (Hf & Hi & Hm & _ & Ht & Hv).
  cbv zeta in *. unfold redrawn. now repeat split.
Qed.

(** X27: every move in the menu and every return to it redraws from a
    fresh scan of the directory.  Up from a row above the first selects
    the row before, down from a row before the last of the old listing
    selects the row after, menu and back while reading keep the row; in
    each case the image lists the files found now, and the selected row is
    highlighted only if the new listing still has it. *)
Theorem X27_menu_redraw (w : World) (a : Firmware.App) :
  (current_menu a = Main -> 0 < selected_index a ->
   redrawn w (selected_index a - 1) (Firmware.handle Firmware.Up w a))
  /\ (current_menu a = Main ->
      selected_index a < Z.of_nat (length (current_files a)) - 1 ->
      redrawn w (selected_index a + 1) (Firmware.handle Firmware.Down w a))
  /\ (current_menu a = Reading ->
      redrawn w (selected_index a) (Firmware.handle Firmware.Menu w a)
      /\ redrawn w (selected_index a) (Firmware.handle Firmware.Back w a)).
Proof.
  split; [|split].
  - intros Hm Hi. cbn [Firmware.handle]. unfold Firmware.handle_up. rewrite Hm.
    destruct (Z.gtb_spec (selected_index a) 0); [|lia].
    apply (show_main_menu_redrawn w (set_index (selected_index a - 1) a)).
  - intros Hm Hi. cbn [Firmware.handle]. unfold Firmware.handle_down. rewrite Hm.
    unfold FileManager.get_file_list. rewrite length_map.
    destruct (Z.ltb_spec (selected_index a) (Z.of_nat (length (current_files a)) - 1));
      [|lia].
    apply (show_main_menu_redrawn w (set_index (selected_index a + 1) a)).
  - intros Hm. cbn [Firmware.handle]. unfold Firmware.handle_menu, Firmware.handle_back.
    rewrite Hm. split; apply (show_main_menu_redrawn w (set_menu Main a)).
Qed.

Lemma X27_menu_redraw_witness :
  redrawn Samples.thinned 1
    (Firmware.handle Firmware.Down Samples.thinned (startup Samples.shelf)).
Proof.
  apply (X27_menu_redraw Samples.thinned (startup Samples.shelf)).
  - reflexivity.
  - vm_compute. reflexivity.
Defined.
